(** * EvolveED.ai backend: the prompt / inference / parse / fallback pipeline

    A shallow embedding of the [ai_service] helpers of the notes, quizzes and
    roadmaps apps, and the properties of the retry client, the notes parser
    and fallback, the quiz generator, short-answer grading, roadmap progress
    and YouTube URL handling.

    Python values are modelled as follows.
    - [str] is a list of Unicode code points ([N]), so that [len], slicing
      and indexing count characters as Python does.
    - The Unicode character database (which characters are white space or
      decimal digits, and how [str.lower] maps a string) is an interface,
      [UnicodeData]; every general theorem holds for every implementation of
      it.  Concrete evaluations use [ascii_data], which agrees with CPython
      on texts whose letters and digits are ASCII.
    - Exceptions are explicit: a computation that can raise returns a
      [result].
    - [a / b] on two integers is the floating-point division of Python: the
      quotient rounded to the nearest double, written out on integers.
    - The network is an oracle giving the outcome of the k-th POST of a
      call; the client returns the trace of its POSTs and sleeps next to its
      result. *)

From Stdlib Require Import ZArith String Ascii DecimalString.
From Stdlib Require SpecFloat.
From stdpp Require Import base list gmap.
From Equations Require Import Equations.

Local Open Scope nat_scope.

(** ** Python strings *)

Abbreviation str := (list N).

(** A literal of the source, as code points (the literals below are ASCII). *)
Definition py (s : string) : str :=
  (fun a => N_of_ascii a) <$> list_ascii_of_string s.

Definition NL : N := 10.
Definition DOT : N := 46.
Definition SPACE : N := 32.
Definition QMARK : N := 63.
Definition HYPHEN : N := 45.
Definition STAR : N := 42.
Definition SLASH : N := 47.
Definition DQUOTE : N := 34.
Definition BULLET : N := 8226.

Class UnicodeData := {
  (** [str.isspace] on one character, also what [\s] matches *)
  isspace : N -> bool;
  (** what [\d] matches: the decimal digits of Unicode *)
  isdecimal : N -> bool;
  (** [str.lower] *)
  lower : str -> str;
  (** [''.lower() == ''] *)
  lower_nil : lower [] = []
}.

Definition str_eqb (a b : str) : bool := bool_decide (a = b).

(** [s.split(sep)] for a separator of one character. *)
Fixpoint split (sep : N) (s : str) : list str :=
  match s with
  | [] => [[]]
  | c :: s' =>
      if N.eqb c sep then [] :: split sep s'
      else match split sep s' with
           | w :: ws => (c :: w) :: ws
           | [] => [[c]]
           end
  end.

(** [sep.join(parts)] *)
Fixpoint join (sep : str) (parts : list str) : str :=
  match parts with
  | [] => []
  | [p] => p
  | p :: ps => p ++ sep ++ join sep ps
  end.

Fixpoint drop_while {A} (f : A -> bool) (l : list A) : list A :=
  match l with
  | [] => []
  | x :: l' => if f x then drop_while f l' else l
  end.

Fixpoint startswith (p s : str) : bool :=
  match p, s with
  | [], _ => true
  | _ :: _, [] => false
  | a :: p', b :: s' => N.eqb a b && startswith p' s'
  end.

Definition endswith (p s : str) : bool := startswith (reverse p) (reverse s).

(** [sub in s] *)
Fixpoint contains (sub s : str) : bool :=
  startswith sub s ||
  match s with
  | [] => false
  | _ :: s' => contains sub s'
  end.

(** [x in l] for a list of strings *)
Definition mem (x : str) (l : list str) : bool := existsb (str_eqb x) l.

(** Truth value of a string or of a list: non-empty. *)
Definition nonempty {A} (l : list A) : bool :=
  match l with [] => false | _ :: _ => true end.

Section Strings.
Context `{UnicodeData}.

Definition lstrip (s : str) : str := drop_while isspace s.
Definition rstrip (s : str) : str := reverse (drop_while isspace (reverse s)).
(** [s.strip()] *)
Definition strip (s : str) : str := rstrip (lstrip s).

(** [re.match(r'^\d+\.', line)]: one or more decimal digits, then a dot
    (with the backtracking of the regular expression written out). *)
Fixpoint re_match_digits_dot (line : str) : bool :=
  match line with
  | [] => false
  | c :: rest =>
      isdecimal c &&
      (match rest with d :: _ => N.eqb d DOT | [] => false end
       || re_match_digits_dot rest)
  end.

(** The character class [[•\-*\d\.]]. *)
Definition marker_class (c : N) : bool :=
  N.eqb c BULLET || N.eqb c HYPHEN || N.eqb c STAR || isdecimal c || N.eqb c DOT.

(** [re.sub(r'^[•\-*\d\.]\s*', '', line)]: the pattern is anchored at the
    start, so at most one match, of one class character and the white
    space after it, is removed. *)
Definition re_sub_marker (line : str) : str :=
  match line with
  | c :: rest => if marker_class c then drop_while isspace rest else line
  | [] => []
  end.
End Strings.

(** The ASCII part of the Unicode tables.  [ascii_isspace] is CPython's full
    white-space table; digits and case mapping are those of ASCII. *)
Definition ascii_isspace (c : N) : bool :=
  ((9 <=? c) && (c <=? 13) || (28 <=? c) && (c <=? 32) || (c =? 133) || (c =? 160)
   || (c =? 5760) || (8192 <=? c) && (c <=? 8202) || (c =? 8232) || (c =? 8233)
   || (c =? 8239) || (c =? 8287) || (c =? 12288))%N.

Definition ascii_isdecimal (c : N) : bool := ((48 <=? c) && (c <=? 57))%N.

Definition ascii_lower_char (c : N) : N :=
  (if (65 <=? c) && (c <=? 90) then c + 32 else c)%N.

Definition ascii_lower (s : str) : str := ascii_lower_char <$> s.

#[export] Instance ascii_data : UnicodeData := {|
  isspace := ascii_isspace;
  isdecimal := ascii_isdecimal;
  lower := ascii_lower;
  lower_nil := eq_refl
|}.

(** ** Exceptions and results *)

Inductive exn :=
| ConnectionError           (* requests.post: transport fault *)
| Timeout                   (* requests.post: transport fault *)
| JSONDecodeError           (* response.json() on a body that is not JSON *)
| AttributeError            (* .get / .lower on a value without it *)
| KeyError (key : str)
| IndexError                (* l[i] out of range *)
| ValueError (msg : str)
| Exception_ (msg : str)    (* raise Exception(msg) *)
| OverflowError             (* a / b on integers, beyond the floats *)
| ZeroDivisionError.

Inductive result (A : Type) :=
| Ok (a : A)
| Raise (e : exn).
Arguments Ok {A} a.
Arguments Raise {A} e.

Definition is_ok {A} (r : result A) : bool :=
  match r with Ok _ => true | Raise _ => false end.

(** ** JSON values, as [response.json()] returns them *)

#[warnings="-register-all"]
Inductive json :=
| JNull                               (* None *)
| JBool (b : bool)
| JNum (z : Z)
| JStr (s : str)
| JArr (items : list json)
| JObj (fields : list (str * json)).  (* a dict: keys are distinct *)

Fixpoint dict_lookup {V} (k : str) (d : list (str * V)) : option V :=
  match d with
  | [] => None
  | (k', v) :: d' => if str_eqb k k' then Some v else dict_lookup k d'
  end.

(** [v.get('generated_text', '')]: only a dict has [get]. *)
Definition get_generated_text (v : json) : result json :=
  match v with
  | JObj d => Ok (default (JStr []) (dict_lookup (py "generated_text") d))
  | _ => Raise AttributeError
  end.

(** [if v:] *)
Definition truthy (v : json) : bool :=
  match v with
  | JNull => false
  | JBool b => b
  | JNum z => negb (Z.eqb z 0)
  | JStr s => nonempty s
  | JArr l => nonempty l
  | JObj d => nonempty d
  end.

(** ** The inference client: [call_huggingface_api]

    The notes, quizzes and roadmaps services each carry a copy of this
    function; the copies differ in the token budget of the payload and in
    how they read the API key, and the model below is the control flow they
    share.  Headers and payload are built before the loop; the settings are
    taken to define the key, so that building them raises nothing. *)

Record response := {
  status_code : Z;
  (** [None]: the body is not JSON and [response.json()] raises *)
  json_body : option json
}.

(** What one [requests.post] does. *)
Inductive outcome :=
| Responds (r : response)
| Fails (e : exn).

(** The endpoint: the outcome of the POST of attempt [k] (from 0) for a
    prompt. *)
Definition endpoint := str -> nat -> outcome.

Inductive event :=
| Post (prompt : str)
| Sleep (seconds : nat).

(** How the body of the [try] of one attempt ends. *)
Inductive attempt_end :=
| Continue503
| Return (v : json)
| Break
| Throw (e : exn).

Definition attempt_body (o : outcome) : attempt_end :=
  match o with
  | Fails e => Throw e
  | Responds r =>
      if (status_code r =? 503)%Z then Continue503
      else if (status_code r =? 200)%Z then
        match json_body r with
        | None => Throw JSONDecodeError
        | Some result =>
            let got :=
              match result with
              | JArr (first :: _) => get_generated_text first
              | _ => get_generated_text result
              end in
            match got with
            | Ok v => Return v
            | Raise e => Throw e
            end
        end
      else Break
  end.

(** The [for attempt in range(max_retries)] loop; [todo] is what is left of
    the range.  [max_retries] is a count and [delay] a non-negative number of
    time units ([time.sleep] accepts nothing else), hence [nat].  Leaving the
    loop, by [break] or at the end of the range, returns [None]. *)
Fixpoint attempts (net : endpoint) (prompt : str) (max_retries delay : nat)
    (todo : list nat) (tr : list event) : list event * result json :=
  match todo with
  | [] => (tr, Ok JNull)
  | attempt :: rest =>
      let tr := tr ++ [Post prompt] in
      match attempt_body (net prompt attempt) with
      | Continue503 =>
          attempts net prompt max_retries delay rest
            (tr ++ [Sleep (delay * (attempt + 1))])
      | Return v => (tr, Ok v)
      | Break => (tr, Ok JNull)
      | Throw e =>
          if (Z.of_nat attempt =? Z.of_nat max_retries - 1)%Z then (tr, Raise e)
          else attempts net prompt max_retries delay rest (tr ++ [Sleep delay])
      end
  end.

(** [call_huggingface_api(prompt, max_retries, delay)] *)
Definition call_huggingface_api_with (net : endpoint) (prompt : str)
    (max_retries delay : nat) : list event * result json :=
  attempts net prompt max_retries delay (seq 0 max_retries) [].

(** [call_huggingface_api(prompt)], with the defaults [max_retries=3] and
    [delay=1], as every caller in the repository writes it. *)
Definition call_huggingface_api (net : endpoint) (prompt : str)
    : list event * result json :=
  call_huggingface_api_with net prompt 3 1.

(** The status code of an attempt that got a response. *)
Definition status_of (o : outcome) : option Z :=
  match o with
  | Responds r => Some (status_code r)
  | Fails _ => None
  end.

Definition posts (tr : list event) : nat :=
  length (List.filter (fun e => match e with Post _ => true | Sleep _ => false end) tr).

Definition sleeps (tr : list event) : list nat :=
  omap (fun e => match e with Sleep n => Some n | Post _ => None end) tr.

(** ** notes/ai_service.py *)

Module Notes.

Record notes := {
  summary : str;
  content : str;
  key_points : list str;
  questions : list str;
  difficulty_level : str;
  estimated_read_time : nat;
  tags : list str
}.

Section WithUnicode.
Context `{UnicodeData}.

(** The inner loops of [extract_section] for one keyword: the first line
    that holds the keyword and is followed, within the next four lines, by
    a non-blank line gives the section. *)
Fixpoint section_after (keyword : str) (lines : list str) : option str :=
  match lines with
  | [] => None
  | line :: rest =>
      if contains keyword (lower line) && (0 <? length (strip line)) then
        let section_text :=
          List.filter nonempty (strip <$> take 4 rest) in
        if nonempty section_text
        then Some (join [SPACE] (take 3 section_text))
        else section_after keyword rest
      else section_after keyword rest
  end.

Fixpoint first_section (keywords : list str) (lines : list str) : option str :=
  match keywords with
  | [] => None
  | keyword :: more =>
      match section_after keyword lines with
      | Some s => Some s
      | None => first_section more lines
      end
  end.

Definition extract_section (text : str) (keywords : list str)
    (min_sentences : nat) : str :=
  let lines := split NL text in
  match first_section keywords lines with
  | Some s => s
  | None =>
      let sentences := take (min_sentences + 1) (split DOT text) in
      strip (join (py ". ") sentences)
  end.

Definition is_bullet (line : str) : bool :=
  startswith [BULLET] line || startswith [HYPHEN] line
  || startswith [STAR] line || re_match_digits_dot line.

(** The first loop of [extract_bullet_points]. *)
Fixpoint bullet_lines (lines : list str) : list str :=
  match lines with
  | [] => []
  | line :: rest =>
      let line := strip line in
      if is_bullet line then
        let clean_point := re_sub_marker line in
        if nonempty clean_point && (10 <? length clean_point)
        then clean_point :: bullet_lines rest
        else bullet_lines rest
      else bullet_lines rest
  end.

(** The second loop: the sentences kept when no bullet was found. *)
Definition key_sentences (text : str) : list str :=
  strip <$> List.filter (fun sentence => 20 <? length (strip sentence))
                        (take 5 (split DOT text)).

Definition extract_bullet_points (text : str) : list str :=
  let points := bullet_lines (split NL text) in
  let points := if nonempty points then points else key_sentences text in
  take 8 points.

Definition default_questions : list str :=
  [ py "What are the main topics covered in this content?";
    py "How can this knowledge be practically applied?";
    py "What are the key concepts to remember?";
    py "What questions remain unanswered?" ].

Definition extract_questions (text : str) : list str :=
  let questions :=
    List.filter (fun line => endswith [QMARK] line && (10 <? length line))
                (strip <$> split NL text) in
  let questions := if nonempty questions then questions else default_questions in
  take 10 questions.

Definition extract_difficulty (text : str) : str :=
  let text_lower := lower text in
  if existsb (fun word => contains word text_lower)
       [py "advanced"; py "complex"; py "difficult"; py "expert"]
  then py "Advanced"
  else if existsb (fun word => contains word text_lower)
       [py "intermediate"; py "moderate"; py "medium"]
  then py "Intermediate"
  else py "Beginner".

Definition common_academic_terms : list str :=
  [ py "science"; py "mathematics"; py "history"; py "literature";
    py "technology"; py "business"; py "economics"; py "psychology";
    py "medicine"; py "engineering"; py "art"; py "philosophy";
    py "education"; py "research"; py "analysis" ].

(** The loop of [generate_tags], with its [break] at six tags. *)
Fixpoint add_terms (text_lower : str) (terms : list str) (tags : list str)
    : list str :=
  match terms with
  | [] => tags
  | term :: rest =>
      if contains term text_lower then
        let tags := tags ++ [term] in
        if 6 <=? length tags then tags else add_terms text_lower rest tags
      else add_terms text_lower rest tags
  end.

Definition generate_tags (text source_type : str) : list str :=
  add_terms (lower text) common_academic_terms
    [source_type; py "study"; py "notes"].

Definition create_fallback_notes (text title source_type : str) : notes := {|
  summary := py "Summary of " ++ title ++
    py ": This content covers important topics that require further study. The material appears to contain valuable information for learning and reference.";
  content := py "Detailed Notes for " ++ title ++ py ":" ++ [NL; NL] ++
    take 2000 text ++ (if 2000 <? length text then py "..." else []);
  key_points :=
    [ py "This content contains important information";
      py "Further analysis and study is recommended";
      py "Key concepts should be reviewed carefully" ];
  questions :=
    [ py "What are the main topics covered?";
      py "How can this knowledge be applied?";
      py "What are the key takeaways?";
      py "What additional research might be helpful?" ];
  difficulty_level := py "Intermediate";
  estimated_read_time := Nat.max 1 (length text / 250);
  tags := [py "study"; py "notes"; source_type]
|}.

(** [parse_ai_response]: on a string nothing in the [try] raises; on any
    other value the first call, [extract_section], raises [AttributeError]
    at [text.lower()], and the [except] clause returns the fallback. *)
Definition parse_ai_response (ai_response : json)
    (original_text title source_type : str) : notes :=
  match ai_response with
  | JStr ai_response =>
      {| summary := extract_section ai_response [py "summary"; py "overview"] 2;
         content := py "Detailed Notes for " ++ title ++ py ":" ++ [NL; NL]
                    ++ ai_response;
         key_points := extract_bullet_points ai_response;
         questions := extract_questions ai_response;
         difficulty_level := extract_difficulty ai_response;
         estimated_read_time := Nat.max 1 (length original_text / 250);
         tags := generate_tags original_text source_type |}
  | _ => create_fallback_notes original_text title source_type
  end.

Definition notes_prompt (text title source_type : str) : str :=
  py "Create comprehensive study notes from this " ++ source_type ++
  py " content.

Title: " ++ title ++ py "

Content: " ++ take 3000 text ++ py "

Please provide structured notes with:
1. Summary (2-3 paragraphs)
2. Key points (bullet format)
3. Important concepts
4. Study questions (5-10)
5. Difficulty level
6. Reading time estimate

Format as organized text with clear sections.".

(** [generate_notes_from_text]: the whole body is inside
    [try ... except Exception], whose handler returns the fallback notes;
    the handler itself raises nothing. *)
Definition generate_notes_from_text (net : endpoint)
    (text title source_type : str) : list event * result notes :=
  let prompt := notes_prompt text title source_type in
  let '(tr, r) := call_huggingface_api net prompt in
  let tried : result notes :=
    match r with
    | Raise e => Raise e
    | Ok ai_response =>
        if truthy ai_response
        then Ok (parse_ai_response ai_response text title source_type)
        else Raise (Exception_ (py "Failed to get response from Hugging Face API"))
    end in
  match tried with
  | Ok parsed_result => (tr, Ok parsed_result)
  | Raise _ => (tr, Ok (create_fallback_notes text title source_type))
  end.

Definition process_text_input (net : endpoint) (text title : str)
    : list event * result notes :=
  generate_notes_from_text net text title (py "text input").
End WithUnicode.

(** *** Enhancing notes *)

Record enhancement := {
  insights : list str;
  applications : list str;
  memory_techniques : list str;
  related_topics : list str
}.

Section Enhance.
Context `{UnicodeData}.

Definition extract_enhancement_section (text section_type : str) : list str :=
  let items :=
    List.filter (fun clean_line => nonempty clean_line && (10 <? length clean_line))
      (re_sub_marker <$>
         List.filter
           (fun line =>
              contains (lower section_type) (lower line)
              || existsb (fun marker => contains [marker] line)
                   [BULLET; HYPHEN; STAR])
           (strip <$> split NL text)) in
  let items :=
    if nonempty items then items
    else strip <$> List.filter (fun sentence => 15 <? length (strip sentence))
                               (take 3 (split DOT text)) in
  take 4 items.

Definition fallback_enhancement : enhancement := {|
  insights := [py "Consider the broader implications of this topic"];
  applications := [py "This knowledge can be applied in practical scenarios"];
  memory_techniques := [py "Create mental associations"; py "Use spaced repetition"];
  related_topics := [py "Related subject areas worth exploring"]
|}.

Definition enhance_prompt (note_content : str) : str :=
  py "Enhance these study notes by adding insights, applications, and study techniques:

Original notes: " ++ take 2500 note_content ++ py "

Please provide:
- Additional insights
- Real-world applications  
- Memory techniques
- Related topics to explore

Format as clear sections with specific suggestions.".

(** [enhance_existing_notes]: a response that is not a string raises
    [AttributeError] at [text.split], inside the [try]. *)
Definition enhance_existing_notes (net : endpoint) (note_content : str)
    : list event * result enhancement :=
  let '(tr, r) := call_huggingface_api net (enhance_prompt note_content) in
  match r with
  | Ok (JStr ai_response) =>
      if nonempty ai_response then
        (tr, Ok {| insights := extract_enhancement_section ai_response (py "insight");
                   applications := extract_enhancement_section ai_response (py "application");
                   memory_techniques := extract_enhancement_section ai_response (py "memory");
                   related_topics := extract_enhancement_section ai_response (py "topic") |})
      else (tr, Ok fallback_enhancement)
  | _ => (tr, Ok fallback_enhancement)
  end.
End Enhance.

(** *** Sources: YouTube links and PDF files *)

(** What [urlparse(url)] gives, with [parse_qs] already applied to the query
    string.  Both are functions of the Python library; the model starts from
    their results. *)
Record parsed_url := {
  hostname : option str;
  path : str;
  query : gmap str (list str)
}.

(** [l[i]] *)
Definition index {A} (l : list A) (i : nat) : result A :=
  match l !! i with
  | Some x => Ok x
  | None => Raise IndexError
  end.

(** [extract_youtube_video_id]; [Ok None] is the return of [None]. *)
Definition extract_youtube_video_id (url : parsed_url) : result (option str) :=
  if bool_decide (hostname url = Some (py "youtu.be")) then
    Ok (Some (drop 1 (path url)))
  else if bool_decide (hostname url = Some (py "www.youtube.com"))
          || bool_decide (hostname url = Some (py "youtube.com")) then
    if str_eqb (path url) (py "/watch") then
      match query url !! py "v" with
      | None => Raise (KeyError (py "v"))
      | Some vs =>
          match index vs 0 with
          | Ok v => Ok (Some v)
          | Raise e => Raise e
          end
      end
    else if str_eqb (take 7 (path url)) (py "/embed/") then
      match index (split SLASH (path url)) 2 with
      | Ok v => Ok (Some v)
      | Raise e => Raise e
      end
    else if str_eqb (take 3 (path url)) (py "/v/") then
      match index (split SLASH (path url)) 2 with
      | Ok v => Ok (Some v)
      | Raise e => Raise e
      end
    else Ok None
  else Ok None.

Definition get_youtube_transcript (video_id : str) : str :=
  py "Mock transcript for video " ++ video_id ++
  py ". This would contain the actual video content in a real implementation.".

(** A PDF file as [PyPDF2] reads it: the text of each page, or the exception
    met while reading, given by its message [str(e)]. *)
Inductive pdf_read :=
| Pages (texts : list str)
| Unreadable (message : str).

(** The object passed as [pdf_file]: its attribute [name], when it has one
    (an uploaded file has, a bare stream has not), and what reading it
    gives. *)
Record pdf_file := {
  name : option str;
  read : pdf_read
}.

Definition extract_pdf_text (f : pdf_file) : str :=
  match read f with
  | Pages texts => foldl (fun text page => text ++ page ++ [NL]) [] texts
  | Unreadable message => py "Error extracting PDF: " ++ message
  end.

Section Sources.
Context `{UnicodeData}.

Definition process_youtube_url (net : endpoint) (url : parsed_url) (title : str)
    : list event * result notes :=
  match extract_youtube_video_id url with
  | Raise e => ([], Raise e)
  | Ok video_id =>
      match video_id with
      | Some (c :: id) =>
          let video_id := c :: id in
          let transcript := get_youtube_transcript video_id in
          let title :=
            if nonempty title then title
            else py "YouTube Video Notes - " ++ video_id in
          generate_notes_from_text net transcript title (py "YouTube video")
      | _ => ([], Raise (ValueError (py "Invalid YouTube URL")))
      end
  end.

(** [process_pdf_file]; [pdf_file.name] is read outside any [try], and only
    when no title is passed. *)
Definition process_pdf_file (net : endpoint) (f : pdf_file) (title : str)
    : list event * result notes :=
  let text := extract_pdf_text f in
  if nonempty title then
    generate_notes_from_text net text title (py "PDF document")
  else
    match name f with
    | None => ([], Raise AttributeError)
    | Some name =>
        let title := py "PDF Notes - " ++ name in
        generate_notes_from_text net text title (py "PDF document")
    end.
End Sources.

End Notes.

(** ** quizzes/ai_service.py *)

Module Quizzes.

(** An element of [correct_answers]: the generators store option indices,
    short-answer questions store strings. *)
Inductive answer :=
| AStr (s : str)
| AInt (z : Z).

(** [str(n)] for an integer *)
Definition str_of_Z (z : Z) : str := py (NilZero.string_of_int (Z.to_int z)).

(** [str(correct)] *)
Definition str_of_answer (a : answer) : str :=
  match a with
  | AStr s => s
  | AInt z => str_of_Z z
  end.

Record question := {
  question_text : str;
  question_type : str;
  options : list str;
  correct_answers : list answer;
  explanation : str;
  hint : str;
  points : Z;
  difficulty_level : str
}.

Record template := {
  text : str;
  type : str;
  t_options : list str
}.

Definition question_templates (topic : str) : list template :=
  [ {| text := py "What is the main principle behind " ++ topic ++ py "?";
       type := py "multiple_choice";
       t_options :=
         [ py "A) Core concept of " ++ topic;
           py "B) Basic principle of " ++ topic;
           py "C) Advanced theory of " ++ topic;
           py "D) Unrelated concept" ] |};
    {| text := py "Which statement about " ++ topic ++ py " is correct?";
       type := py "multiple_choice";
       t_options :=
         [ py "A) " ++ topic ++ py " involves specific processes";
           py "B) " ++ topic ++ py " is completely theoretical";
           py "C) " ++ topic ++ py " has no practical applications";
           py "D) " ++ topic ++ py " is outdated" ] |};
    {| text := topic ++ py " is essential for understanding the subject.";
       type := py "true_false";
       t_options := [py "True"; py "False"] |} ].

(** [range(n)] for a Python integer: empty when [n <= 0]. *)
Definition range (n : Z) : list nat := seq 0 (Z.to_nat n).

(** [l[:n]] for a Python integer [n]: a negative [n] counts from the end. *)
Definition slice_to {A} (l : list A) (n : Z) : list A :=
  if (0 <=? n)%Z then take (Z.to_nat n) l
  else take (length l - Z.to_nat (- n)) l.

(** [_generate_fallback_questions]; a template index out of range would
    raise [IndexError]. *)
Fixpoint fallback_loop (topic difficulty : str) (templates : list template)
    (todo : list nat) (fallback_questions : list question) : result (list question) :=
  match todo with
  | [] => Ok fallback_questions
  | i :: rest =>
      match templates !! (i mod length templates) with
      | None => Raise IndexError
      | Some template =>
          let question :=
            {| question_text := text template;
               question_type := type template;
               options := t_options template;
               correct_answers := [AInt 0];
               explanation := py "This question tests understanding of " ++ topic
                              ++ py " concepts.";
               hint := py "Think about the fundamental principles of " ++ topic ++ py ".";
               points := 1;
               difficulty_level := difficulty |} in
          fallback_loop topic difficulty templates rest (fallback_questions ++ [question])
      end
  end.

Definition _generate_fallback_questions (topic : str) (question_count : Z)
    (difficulty : str) : result (list question) :=
  let question_templates := question_templates topic in
  fallback_loop topic difficulty question_templates
    (range (Z.min question_count (Z.of_nat (length question_templates)))) [].

Definition _generate_mc_options (question_text topic : str) : list str :=
  [ py "A) Primary concept of " ++ topic;
    py "B) Secondary aspect of " ++ topic;
    py "C) Related but different concept";
    py "D) Unrelated option" ].

Section WithUnicode.
Context `{UnicodeData}.

Definition _determine_question_type (question_text : str)
    (question_types : list str) : str :=
  let question_lower := lower question_text in
  if mem (py "true_false") question_types
     && (contains (py "true or false") question_lower
         || contains (py "is it true") question_lower
         || contains (py "correct or incorrect") question_lower)
  then py "true_false"
  else if mem (py "short_answer") question_types
     && (contains (py "what is") question_lower
         || contains (py "define") question_lower
         || contains (py "name") question_lower)
  then py "short_answer"
  else py "multiple_choice".

(** The question built for a line that looks like one. *)
Definition question_of_line (line topic difficulty : str)
    (question_types : list str) : question :=
  let q_type := _determine_question_type line question_types in
  {| question_text := line;
     question_type := q_type;
     options :=
       if str_eqb q_type (py "multiple_choice") then _generate_mc_options line topic
       else if str_eqb q_type (py "true_false") then [py "True"; py "False"]
       else [];
     correct_answers :=
       if str_eqb q_type (py "multiple_choice") then [AInt 0]
       else if str_eqb q_type (py "true_false")
       then [AInt (if contains (py "true") (lower line) then 0 else 1)]
       else [AInt 0];
     explanation := py "This question tests understanding of " ++ topic ++ py ".";
     hint := py "Consider the key concepts of " ++ topic ++ py ".";
     points := 1;
     difficulty_level := difficulty |}.

(** The [for line in lines] loop of [_parse_questions_from_response], on
    its three variables; it stops at the [break]. *)
Fixpoint parse_loop (topic difficulty : str) (question_count : Z)
    (question_types : list str) (lines : list str)
    (questions_data : list question) (current_question : option question)
    (question_num : Z) : list question * option question :=
  match lines with
  | [] => (questions_data, current_question)
  | line :: rest =>
      let line := strip line in
      if negb (nonempty line) then
        parse_loop topic difficulty question_count question_types rest
          questions_data current_question question_num
      else if (endswith [QMARK] line || contains (py "question") (lower line))
              && (20 <? length line) then
        let questions_data :=
          match current_question with
          | Some q =>
              if (question_num <? question_count)%Z
              then questions_data ++ [q] else questions_data
          | None => questions_data
          end in
        let question_num := (question_num + 1)%Z in
        if (question_count <? question_num)%Z
        then (questions_data, current_question)
        else
          parse_loop topic difficulty question_count question_types rest
            questions_data
            (Some (question_of_line line topic difficulty question_types))
            question_num
      else
        parse_loop topic difficulty question_count question_types rest
          questions_data current_question question_num
  end.
End WithUnicode.

(** A value together with the equation that it is the value of [a]. *)
Definition inspect {A} (a : A) : {b | a = b} := exist _ a eq_refl.

(** The [while len(questions_data) < question_count] loop, which extends the
    list by the fallback questions for a count of one. *)
Equations? fill_remaining (topic difficulty : str) (question_count : Z)
    (questions_data : list question) : result (list question)
    by wf (Z.to_nat (question_count - Z.of_nat (length questions_data))) lt :=
  fill_remaining topic difficulty question_count questions_data
    with inspect (Z.of_nat (length questions_data) <? question_count)%Z => {
    | exist _ true Hlt
        with inspect (_generate_fallback_questions topic 1 difficulty) => {
        | exist _ (Ok more) Hmore =>
            fill_remaining topic difficulty question_count (questions_data ++ more);
        | exist _ (Raise e) _ => Raise e };
    | exist _ false _ => Ok questions_data }.
Proof.
  rewrite length_app. cbn [length]. apply Z.ltb_lt in Hlt. lia.
Qed.

Section Pipeline.
Context `{UnicodeData}.
(** [repr] of a list of answers, as an f-string renders [{correct_answers}];
    a built-in of Python. *)
Variable repr_answers : list answer -> str.

Definition _parse_questions_from_response (ai_response topic difficulty : str)
    (question_count : Z) (question_types : list str) : result (list question) :=
  let lines := split NL ai_response in
  let '(questions_data, current_question) :=
    parse_loop topic difficulty question_count question_types lines [] None 0 in
  let questions_data :=
    match current_question with
    | Some q =>
        if (Z.of_nat (length questions_data) <? question_count)%Z
        then questions_data ++ [q] else questions_data
    | None => questions_data
    end in
  match fill_remaining topic difficulty question_count questions_data with
  | Ok questions_data => Ok (slice_to questions_data question_count)
  | Raise e => Raise e
  end.

Definition quiz_prompt (topic difficulty : str) (question_count : Z)
    (question_types : list str) : str :=
  let question_types_str := join (py ", ") question_types in
  py "Create " ++ str_of_Z question_count ++ py " quiz questions about " ++
  [DQUOTE] ++ topic ++ [DQUOTE] ++ py " at " ++ difficulty ++ py " level.
Include these question types: " ++ question_types_str ++ py "

For each question provide:
- Question text
- Question type (multiple_choice, true_false, or short_answer)
- For multiple choice: 4 options with one correct answer
- For true/false: statement that is definitively true or false
- Explanation of the correct answer
- A helpful hint
- Difficulty level

Make questions educational and comprehensive about " ++ topic ++ py ".".

(** [generate_quiz_questions]: a truthy response that is not a string
    raises [AttributeError] at [ai_response.split]; every exception of the
    [try] leads to the fallback questions. *)
Definition generate_quiz_questions (net : endpoint) (topic difficulty : str)
    (question_count : Z) (question_types : list str)
    : list event * result (list question) :=
  let prompt := quiz_prompt topic difficulty question_count question_types in
  let '(tr, r) := call_huggingface_api net prompt in
  let tried : result (list question) :=
    match r with
    | Raise e => Raise e
    | Ok ai_response =>
        if truthy ai_response then
          match ai_response with
          | JStr s =>
              _parse_questions_from_response s topic difficulty
                question_count question_types
          | _ => Raise AttributeError
          end
        else Raise (Exception_ (py "Failed to get response from Hugging Face API"))
    end in
  match tried with
  | Ok questions_data => (tr, Ok questions_data)
  | Raise _ => (tr, _generate_fallback_questions topic question_count difficulty)
  end.

(** The string matching both fallbacks of [_evaluate_short_answer] do. *)
Definition string_matching (user_answer : str) (correct_answers : list answer)
    : bool :=
  let user_answer_lower := strip (lower user_answer) in
  existsb (fun correct =>
             str_eqb user_answer_lower (strip (lower (str_of_answer correct))))
          correct_answers.

Definition grading_prompt (user_answer : str) (correct_answers : list answer)
    : str :=
  py "Evaluate if this answer is correct:

User Answer: " ++ [DQUOTE] ++ user_answer ++ [DQUOTE] ++ py "
Correct Answers: " ++ repr_answers correct_answers ++ py "

Consider synonyms and different ways to express the same concept. 
Answer only 'correct' or 'incorrect'.".

Definition _evaluate_short_answer (net : endpoint) (user_answer : str)
    (correct_answers : list answer) : list event * bool :=
  let prompt := grading_prompt user_answer correct_answers in
  let '(tr, r) := call_huggingface_api net prompt in
  match r with
  | Ok ai_response =>
      if truthy ai_response then
        match ai_response with
        | JStr s =>
            if contains (py "correct") (lower s)
            then (tr, negb (contains (py "incorrect") (lower s)))
            else (tr, string_matching user_answer correct_answers)
        | _ => (* [.lower()] raises: the except clause *)
            (tr, string_matching user_answer correct_answers)
        end
      else (tr, string_matching user_answer correct_answers)
  | Raise _ => (tr, string_matching user_answer correct_answers)
  end.
End Pipeline.

End Quizzes.

(** ** Python's division of integers

    [a / b] on two [int] is the quotient rounded to the nearest double, the
    one with an even mantissa when two are equally near; [int(x)] truncates
    a float towards zero.  A finite double is written
    [mantissa * 2 ^ exponent]. *)

Record float := {
  mantissa : Z;
  exponent : Z
}.

(** [n / (d * 2 ^ e)] as a fraction of integers, for [e] of either sign. *)
Definition scaled (n d e : Z) : Z * Z :=
  if (0 <=? e)%Z then (n, d * 2 ^ e)%Z else (n * 2 ^ (- e), d)%Z.

(** The integer nearest to [n / d], the even one of two equally near. *)
Definition round_half_even (n d : Z) : Z :=
  let q := (n / d)%Z in
  let r := (n mod d)%Z in
  if (2 * r <? d)%Z then q
  else if (d <? 2 * r)%Z then (q + 1)%Z
  else if Z.even q then q else (q + 1)%Z.

(** The [k] with [2 ^ k <= n / d < 2 ^ (k + 1)], for positive [n] and [d]. *)
Definition floor_log2 (n d : Z) : Z :=
  let k := (Z.log2 n - Z.log2 d)%Z in
  let '(n', d') := scaled n d k in
  if (n' <? d')%Z then (k - 1)%Z else k.

(** The double nearest to [n / d], for positive [n] and [d]: a mantissa of
    53 bits, or of fewer bits at the least exponent, -1074. *)
Definition nearest_double (n d : Z) : float :=
  let e := Z.max (floor_log2 n d - 52) (-1074) in
  let '(n', d') := scaled n d e in
  {| mantissa := round_half_even n' d'; exponent := e |}.

(** [a / b]: [ZeroDivisionError] for [b = 0], and [OverflowError] when the
    rounded quotient is [2 ^ 1024] or more. *)
Definition true_divide (a b : Z) : result float :=
  if (b =? 0)%Z then Raise ZeroDivisionError
  else if (a =? 0)%Z then Ok {| mantissa := 0; exponent := 0 |}
  else
    let x := nearest_double (Z.abs a) (Z.abs b) in
    let '(v, one) := scaled (mantissa x) 1 (- exponent x) in
    if (2 ^ 1024 * one <=? v)%Z then Raise OverflowError
    else Ok {| mantissa := Z.sgn a * Z.sgn b * mantissa x;
               exponent := exponent x |}.

(** [int(x)] *)
Definition int_of_float (x : float) : Z :=
  let '(v, one) := scaled (mantissa x) 1 (- exponent x) in
  Z.quot v one.

(** ** More of Python's strings, for the roadmap parsers *)

Definition COLON : N := 58.
Definition PERCENT : N := 37.

(** The rest of the character database the roadmap parsers read. *)
Class UnicodeText := {
  (** [str.isdigit] on one character *)
  isdigit : N -> bool;
  (** the value of a decimal digit, as [int] reads it *)
  digit_value : N -> Z;
  digit_value_nonneg : forall c, (0 <= digit_value c)%Z;
  (** [str.isalpha] on one character *)
  isalpha : N -> bool;
  (** [str.capitalize] *)
  capitalize : str -> str
}.

Definition ascii_isalpha (c : N) : bool :=
  ((65 <=? c) && (c <=? 90) || (97 <=? c) && (c <=? 122))%N.

Definition ascii_upper_char (c : N) : N :=
  (if (97 <=? c) && (c <=? 122) then c - 32 else c)%N.

Definition ascii_capitalize (s : str) : str :=
  match s with
  | [] => []
  | c :: rest => ascii_upper_char c :: ascii_lower rest
  end.

Definition ascii_digit_value (c : N) : Z := Z.of_N (c - 48).

#[export] Instance ascii_text : UnicodeText := {|
  isdigit := ascii_isdecimal;
  digit_value := ascii_digit_value;
  digit_value_nonneg := fun c => N2Z.is_nonneg (c - 48);
  isalpha := ascii_isalpha;
  capitalize := ascii_capitalize
|}.

Fixpoint take_while {A} (f : A -> bool) (l : list A) : list A :=
  match l with
  | [] => []
  | x :: l' => if f x then x :: take_while f l' else []
  end.

(** [s.replace(old, new)] for a non-empty [old]: the occurrences are taken
    from the left and do not overlap; [skip] counts the characters of a
    replaced occurrence still to pass. *)
Fixpoint replace_from (old new : str) (skip : nat) (s : str) : str :=
  match s with
  | [] => []
  | c :: s' =>
      match skip with
      | S k => replace_from old new k s'
      | 0 =>
          if startswith old s
          then new ++ replace_from old new (length old - 1) s'
          else c :: replace_from old new 0 s'
      end
  end.

Definition replace (old new s : str) : str := replace_from old new 0 s.

(** [s.split(sep, 1)[1]] when [sep in s]: what follows the first [sep]. *)
Definition after_first (sep : N) (s : str) : str :=
  drop 1 (drop_while (fun c => negb (N.eqb c sep)) s).

(** [s.split(sep)[0]]: what precedes the first [sep]. *)
Definition before_first (sep : N) (s : str) : str :=
  take_while (fun c => negb (N.eqb c sep)) s.

Section MoreStrings.
Context `{UnicodeData} `{UnicodeText}.

(** [s.split()]: the maximal runs of characters that are not white space;
    [word] is the run being read, in reverse. *)
Fixpoint words_from (word : str) (s : str) : list str :=
  match s with
  | [] => if nonempty word then [reverse word] else []
  | c :: s' =>
      if isspace c
      then (if nonempty word then [reverse word] else []) ++ words_from [] s'
      else words_from (c :: word) s'
  end.

Definition words (s : str) : list str := words_from [] s.

(** [re.findall(r'\d+', line)[0]] when there is a match, the empty string
    otherwise: the first maximal run of decimal digits. *)
Definition first_number (line : str) : str :=
  take_while isdecimal (drop_while (fun c => negb (isdecimal c)) line).

(** The value [int] gives to a string of decimal digits. *)
Definition digits_value (digits : str) : Z :=
  foldl (fun acc c => (acc * 10 + digit_value c)%Z) 0%Z digits.

(** [int(digits)]: recent versions of Python refuse, with [ValueError], a
    string of more than [sys.get_int_max_str_digits()] digits; the limit is
    [None] where the version has none, and a limit of 0 switches it off. *)
Definition py_int (int_max_str_digits : option nat) (digits : str) : result Z :=
  match int_max_str_digits with
  | Some limit =>
      if (0 <? limit) && (limit <? length digits)
      then Raise (ValueError (py "Exceeds the limit for integer string conversion"))
      else Ok (digits_value digits)
  | None => Ok (digits_value digits)
  end.
End MoreStrings.

(** ** roadmaps/ai_service.py *)

Module Roadmaps.

Record milestone := {
  id : Z;
  m_status : str;             (* milestone.status *)
  progress_percentage : Z
}.

Record roadmap := {
  title : str;
  milestones : list milestone;
  overall_progress_percentage : Z;
  completed_milestones : list Z;
  status : str
}.

Section Progress.
(** The insights of [_generate_progress_insights], which calls the model
    and reads the roadmap without changing it. *)
Variable insights : Type.
Variable _generate_progress_insights : roadmap -> Z -> insights.

Record report := {
  r_overall_progress : Z;
  r_completed_milestones : nat;
  r_total_milestones : nat;
  r_insights : insights;
  r_status : str
}.

(** What [update_roadmap_progress] returns: the roadmap itself when it has
    no milestone, a report otherwise, and [{'error': str(e)}] for an
    exception [e] met on the way. *)
Inductive returned :=
| TheRoadmap (r : roadmap)
| Report (d : report)
| Error (e : exn).

(** The [for milestone in milestones] loop on [progress]. *)
Fixpoint add_progress (ms : list milestone) (progress : Z) : Z :=
  match ms with
  | [] => progress
  | milestone :: rest =>
      if str_eqb (m_status milestone) (py "completed")
      then add_progress rest (progress + 100)%Z
      else if str_eqb (m_status milestone) (py "in_progress")
      then add_progress rest (progress + progress_percentage milestone)%Z
      else add_progress rest progress
  end.

(** [int(progress / total_milestones)]: the quotient of the two integers
    rounded to a double, then truncated towards zero. *)
Definition int_div (progress : Z) (total_milestones : nat) : result Z :=
  match true_divide progress (Z.of_nat total_milestones) with
  | Ok x => Ok (int_of_float x)
  | Raise e => Raise e
  end.

(** [update_roadmap_progress], as the roadmap after the call and the value
    returned; an exception of the division is caught by the [except] clause
    before the roadmap is touched.  Faults of the storage layer are not
    modelled. *)
Definition update_roadmap_progress (roadmap : Roadmaps.roadmap)
    : Roadmaps.roadmap * returned :=
  let ms := milestones roadmap in
  let total_milestones := length ms in
  if total_milestones =? 0 then (roadmap, TheRoadmap roadmap)
  else
    let completed :=
      List.filter (fun m => str_eqb (m_status m) (py "completed")) ms in
    let progress := add_progress ms 0 in
    match (if 0 <? total_milestones then int_div progress total_milestones
           else Ok 0%Z) with
    | Raise e => (roadmap, Error e)
    | Ok overall_progress =>
        let roadmap :=
          {| title := title roadmap;
             milestones := ms;
             overall_progress_percentage := overall_progress;
             completed_milestones := id <$> completed;
             status := if (overall_progress =? 100)%Z then py "completed"
                       else status roadmap |} in
        (roadmap,
         Report {| r_overall_progress := overall_progress;
                   r_completed_milestones := length completed;
                   r_total_milestones := total_milestones;
                   r_insights := _generate_progress_insights roadmap overall_progress;
                   r_status := status roadmap |})
    end.
End Progress.

(** *** Progress insights *)

Record progress_insights := {
  performance_assessment : str;
  key_insights : list str;
  recommendations : list str;
  motivation_message : str;
  next_focus_areas : list str;
  estimated_time_to_completion : str
}.

Definition _get_fallback_insights (progress_percentage : Z) : progress_insights :=
  if (80 <=? progress_percentage)%Z then
    {| performance_assessment := py "excellent";
       key_insights := [py "Great progress on your learning journey!"];
       recommendations := [py "Keep up the excellent work";
                           py "Focus on completing remaining milestones"];
       motivation_message := py "You're almost there! Your dedication is paying off.";
       next_focus_areas := [py "Final project completion"; py "Skill consolidation"];
       estimated_time_to_completion := py "2-4 weeks" |}
  else if (50 <=? progress_percentage)%Z then
    {| performance_assessment := py "good";
       key_insights := [py "Steady progress on your roadmap"];
       recommendations := [py "Maintain consistent study schedule";
                           py "Focus on practical application"];
       motivation_message := py "You're making good progress. Stay consistent!";
       next_focus_areas := [py "Hands-on practice"; py "Skill building"];
       estimated_time_to_completion := py "4-8 weeks" |}
  else
    {| performance_assessment := py "needs_improvement";
       key_insights := [py "More consistent effort needed"];
       recommendations := [py "Set smaller daily goals"; py "Find accountability partner"];
       motivation_message := py "Every expert was once a beginner. Keep going!";
       next_focus_areas := [py "Foundation building"; py "Consistent practice"];
       estimated_time_to_completion := py "8-12 weeks" |}.

Section Insights.
Context `{UnicodeData}.

(** The [for line in lines] loop of [_parse_progress_insights], on the four
    entries of the dictionary it fills. *)
Fixpoint insights_loop (lines : list str) (key_insights recommendations : list str)
    (motivation_message : str) (next_focus_areas : list str)
    : list str * list str * str * list str :=
  match lines with
  | [] => (key_insights, recommendations, motivation_message, next_focus_areas)
  | line :: rest =>
      let line := strip line in
      if negb (nonempty line) then
        insights_loop rest key_insights recommendations motivation_message
          next_focus_areas
      else if contains (py "insight") (lower line) then
        insights_loop rest (key_insights ++ [line]) recommendations
          motivation_message next_focus_areas
      else if contains (py "recommend") (lower line)
              || contains (py "should") (lower line) then
        insights_loop rest key_insights (recommendations ++ [line])
          motivation_message next_focus_areas
      else if contains (py "focus") (lower line) then
        insights_loop rest key_insights recommendations motivation_message
          (next_focus_areas ++ [strip (replace (py "Focus:") [] line)])
      else if (50 <? length line) && negb (nonempty motivation_message) then
        insights_loop rest key_insights recommendations line next_focus_areas
      else
        insights_loop rest key_insights recommendations motivation_message
          next_focus_areas
  end.

(** [_parse_progress_insights]: a response that is not a string raises
    [AttributeError] at [ai_response.split], inside the [try], whose handler
    returns the fallback insights. *)
Definition _parse_progress_insights (ai_response : json) (progress_percentage : Z)
    : progress_insights :=
  match ai_response with
  | JStr ai_response =>
      let lines := split NL ai_response in
      let assessment :=
        if (80 <=? progress_percentage)%Z then py "excellent"
        else if (50 <=? progress_percentage)%Z then py "good"
        else py "needs_improvement" in
      let '(key_insights, recommendations, motivation_message, next_focus_areas) :=
        insights_loop lines [] [] [] [] in
      {| performance_assessment := assessment;
         key_insights :=
           if nonempty key_insights then key_insights
           else [py "Making progress on learning journey"];
         recommendations :=
           if nonempty recommendations then recommendations
           else [py "Continue consistent study schedule"];
         motivation_message :=
           if nonempty motivation_message then motivation_message
           else py "Keep up the great work on your learning journey!";
         next_focus_areas := next_focus_areas;
         estimated_time_to_completion := py "4-6 weeks" |}
  | _ => _get_fallback_insights progress_percentage
  end.

Definition insights_prompt (roadmap : Roadmaps.roadmap) (progress_percentage : Z)
    : str :=
  py "Analyze learning progress for: " ++ title roadmap ++ py "

Progress: " ++ Quizzes.str_of_Z progress_percentage ++ py "%
Milestones: " ++ Quizzes.str_of_Z (Z.of_nat (length (milestones roadmap))) ++
  py " total, " ++
  Quizzes.str_of_Z
    (Z.of_nat (length (List.filter (fun m => str_eqb (m_status m) (py "completed"))
                                   (milestones roadmap)))) ++
  py " completed

Provide insights:
1. Performance assessment (excellent/good/needs improvement)
2. Key insights about progress pattern
3. Specific recommendations for improvement
4. Motivational message
5. Next focus areas
6. Estimated time to completion

Be encouraging and specific.".

(** [_generate_progress_insights]: every exception of the [try] leads to
    the fallback insights. *)
Definition _generate_progress_insights (net : endpoint) (roadmap : Roadmaps.roadmap)
    (progress_percentage : Z) : list event * progress_insights :=
  let prompt := insights_prompt roadmap progress_percentage in
  let '(tr, r) := call_huggingface_api net prompt in
  match r with
  | Ok ai_response =>
      if truthy ai_response
      then (tr, _parse_progress_insights ai_response progress_percentage)
      else (tr, _get_fallback_insights progress_percentage)
  | Raise _ => (tr, _get_fallback_insights progress_percentage)
  end.

(** *** Weekly goals and recommendations of a roadmap *)

Definition recommendation_keywords : list str :=
  [py "recommend"; py "suggest"; py "tip"; py "advice"; py "consider"].

(** The loop of [_extract_recommendations_from_response], with its [break]
    at five recommendations. *)
Fixpoint recommendations_loop (lines : list str) (recommendations : list str)
    : list str :=
  match lines with
  | [] => recommendations
  | line :: rest =>
      let line_lower := lower line in
      if existsb (fun keyword => contains keyword line_lower) recommendation_keywords
      then
        let cleaned_line := strip line in
        let recommendations :=
          if 10 <? length cleaned_line
          then recommendations ++ [cleaned_line] else recommendations in
        if 5 <=? length recommendations then recommendations
        else recommendations_loop rest recommendations
      else recommendations_loop rest recommendations
  end.

Definition _extract_recommendations_from_response (ai_response : str) : list str :=
  recommendations_loop (split NL ai_response) [].
End Insights.

Record weekly_goal := {
  week : nat;
  goal : str;
  focus_skills : list str
}.

Section WeeklyGoals.
Context `{UnicodeData} `{UnicodeText}.

(** The loop of [_extract_weekly_goals_from_response], with its [break] at
    the fourth week. *)
Fixpoint weekly_goals_loop (lines : list str) (current_week : nat)
    (weekly_goals : list weekly_goal) : list weekly_goal :=
  match lines with
  | [] => weekly_goals
  | line :: rest =>
      let line_lower := lower line in
      if contains (py "week") line_lower && existsb isdigit line then
        let current_week := current_week + 1 in
        let goal := strip line in
        let goal :=
          if contains [COLON] goal then strip (after_first COLON goal) else goal in
        let weekly_goals :=
          weekly_goals ++
          [{| week := current_week;
              goal := goal;
              focus_skills :=
                [py "Week " ++ Quizzes.str_of_Z (Z.of_nat current_week) ++ py " skills"] |}] in
        if 4 <=? current_week then weekly_goals
        else weekly_goals_loop rest current_week weekly_goals
      else weekly_goals_loop rest current_week weekly_goals
  end.

Definition _extract_weekly_goals_from_response (ai_response : str)
    : list weekly_goal :=
  weekly_goals_loop (split NL ai_response) 0 [].
End WeeklyGoals.

(** *** Learning resources *)

Record resource := {
  res_title : str;                (* 'title' *)
  res_description : str;          (* 'description' *)
  res_url : str;                  (* 'url' *)
  res_type : str;                 (* 'type' *)
  res_difficulty : str;
  res_estimated_duration : str;
  res_cost : str;
  res_provider : str;
  res_skills : list str;
  res_why_recommended : str
}.

Record resource_recommendations := {
  resources : list resource;
  learning_path_suggestion : str;
  additional_tips : list str
}.

(** [skills_names[0] if skills_names else default] *)
Definition first_skill_or (skills_names : list str) (default : str) : str :=
  match skills_names with
  | first :: _ => first
  | [] => default
  end.

Definition _create_fallback_resources (skills_names : list str)
    (difficulty_level : str) : resource_recommendations :=
  {| resources :=
       [ {| res_title := py "Getting Started with " ++
                         first_skill_or skills_names (py "Your Skills");
            res_description := py "A comprehensive guide to get you started";
            res_url := py "https://example.com/guide";
            res_type := py "tutorial";
            res_difficulty := difficulty_level;
            res_estimated_duration := py "2-4 hours";
            res_cost := py "free";
            res_provider := py "Community Resource";
            res_skills := skills_names;
            res_why_recommended := py "Great starting point for beginners" |};
         {| res_title := py "Advanced " ++ first_skill_or skills_names (py "Skills")
                         ++ py " Course";
            res_description := py "Deep dive into advanced concepts";
            res_url := py "https://example.com/advanced";
            res_type := py "course";
            res_difficulty := py "advanced";
            res_estimated_duration := py "4-6 weeks";
            res_cost := py "paid";
            res_provider := py "Online Learning Platform";
            res_skills := skills_names;
            res_why_recommended := py "Comprehensive coverage of advanced topics" |} ];
     learning_path_suggestion :=
       py "Start with fundamentals, then move to practical projects in " ++
       first_skill_or skills_names (py "your chosen area") ++ py ".";
     additional_tips :=
       [py "Practice regularly"; py "Join online communities";
        py "Work on real projects"; py "Seek feedback"] |}.

Section Resources.
Context `{UnicodeData}.

Definition _determine_resource_type (line : str) : str :=
  let line_lower := lower line in
  if contains (py "course") line_lower then py "course"
  else if contains (py "video") line_lower then py "video"
  else if contains (py "article") line_lower || contains (py "blog") line_lower
  then py "article"
  else if contains (py "book") line_lower then py "book"
  else if contains (py "tutorial") line_lower then py "tutorial"
  else if contains (py "project") line_lower then py "project"
  else py "course".

(** The resource opened by a line that looks like a title. *)
Definition resource_of_line (line : str) (skills_names : list str)
    (difficulty_level : str) : resource :=
  {| res_title :=
       if contains [COLON] line then strip (before_first COLON line) else line;
     res_description := py "Learning resource for " ++ join (py ", ") skills_names;
     res_url := py "https://example.com/resource";
     res_type := _determine_resource_type line;
     res_difficulty := difficulty_level;
     res_estimated_duration := py "2-4 hours";
     res_cost := py "free";
     res_provider := py "Online Platform";
     res_skills := skills_names;
     res_why_recommended := py "Matches your learning requirements" |}.

(** What a line of details changes in the resource being read. *)
Definition add_details (line : str) (current_resource : resource) : resource :=
  let cost' :=
    if contains (py "free") (lower line) then py "free"
    else if contains (py "paid") (lower line) then py "paid"
    else res_cost current_resource in
  let description' :=
    if negb (nonempty (res_description current_resource))
       || (length (res_description current_resource) <? 50)
    then line else res_description current_resource in
  {| res_title := res_title current_resource;
     res_description := description';
     res_url := res_url current_resource;
     res_type := res_type current_resource;
     res_difficulty := res_difficulty current_resource;
     res_estimated_duration := res_estimated_duration current_resource;
     res_cost := cost';
     res_provider := res_provider current_resource;
     res_skills := res_skills current_resource;
     res_why_recommended := res_why_recommended current_resource |}.

(** The [for line in lines] loop of [_parse_resource_recommendations]. *)
Fixpoint resources_loop (skills_names : list str) (difficulty_level : str)
    (lines : list str) (resources : list resource)
    (current_resource : option resource) (resource_count : nat)
    : list resource * option resource :=
  match lines with
  | [] => (resources, current_resource)
  | line :: rest =>
      let line := strip line in
      if negb (nonempty line) then
        resources_loop skills_names difficulty_level rest resources
          current_resource resource_count
      else if (15 <? length line)
              && (contains [COLON] line || contains (py "course") (lower line)
                  || contains (py "tutorial") (lower line))
              && (resource_count <? 8) then
        let resources :=
          match current_resource with
          | Some r => resources ++ [r]
          | None => resources
          end in
        resources_loop skills_names difficulty_level rest resources
          (Some (resource_of_line line skills_names difficulty_level))
          (resource_count + 1)
      else
        match current_resource with
        | Some r =>
            if 20 <? length line then
              resources_loop skills_names difficulty_level rest resources
                (Some (add_details line r)) resource_count
            else
              resources_loop skills_names difficulty_level rest resources
                current_resource resource_count
        | None =>
            resources_loop skills_names difficulty_level rest resources
              current_resource resource_count
        end
  end.

(** [_parse_resource_recommendations], on the response text and the names of
    the skills (the skill objects themselves are not read); on a string
    nothing in its [try] raises. *)
Definition _parse_resource_recommendations (ai_response : str)
    (skills_names : list str) (difficulty_level : str) : resource_recommendations :=
  let lines := split NL ai_response in
  let '(resources, current_resource) :=
    resources_loop skills_names difficulty_level lines [] None 0 in
  let resources :=
    match current_resource with
    | Some r => resources ++ [r]
    | None => resources
    end in
  {| resources := resources;
     learning_path_suggestion :=
       py "Start with fundamentals of " ++
       first_skill_or skills_names (py "your chosen area") ++
       py ", then progress to practical projects.";
     additional_tips :=
       [py "Practice regularly"; py "Join online communities";
        py "Work on real projects"; py "Seek feedback from peers"] |}.
End Resources.

(** *** Skill gap analysis *)

(** An entry of [skills_analysis]. *)
Record skill_entry := {
  skill_name : str;
  target_level : str;         (* 'required_level' or 'recommended_level' *)
  current_level : str;
  is_required : bool
}.

Record gap := {
  gap_skill : str;                      (* 'skill' *)
  gap_current_level : option str;       (* only in the fallback *)
  gap_required_level : option str;      (* only in the fallback *)
  gap_severity : str;
  learning_priority : Z
}.

Record next_step := {
  action : str;
  timeline : str;
  step_resources : list str            (* 'resources' *)
}.

Record gap_analysis := {
  overall_readiness_score : Z;
  critical_gaps : list gap;
  strengths : list str;
  recommended_next_steps : list next_step;
  estimated_preparation_time : str;
  confidence_level : str
}.

(** [_create_fallback_gap_analysis], which does not read its argument. *)
Definition _create_fallback_gap_analysis (skills_analysis : list skill_entry)
    : gap_analysis :=
  {| overall_readiness_score := 60;
     critical_gaps :=
       [ {| gap_skill := py "Technical Skills";
            gap_current_level := Some (py "beginner");
            gap_required_level := Some (py "intermediate");
            gap_severity := py "medium";
            learning_priority := 8 |} ];
     strengths := [py "Motivation to learn"; py "Clear career goal"];
     recommended_next_steps :=
       [ {| action := py "Start with foundational courses";
            timeline := py "2-3 months";
            step_resources := [py "Online courses"; py "Practice projects"] |} ];
     estimated_preparation_time := py "6-8 months";
     confidence_level := py "medium" |}.

Section GapAnalysis.
Context `{UnicodeData} `{UnicodeText}.
(** The limit of the running Python on the digits of an integer literal. *)
Variable int_max_str_digits : option nat.

(** [_extract_skill_from_line]; [None] is the return of [None]. *)
Fixpoint _extract_skill_from_line (line : str) (skills_analysis : list skill_entry)
    : option str :=
  match skills_analysis with
  | [] => None
  | skill :: rest =>
      if contains (lower (skill_name skill)) (lower line)
      then Some (skill_name skill)
      else _extract_skill_from_line line rest
  end.

(** The loop that reads the readiness score; it stops at the first line
    that names a score and holds a number. *)
Fixpoint score_loop (lines : list str) (score : Z) : result Z :=
  match lines with
  | [] => Ok score
  | line :: rest =>
      if contains (py "score") (lower line) || contains [PERCENT] line then
        let number := first_number line in
        if nonempty number then
          match py_int int_max_str_digits number with
          | Ok n => Ok (Z.min 100 n)
          | Raise e => Raise e
          end
        else score_loop rest score
      else score_loop rest score
  end.

(** The loop that reads the critical gaps, on its flag [gap_section]. *)
Fixpoint gaps_loop (skills_analysis : list skill_entry) (lines : list str)
    (gap_section : bool) (critical_gaps : list gap) : list gap :=
  match lines with
  | [] => critical_gaps
  | line :: rest =>
      let line_lower := lower line in
      if contains (py "critical") line_lower || contains (py "gaps") line_lower then
        gaps_loop skills_analysis rest true critical_gaps
      else if gap_section && nonempty (strip line) then
        if existsb (fun word => contains word line_lower)
             [py "strength"; py "next"; py "step"; py "time"]
        then gaps_loop skills_analysis rest false critical_gaps
        else
          match _extract_skill_from_line line skills_analysis with
          | Some (c :: name) =>
              gaps_loop skills_analysis rest gap_section
                (critical_gaps ++
                 [{| gap_skill := c :: name;
                     gap_current_level := None;
                     gap_required_level := None;
                     gap_severity := py "high";
                     learning_priority := 8 |}])
          | _ => gaps_loop skills_analysis rest gap_section critical_gaps
          end
      else gaps_loop skills_analysis rest gap_section critical_gaps
  end.

(** [line.strip().replace('-', '').replace('*', '').strip()] *)
Definition clean (line : str) : str :=
  strip (replace [STAR] [] (replace [HYPHEN] [] (strip line))).

(** The lines kept by the loops on strengths and on next steps. *)
Definition clean_lines_with (keywords : list str) (lines : list str) : list str :=
  List.filter (fun clean_line => 10 <? length clean_line)
    (clean <$> List.filter
                 (fun line => existsb (fun keyword => contains keyword (lower line))
                                      keywords)
                 lines).

(** [_parse_gap_analysis]: a response that is not a string raises at
    [ai_response.split], and [int] can raise; the handler of the [try]
    returns the fallback analysis. *)
Definition _parse_gap_analysis (ai_response : json)
    (skills_analysis : list skill_entry) : gap_analysis :=
  match ai_response with
  | JStr ai_response =>
      let lines := split NL ai_response in
      match score_loop lines 60 with
      | Raise _ => _create_fallback_gap_analysis skills_analysis
      | Ok score =>
          {| overall_readiness_score := score;
             critical_gaps := gaps_loop skills_analysis lines false [];
             strengths :=
               clean_lines_with
                 [py "strength"; py "good"; py "strong"; py "proficient"] lines;
             recommended_next_steps :=
               (fun clean_line =>
                  {| action := clean_line;
                     timeline := py "2-4 weeks";
                     step_resources := [py "Online courses"; py "Practice projects"] |})
               <$> clean_lines_with
                     [py "next"; py "recommend"; py "should"; py "action"] lines;
             estimated_preparation_time := py "6-8 months";
             confidence_level := py "medium" |}
      end
  | _ => _create_fallback_gap_analysis skills_analysis
  end.

End GapAnalysis.

(** *** Milestones read from a response *)

(** An entry of the list [milestones] of
    [_extract_milestones_from_response]; a row of [RoadmapMilestone] is then
    created from each entry, with the same title, description, hours and
    order. *)
Record milestone_data := {
  md_title : str;
  md_description : str;
  md_skill_name : str;
  md_estimated_hours : Z;
  md_order : nat
}.

Section Milestones.
Context `{UnicodeData} `{UnicodeText}.

Definition skill_indicators : list str :=
  [py "programming"; py "development"; py "analysis"; py "design";
   py "management"; py "communication"; py "leadership"; py "technical";
   py "software"; py "data"].

(** [word.isalpha()] *)
Definition word_isalpha (word : str) : bool := nonempty word && forallb isalpha word.

Definition _extract_skill_name (line : str) : str :=
  let words := words line in
  match List.find (fun word => mem (lower word) skill_indicators) words with
  | Some word => capitalize word
  | None =>
      match List.find (fun word => (3 <? length word) && word_isalpha word) words with
      | Some word => capitalize word
      | None => py "General Skill"
      end
  end.

Definition milestone_keywords : list str :=
  [py "milestone"; py "phase"; py "step"; py "stage"; py "week"; py "month"].

Definition skill_keywords : list str :=
  [py "learn"; py "master"; py "understand"; py "practice"; py "develop"].

(** The title of the milestone a line opens. *)
Definition milestone_title (line : str) : str :=
  let title := strip (replace [COLON] [] line) in
  if 50 <? length title then take 47 title ++ py "..." else title.

(** The [for line in lines] loop of [_extract_milestones_from_response]. *)
Fixpoint milestones_loop (lines : list str) (milestones : list milestone_data)
    (current_milestone : option milestone_data) (milestone_order : nat)
    : list milestone_data * option milestone_data :=
  match lines with
  | [] => (milestones, current_milestone)
  | line :: rest =>
      let line := strip line in
      if negb (nonempty line) then
        milestones_loop rest milestones current_milestone milestone_order
      else
        let line_lower := lower line in
        if existsb (fun keyword => contains keyword line_lower) milestone_keywords
        then
          let milestones :=
            match current_milestone with
            | Some m => milestones ++ [m]
            | None => milestones
            end in
          milestones_loop rest milestones
            (Some {| md_title := milestone_title line;
                     md_description := [];
                     md_skill_name := [];
                     md_estimated_hours := 20;
                     md_order := milestone_order |})
            (milestone_order + 1)
        else
          match current_milestone with
          | Some m =>
              if existsb (fun keyword => contains keyword line_lower) skill_keywords
              then
                milestones_loop rest milestones
                  (Some {| md_title := md_title m;
                           md_description :=
                             if nonempty (md_description m) then md_description m
                             else line;
                           md_skill_name :=
                             if nonempty (md_skill_name m) then md_skill_name m
                             else _extract_skill_name line;
                           md_estimated_hours := md_estimated_hours m;
                           md_order := md_order m |})
                  milestone_order
              else milestones_loop rest milestones current_milestone milestone_order
          | None => milestones_loop rest milestones current_milestone milestone_order
          end
  end.

(** The list [milestones] that [_extract_milestones_from_response] builds
    before it writes the rows. *)
Definition parsed_milestones (ai_response : str) : list milestone_data :=
  let '(milestones, current_milestone) :=
    milestones_loop (split NL ai_response) [] None 1 in
  match current_milestone with
  | Some m => milestones ++ [m]
  | None => milestones
  end.
End Milestones.

End Roadmaps.

(** * Vocabulary of the properties and sample inputs *)

(** ** The inference client *)

(** The trace of a run of [n] attempts from [a] that all meet a 503. *)
Definition backoff_trace (prompt : str) (delay a n : nat) : list event :=
  flat_map (fun k => [Post prompt; Sleep (delay * (k + 1))]) (seq a n).

(** An endpoint whose model never finishes loading. *)
Definition net_loading : endpoint :=
  fun _ _ => Responds {| status_code := 503; json_body := None |}.

(** An endpoint that cannot be reached. *)
Definition net_down : endpoint := fun _ _ => Fails ConnectionError.

(** An endpoint that rejects the token. *)
Definition net_unauthorized : endpoint :=
  fun _ _ => Responds {| status_code := 401; json_body := None |}.

(** An endpoint that answers every prompt with the text [s]. *)
Definition net_says (s : str) : endpoint :=
  fun _ _ => Responds {| status_code := 200;
                         json_body := Some (JArr [JObj [(py "generated_text", JStr s)]]) |}.


(** An endpoint that answers 200 with an empty list. *)
Definition net_empty_list : endpoint :=
  fun _ _ => Responds {| status_code := 200; json_body := Some (JArr []) |}.

(** An endpoint whose model is loading at the first POST and answers [s]
    afterwards. *)
Definition net_warming (s : str) : endpoint :=
  fun prompt k =>
    if k =? 0 then Responds {| status_code := 503; json_body := None |}
    else net_says s prompt k.

(** An endpoint that answers 200 with an object without the generated text. *)
Definition net_silent : endpoint :=
  fun _ _ => Responds {| status_code := 200;
                         json_body := Some (JObj [(py "error", JStr (py "none"))]) |}.

(** The generated text of a body of one of the two shapes the client reads:
    a list whose first element is an object, or an object. *)
Definition generated_text (body : json) : option json :=
  match body with
  | JArr (JObj d :: _) | JObj d =>
      Some (default (JStr []) (dict_lookup (py "generated_text") d))
  | _ => None
  end.

(** The longest wait of a call: the sleeps of a run that meets 503 at every
    attempt. *)
Definition longest_wait (max_retries delay : nat) : nat :=
  sum_list ((fun attempt => delay * (attempt + 1)) <$> seq 0 max_retries).

(** ** The notes pipeline *)

Import Notes.

(** Every field of the notes holds something. *)
Definition populated (n : notes) : bool :=
  nonempty (summary n) && nonempty (content n) && nonempty (key_points n)
  && nonempty (questions n) && nonempty (difficulty_level n)
  && (1 <=? estimated_read_time n) && nonempty (tags n).

(** The client gave nothing to parse: it raised, or returned [None] or
    another false value. *)
Definition client_failed (r : result json) : bool :=
  match r with
  | Raise _ => true
  | Ok v => negb (truthy v)
  end.

(** The text of the parsing scenario of the specification. *)
Definition cats_text : str :=
  py "Summary: Cats are mammals.
More info.

- Key idea one about mammals
- Key idea two about biology
What is a mammal?
Done.".

(** The heading of the content of the notes. *)
Definition content_heading (title : str) : str :=
  py "Detailed Notes for " ++ title ++ py ":" ++ [NL; NL].

(** A short link without a video id. *)
Definition bare_short_link : parsed_url :=
  {| hostname := Some (py "youtu.be"); path := py "/"; query := ∅ |}.

(** ** YouTube links *)

Definition youtube_hosts : list str :=
  [py "youtu.be"; py "youtube.com"; py "www.youtube.com"].

Definition known_host (url : parsed_url) : bool :=
  match hostname url with
  | Some h => mem h youtube_hosts
  | None => false
  end.

(** The path forms [/watch] with a [v] parameter, [/embed/<id>], [/v/<id>]. *)
Definition recognized_path (url : parsed_url) : bool :=
  str_eqb (path url) (py "/watch") && bool_decide (is_Some (query url !! py "v"))
  || startswith (py "/embed/") (path url)
  || startswith (py "/v/") (path url).

(** A short link, and a link to another site. *)
Definition short_link : parsed_url :=
  {| hostname := Some (py "youtu.be"); path := py "/dQw4w9WgXcQ"; query := ∅ |}.

(** A watch link without its [v] parameter. *)
Definition watch_without_v : parsed_url :=
  {| hostname := Some (py "www.youtube.com"); path := py "/watch"; query := ∅ |}.

Definition other_site : parsed_url :=
  {| hostname := Some (py "vimeo.com"); path := py "/watch";
     query := {[ py "v" := [py "abc"] ]} |}.

(** The title [process_pdf_file] gives the notes: the one passed or, when
    that is empty, one made of the name of the file; none when the file
    object has no name either. *)
Definition pdf_title (f : pdf_file) (title : str) : option str :=
  if nonempty title then Some title
  else (fun name => py "PDF Notes - " ++ name) <$> name f.

(** An uploaded file that cannot be read as a PDF. *)
Definition broken_upload : pdf_file :=
  {| name := Some (py "scan.pdf"); read := Unreadable (py "EOF marker not found") |}.

(** A readable stream that has no [name]. *)
Definition bare_stream : pdf_file :=
  {| name := None; read := Pages [py "Cells divide."] |}.

(** ** Roadmap progress *)

(** What a milestone counts for. *)
Definition contribution (m : Roadmaps.milestone) : Z :=
  if str_eqb (Roadmaps.m_status m) (py "completed") then 100%Z
  else if str_eqb (Roadmaps.m_status m) (py "in_progress")
  then Roadmaps.progress_percentage m
  else 0%Z.

Definition total_contribution (ms : list Roadmaps.milestone) : Z :=
  foldr Z.add 0%Z (contribution <$> ms).

Definition a_milestone (i : Z) (s : str) (percentage : Z) : Roadmaps.milestone :=
  {| Roadmaps.id := i; Roadmaps.m_status := s;
     Roadmaps.progress_percentage := percentage |}.

(** Two milestones completed, one half done, one not started. *)
Definition four_milestones : Roadmaps.roadmap :=
  {| Roadmaps.title := py "Data engineering";
     Roadmaps.milestones :=
       [ a_milestone 1 (py "completed") 100;
         a_milestone 2 (py "completed") 100;
         a_milestone 3 (py "in_progress") 50;
         a_milestone 4 (py "not_started") 0 ];
     Roadmaps.overall_progress_percentage := 0;
     Roadmaps.completed_milestones := [];
     Roadmaps.status := py "active" |}.

(** The quotient of two positive integers by the IEEE 754 division of the
    Standard Library, at the format of a double. *)
Definition ieee_divide (a b : positive) : SpecFloat.spec_float :=
  SpecFloat.SFdiv 53 1024 (SpecFloat.S754_finite false a 0)
                          (SpecFloat.S754_finite false b 0).

(** [true_divide a b] and [ieee_divide a b] are the same number, or both
    beyond the doubles. *)
Definition agrees_with_ieee (a b : positive) : bool :=
  match true_divide (Z.pos a) (Z.pos b), ieee_divide a b with
  | Ok x, SpecFloat.S754_zero _ => (mantissa x =? 0)%Z
  | Ok x, SpecFloat.S754_finite false m e =>
      let '(vx, dx) := scaled (mantissa x) 1 (- exponent x) in
      let '(vy, dy) := scaled (Z.pos m) 1 (- e) in
      (vx * dy =? vy * dx)%Z
  | Raise OverflowError, SpecFloat.S754_infinity false => true
  | _, _ => false
  end.

(** Quotients that are exact, rounded up, rounded down, tied, subnormal,
    too small and too large. *)
Definition sample_quotients : list (positive * positive) :=
  [ (250, 4); (100, 1); (1, 3); (1, 10); (7, 2); (2 ^ 53, 1);
    (2 ^ 53 + 1, 1); (2 ^ 53 + 3, 1); (2 ^ 60 - 1, 2 ^ 60);
    (1, 2 ^ 1074); (3, 2 ^ 1075); (1, 2 ^ 1075);
    (2 ^ 1024 - 2 ^ 970 - 1, 1); (2 ^ 1024 - 2 ^ 970, 1); (2 ^ 1024, 1) ]%positive.

(** One milestone in progress, at a percentage of 54 bits. *)
Definition beyond_the_mantissa : Roadmaps.roadmap :=
  {| Roadmaps.title := py "Data engineering";
     Roadmaps.milestones := [ a_milestone 1 (py "in_progress") (2 ^ 53 + 1) ];
     Roadmaps.overall_progress_percentage := 0;
     Roadmaps.completed_milestones := [];
     Roadmaps.status := py "active" |}.

(** ** Quizzes *)

Definition question_kinds : list str :=
  [py "multiple_choice"; py "true_false"; py "short_answer"].

(** The question every padding of the parsed questions repeats: the first
    fallback template. *)
Definition first_fallback_question (topic difficulty : str) : Quizzes.question :=
  {| Quizzes.question_text := py "What is the main principle behind " ++ topic ++ py "?";
     Quizzes.question_type := py "multiple_choice";
     Quizzes.options :=
       [ py "A) Core concept of " ++ topic;
         py "B) Basic principle of " ++ topic;
         py "C) Advanced theory of " ++ topic;
         py "D) Unrelated concept" ];
     Quizzes.correct_answers := [Quizzes.AInt 0];
     Quizzes.explanation := py "This question tests understanding of " ++ topic
                            ++ py " concepts.";
     Quizzes.hint := py "Think about the fundamental principles of " ++ topic ++ py ".";
     Quizzes.points := 1;
     Quizzes.difficulty_level := difficulty |}.

(** What every generated question satisfies. *)
Definition sound_question (difficulty : str) (q : Quizzes.question) : Prop :=
  Quizzes.points q = 1%Z
  /\ Quizzes.difficulty_level q = difficulty
  /\ length (Quizzes.correct_answers q) = 1
  /\ Quizzes.question_type q ∈ question_kinds.

(** ** Roadmap parsers *)

(** The assessment that goes with a percentage of progress. *)
Definition assessment_of (progress_percentage : Z) : str :=
  if (80 <=? progress_percentage)%Z then py "excellent"
  else if (50 <=? progress_percentage)%Z then py "good"
  else py "needs_improvement".

Definition is_completed (m : Roadmaps.milestone) : Prop :=
  Roadmaps.m_status m = py "completed".

Definition resource_kinds : list str :=
  [py "course"; py "video"; py "article"; py "book"; py "tutorial"; py "project"].

(** What every resource read from a response satisfies. *)
Definition sound_resource (skills_names : list str) (difficulty_level : str)
    (r : Roadmaps.resource) : Prop :=
  Roadmaps.res_difficulty r = difficulty_level
  /\ Roadmaps.res_skills r = skills_names
  /\ Roadmaps.res_cost r ∈ [py "free"; py "paid"]
  /\ Roadmaps.res_type r ∈ resource_kinds.

(** A response to the roadmap prompt, and one to the gap analysis prompt. *)
Definition plan_text : str :=
  py "Week 1: Learn basics of programming
week two has no digit
Week 3 - practice daily
I recommend reading docs every day
Tip: x
Consider joining a community of learners".

Definition gaps_text : str :=
  py "Overall score: 250%
Critical gaps:
- Python needs work
- cooking
Strengths: good at SQL and more
Next steps should include practice".

Definition python_skill : Roadmaps.skill_entry :=
  {| Roadmaps.skill_name := py "Python"; Roadmaps.target_level := py "advanced";
     Roadmaps.current_level := py "beginner"; Roadmaps.is_required := true |}.

(** * Properties *)

(** ** The inference client *)

Section Client.
Variables (net : endpoint) (prompt : str) (max_retries delay : nat).

Lemma attempt_body_503 o :
  status_of o = Some 503%Z -> attempt_body o = Continue503.
Proof.
  destruct o as [r|e]; cbn; [|discriminate].
  intros [= ->]. reflexivity.
Qed.

Lemma attempt_body_other o c :
  status_of o = Some c -> c <> 200%Z -> c <> 503%Z -> attempt_body o = Break.
Proof.
  destruct o as [r|e]; cbn; [|discriminate].
  intros [= <-] H200 H503.
  destruct (Z.eqb_spec (status_code r) 503); [contradiction|].
  destruct (Z.eqb_spec (status_code r) 200); [contradiction|].
  reflexivity.
Qed.

(** One turn of the loop when the model is loading. *)
Lemma attempts_503 attempt rest tr :
  status_of (net prompt attempt) = Some 503%Z ->
  attempts net prompt max_retries delay (attempt :: rest) tr =
  attempts net prompt max_retries delay rest
    (tr ++ [Post prompt; Sleep (delay * (attempt + 1))]).
Proof.
  intros H503. cbn [attempts]. rewrite (attempt_body_503 _ H503).
  by rewrite <- app_assoc.
Qed.


Lemma attempts_all_503 n a tr :
  (forall k, a <= k < a + n -> status_of (net prompt k) = Some 503%Z) ->
  attempts net prompt max_retries delay (seq a n) tr =
  (tr ++ backoff_trace prompt delay a n, Ok JNull).
Proof.
  revert a tr. induction n as [|n IH]; intros a tr Hall.
  - cbn. by rewrite app_nil_r.
  - cbn [seq]. rewrite attempts_503 by (apply Hall; lia).
    rewrite IH by (intros k Hk; apply Hall; lia).
    unfold backoff_trace. cbn [seq flat_map]. by rewrite <- app_assoc.
Qed.


Lemma posts_app tr1 tr2 : posts (tr1 ++ tr2) = posts tr1 + posts tr2.
Proof. unfold posts. by rewrite List.filter_app, length_app. Qed.

Lemma sleeps_app tr1 tr2 : sleeps (tr1 ++ tr2) = sleeps tr1 ++ sleeps tr2.
Proof. unfold sleeps. apply omap_app. Qed.

Lemma posts_backoff_trace a n :
  posts (backoff_trace prompt delay a n) = n.
Proof.
  revert a. induction n as [|n IH]; intros a; [reflexivity|].
  unfold backoff_trace. cbn [seq flat_map].
  rewrite posts_app. fold (backoff_trace prompt delay (S a) n).
  rewrite IH. reflexivity.
Qed.

Lemma sleeps_backoff_trace a n :
  sleeps (backoff_trace prompt delay a n) = (fun k => delay * (k + 1)) <$> seq a n.
Proof.
  revert a. induction n as [|n IH]; intros a; [reflexivity|].
  unfold backoff_trace. cbn [seq flat_map].
  rewrite sleeps_app. fold (backoff_trace prompt delay (S a) n). rewrite IH. reflexivity.
Qed.
End Client.

(** C1: if every attempt meets HTTP 503, the client makes exactly
    [max_retries] attempts, sleeps [delay * attempt_number] after attempt
    number 1, 2, ..., and returns [None] without raising; with the defaults
    that is three POSTs and sleeps of 1, 2 and 3. *)
Theorem C1_all_503_returns_none (net : endpoint) (prompt : str)
    (max_retries delay : nat) :
  (forall k, k < max_retries -> status_of (net prompt k) = Some 503%Z) ->
  let run := call_huggingface_api_with net prompt max_retries delay in
  snd run = Ok JNull
  /\ posts (fst run) = max_retries
  /\ sleeps (fst run) =
       (fun attempt_number => delay * attempt_number) <$> seq 1 max_retries
  /\ fst run = backoff_trace prompt delay 0 max_retries
  /\ (max_retries = 3 -> delay = 1 ->
      call_huggingface_api net prompt =
      ([Post prompt; Sleep 1; Post prompt; Sleep 2; Post prompt; Sleep 3],
       Ok JNull)).
Proof.
  intros Hall run.
  assert (Hrun : run = (backoff_trace prompt delay 0 max_retries, Ok JNull)).
  { unfold run, call_huggingface_api_with.
    rewrite attempts_all_503 by (intros k Hk; apply Hall; lia). reflexivity. }
  rewrite Hrun. cbn [fst snd]. repeat split.
  - apply posts_backoff_trace.
  - rewrite sleeps_backoff_trace, <- fmap_S_seq, <- list_fmap_compose.
    apply list_fmap_ext. intros _ k _. cbn. f_equal. lia.
  - intros -> ->. exact Hrun.
Qed.

(** The three default attempts against a model that never finishes loading. *)
Lemma C1_witness :
  call_huggingface_api net_loading (py "Explain osmosis") =
  ([Post (py "Explain osmosis"); Sleep 1; Post (py "Explain osmosis"); Sleep 2;
    Post (py "Explain osmosis"); Sleep 3], Ok JNull).
Proof.
  apply (C1_all_503_returns_none net_loading (py "Explain osmosis") 3 1);
    [intros k _; reflexivity | reflexivity | reflexivity].
Defined.



(** C5: if the first attempt meets a status that is neither 200 nor 503, the
    client returns [None] after that one POST, without any sleep. *)
Theorem C5_other_status_aborts (net : endpoint) (prompt : str)
    (max_retries delay : nat) (code : Z) :
  1 <= max_retries ->
  status_of (net prompt 0) = Some code ->
  code <> 200%Z -> code <> 503%Z ->
  call_huggingface_api_with net prompt max_retries delay = ([Post prompt], Ok JNull)
  /\ (max_retries = 3 -> delay = 1 ->
      call_huggingface_api net prompt = ([Post prompt], Ok JNull)
      /\ posts (fst (call_huggingface_api net prompt)) = 1
      /\ sleeps (fst (call_huggingface_api net prompt)) = []).
Proof.
  intros Hmr Hcode H200 H503.
  assert (Hrun : call_huggingface_api_with net prompt max_retries delay
                 = ([Post prompt], Ok JNull)).
  { unfold call_huggingface_api_with.
    destruct max_retries as [|n]; [lia|]. cbn [seq attempts].
    rewrite (attempt_body_other _ _ Hcode H200 H503). reflexivity. }
  split; [exact Hrun|].
  intros -> ->. unfold call_huggingface_api. rewrite Hrun. by cbn.
Qed.

(** A rejected token: status 401 on the first attempt. *)
Lemma C5_witness :
  call_huggingface_api net_unauthorized (py "hi") = ([Post (py "hi")], Ok JNull).
Proof.
  apply (C5_other_status_aborts net_unauthorized (py "hi") 3 1 401);
    [lia | reflexivity | discriminate | discriminate | reflexivity | reflexivity].
Defined.

(** ** The notes pipeline *)

Lemma nonempty_length {A} (l : list A) : nonempty l = true <-> 1 <= length l.
Proof. destruct l; cbn; split; (lia || congruence || eauto). Qed.

Lemma nonempty_take {A} n (l : list A) :
  1 <= n -> nonempty l = true -> nonempty (take n l) = true.
Proof. destruct n, l; cbn; (lia || congruence || eauto). Qed.

Lemma length_take_le {A} n (l : list A) : length (take n l) <= n.
Proof. rewrite length_take. lia. Qed.

Section NotesProperties.
Context `{UnicodeData}.

Lemma generate_notes_from_text_ok net text title source_type :
  is_ok (snd (generate_notes_from_text net text title source_type)) = true.
Proof.
  unfold generate_notes_from_text.
  destruct (call_huggingface_api net _) as [tr [v|e]]; [|reflexivity].
  destruct (truthy v); reflexivity.
Qed.

Lemma generate_notes_from_text_fallback net text title source_type :
  client_failed
    (snd (call_huggingface_api net (notes_prompt text title source_type))) = true ->
  snd (generate_notes_from_text net text title source_type)
  = Ok (create_fallback_notes text title source_type).
Proof.
  unfold generate_notes_from_text.
  destruct (call_huggingface_api net _) as [tr [v|e]]; cbn; [|reflexivity].
  destruct (truthy v); [discriminate | reflexivity].
Qed.

Lemma create_fallback_notes_populated text title source_type :
  populated (create_fallback_notes text title source_type) = true.
Proof.
  assert (Hrt : (1 <=? Nat.max 1 (length text / 250)) = true)
    by (apply Nat.leb_le; lia).
  unfold populated. cbn -[Nat.div Nat.max Nat.leb]. rewrite Hrt. reflexivity.
Qed.

Lemma extract_questions_bounds text :
  1 <= length (extract_questions text) <= 10.
Proof.
  unfold extract_questions. split; [|apply length_take_le].
  apply nonempty_length, nonempty_take; [lia|].
  destruct (List.filter _ _); reflexivity.
Qed.

Lemma extract_difficulty_nonempty text : nonempty (extract_difficulty text) = true.
Proof.
  unfold extract_difficulty.
  destruct (existsb _ _); [reflexivity|]. destruct (existsb _ _); reflexivity.
Qed.

Lemma add_terms_nonempty text_lower terms tags :
  nonempty tags = true -> nonempty (add_terms text_lower terms tags) = true.
Proof.
  revert tags. induction terms as [|term rest IH]; intros tags Htags; [exact Htags|].
  cbn [add_terms]. destruct (contains term text_lower); [|by apply IH].
  assert (nonempty (tags ++ [term]) = true) by (by destruct tags).
  destruct (6 <=? _); [done | by apply IH].
Qed.

Lemma bullet_lines_found lines line :
  line ∈ lines ->
  is_bullet (strip line) = true ->
  10 < length (re_sub_marker (strip line)) ->
  nonempty (bullet_lines lines) = true.
Proof.
  intros Hin Hb Hlen. induction Hin as [line rest|line other rest Hin IH].
  - cbn [bullet_lines]. rewrite Hb.
    destruct (re_sub_marker (strip line)) as [|c clean] eqn:E; [cbn in Hlen; lia|].
    cbn [nonempty andb]. destruct (Nat.ltb_spec 10 (length (c :: clean))); [reflexivity|lia].
  - cbn [bullet_lines]. specialize (IH Hb Hlen).
    destruct (is_bullet (strip other)); [|exact IH].
    destruct (nonempty _ && _); [reflexivity | exact IH].
Qed.
End NotesProperties.

(** C2 (as stated, refuted): an exception raised by the client on its final
    attempt does not leave [generate_notes_from_text]; with an endpoint that
    cannot be reached the client raises and the pipeline returns notes. *)
Lemma C2_counterexample :
  ~ (forall (net : endpoint) (text title source_type : str) (e : exn),
       snd (call_huggingface_api net (notes_prompt text title source_type)) = Raise e ->
       snd (generate_notes_from_text net text title source_type) = Raise e).
Proof.
  intros Hclaim.
  specialize (Hclaim net_down (py "Cells divide.") (py "Cell Biology") (py "text")
                ConnectionError eq_refl).
  discriminate Hclaim.
Qed.

(** C2 (amended): [generate_notes_from_text] never raises; in every failure
    of the client, the exception of the final attempt included, it returns
    the fallback notes, all of whose fields are populated. *)
Theorem C2_notes_pipeline_always_degrades `{UnicodeData} (net : endpoint)
    (text title source_type : str) :
  let client := snd (call_huggingface_api net (notes_prompt text title source_type)) in
  let run := snd (generate_notes_from_text net text title source_type) in
  is_ok run = true
  /\ (forall e, client = Raise e ->
        run = Ok (create_fallback_notes text title source_type))
  /\ (client_failed client = true ->
        run = Ok (create_fallback_notes text title source_type))
  /\ populated (create_fallback_notes text title source_type) = true.
Proof.
  cbn zeta. split; [apply generate_notes_from_text_ok|].
  split; [|split].
  - intros e He. apply generate_notes_from_text_fallback. by rewrite He.
  - apply generate_notes_from_text_fallback.
  - apply create_fallback_notes_populated.
Qed.

(** The client raises on its last attempt; the pipeline returns the fallback. *)
Lemma C2_witness :
  snd (call_huggingface_api net_down
         (notes_prompt (py "Cells divide.") (py "Cell Biology") (py "text")))
  = Raise ConnectionError
  /\ snd (generate_notes_from_text net_down (py "Cells divide.") (py "Cell Biology")
            (py "text"))
     = Ok (create_fallback_notes (py "Cells divide.") (py "Cell Biology") (py "text")).
Proof.
  split; [reflexivity|].
  apply (proj1 (proj2 (C2_notes_pipeline_always_degrades net_down (py "Cells divide.")
                         (py "Cell Biology") (py "text"))) ConnectionError).
  reflexivity.
Defined.

(** C3 (as stated, refuted): for the response [ok] the parser returns notes
    without any key point, and the pipeline returns them as they are; for a
    blank response the summary is empty too. *)
Lemma C3_counterexample :
  let parsed := parse_ai_response (JStr (py "ok")) (py "Cells divide.")
                  (py "Cell Biology") (py "text") in
  key_points parsed = []
  /\ populated parsed = false
  /\ snd (generate_notes_from_text (net_says (py "ok")) (py "Cells divide.")
            (py "Cell Biology") (py "text")) = Ok parsed
  /\ summary (parse_ai_response (JStr (py " ")) (py "Cells divide.")
                (py "Cell Biology") (py "text")) = [].
Proof. vm_compute. repeat split. Qed.

(** C3 (amended): the fallback notes have every field populated; the parsed
    notes always have a non-empty content, questions, difficulty level and
    tags and a reading time of at least 1 (summary and key points are taken
    from the response and can be empty). *)
Theorem C3_notes_fields `{UnicodeData} (ai_response : json)
    (text title source_type : str) :
  let parsed := parse_ai_response ai_response text title source_type in
  nonempty (content parsed) = true
  /\ nonempty (questions parsed) = true
  /\ nonempty (difficulty_level parsed) = true
  /\ 1 <= estimated_read_time parsed
  /\ nonempty (tags parsed) = true
  /\ populated (create_fallback_notes text title source_type) = true.
Proof.
  cbn zeta.
  destruct ai_response as [|b|z|s|l|d];
    try (repeat split; cbn -[Nat.div Nat.max]; try lia;
         apply create_fallback_notes_populated).
  cbn [parse_ai_response content questions difficulty_level estimated_read_time tags].
  repeat split.
  - apply nonempty_length, extract_questions_bounds.
  - apply extract_difficulty_nonempty.
  - lia.
  - by apply add_terms_nonempty.
  - apply create_fallback_notes_populated.
Qed.

(** C6 (as stated, refuted): the text [- short] has a line that begins with a
    bullet marker, yet no item is extracted from it. *)
Lemma C6_counterexample :
  is_bullet (strip (py "- short")) = true
  /\ extract_bullet_points (py "- short") = [].
Proof. vm_compute. split; reflexivity. Qed.

(** C6 (amended): [extract_bullet_points] returns at most 8 items, and at
    least one when some line, stripped, begins with a bullet marker and keeps
    more than 10 characters once the marker and the white space after it are
    removed; [extract_questions] returns between 1 and 10 items. *)
Theorem C6_list_extraction_bounds `{UnicodeData} (text : str) :
  length (extract_bullet_points text) <= 8
  /\ ((exists line, line ∈ split NL text
                    /\ is_bullet (strip line) = true
                    /\ 10 < length (re_sub_marker (strip line))) ->
      1 <= length (extract_bullet_points text))
  /\ 1 <= length (extract_questions text) <= 10.
Proof.
  split; [apply length_take_le|]. split; [|apply extract_questions_bounds].
  intros (line & Hin & Hb & Hlen).
  unfold extract_bullet_points.
  rewrite (bullet_lines_found _ _ Hin Hb Hlen).
  apply nonempty_length, nonempty_take; [lia|].
  by apply (bullet_lines_found _ line).
Qed.

(** A text with one bullet line that is long enough. *)
Lemma C6_witness :
  1 <= length (extract_bullet_points (py "Notes
- Key idea one about mammals")).
Proof.
  apply (proj1 (proj2 (C6_list_extraction_bounds (py "Notes
- Key idea one about mammals")))).
  exists (py "- Key idea one about mammals").
  split; [|split].
  - apply list_elem_of_In. vm_compute. right. left. reflexivity.
  - vm_compute. reflexivity.
  - vm_compute. lia.
Defined.

(** ** YouTube links *)

(** C9 (as stated, refuted): a short link [youtu.be/<id>] has a path of none
    of the three forms, yet its video id is extracted. *)
Lemma C9_counterexample :
  ~ (forall url : parsed_url,
       known_host url = false \/ recognized_path url = false ->
       extract_youtube_video_id url = Ok None).
Proof.
  intros Hclaim.
  assert (Hshort : extract_youtube_video_id short_link = Ok None)
    by (apply Hclaim; right; reflexivity).
  vm_compute in Hshort. discriminate Hshort.
Qed.

Lemma known_host_false url h :
  known_host url = false -> hostname url = Some h -> h ∉ youtube_hosts.
Proof.
  unfold known_host. intros Hk Hh Hin. rewrite Hh in Hk.
  apply list_elem_of_In in Hin.
  assert (Hm : mem h youtube_hosts = true).
  { apply existsb_exists. exists h. split; [exact Hin|].
    unfold str_eqb. by rewrite bool_decide_eq_true_2. }
  congruence.
Qed.

(** C9 (amended): for a host other than the three, and for [youtube.com] or
    [www.youtube.com] with a path that is not [/watch] and starts with
    neither [/embed/] nor [/v/], no id is extracted and [process_youtube_url]
    raises [ValueError] before any request.  [generate_notes_from_text],
    [process_text_input] and [enhance_existing_notes] never raise and return
    their fallback output whenever the client fails; so does
    [process_pdf_file] when a title is passed or the file object has a name,
    an unreadable file included, and without both it raises
    [AttributeError] before any request.  The fallback notes have every
    field populated. *)
Theorem C9_invalid_youtube_url `{UnicodeData} (url : parsed_url) :
  known_host url = false
  \/ (hostname url <> Some (py "youtu.be")
      /\ path url <> py "/watch"
      /\ take 7 (path url) <> py "/embed/"
      /\ take 3 (path url) <> py "/v/") ->
  extract_youtube_video_id url = Ok None
  /\ (forall net title,
        process_youtube_url net url title
        = ([], Raise (ValueError (py "Invalid YouTube URL"))))
  /\ (forall net text title source_type note_content,
        let client prompt := snd (call_huggingface_api net prompt) in
        is_ok (snd (generate_notes_from_text net text title source_type)) = true
        /\ (client_failed (client (notes_prompt text title source_type)) = true ->
            snd (generate_notes_from_text net text title source_type)
            = Ok (create_fallback_notes text title source_type))
        /\ is_ok (snd (process_text_input net text title)) = true
        /\ (client_failed (client (notes_prompt text title (py "text input"))) = true ->
            snd (process_text_input net text title)
            = Ok (create_fallback_notes text title (py "text input")))
        /\ is_ok (snd (enhance_existing_notes net note_content)) = true
        /\ (client_failed (client (enhance_prompt note_content)) = true ->
            snd (enhance_existing_notes net note_content) = Ok fallback_enhancement))
  /\ (forall net f title,
        let client prompt := snd (call_huggingface_api net prompt) in
        let text := extract_pdf_text f in
        (forall t, pdf_title f title = Some t ->
           is_ok (snd (process_pdf_file net f title)) = true
           /\ (client_failed (client (notes_prompt text t (py "PDF document"))) = true ->
               snd (process_pdf_file net f title)
               = Ok (create_fallback_notes text t (py "PDF document"))))
        /\ (pdf_title f title = None ->
            process_pdf_file net f title = ([], Raise AttributeError))
        /\ (forall message, read f = Unreadable message ->
            text = py "Error extracting PDF: " ++ message))
  /\ (forall text title source_type,
        populated (create_fallback_notes text title source_type) = true).
Proof.
  intros Hurl.
  assert (Hnone : extract_youtube_video_id url = Ok None).
  { unfold extract_youtube_video_id. destruct Hurl as [Hk|(Hh & Hw & He & Hv)].
    - destruct (hostname url) as [h|] eqn:Eh; [|reflexivity].
      pose proof (known_host_false _ _ Hk Eh) as Hnot.
      rewrite !bool_decide_eq_false_2; [reflexivity|..];
        intros [= ->]; apply Hnot; unfold youtube_hosts; set_solver.
    - rewrite (bool_decide_eq_false_2 _ Hh).
      destruct (_ || _); [|reflexivity]. unfold str_eqb.
      rewrite (bool_decide_eq_false_2 _ Hw), (bool_decide_eq_false_2 _ He),
        (bool_decide_eq_false_2 _ Hv).
      reflexivity. }
  split; [exact Hnone|]. split; [|split; [|split]].
  - intros net title. unfold process_youtube_url. by rewrite Hnone.
  - intros net text title source_type note_content. cbn zeta.
    split; [apply generate_notes_from_text_ok|].
    split; [apply generate_notes_from_text_fallback|].
    split; [apply generate_notes_from_text_ok|].
    split; [apply generate_notes_from_text_fallback|].
    unfold enhance_existing_notes.
    destruct (call_huggingface_api net _) as [tr [[| | |s| |]|e]]; cbn;
      try (split; [reflexivity|]; intros; reflexivity).
    destruct s; cbn; (split; [reflexivity|]); [reflexivity|discriminate].
  - intros net f title. cbn zeta. unfold process_pdf_file, pdf_title.
    split; [|split].
    + intros t Ht. destruct (nonempty title).
      * injection Ht as <-.
        split; [apply generate_notes_from_text_ok|].
        apply generate_notes_from_text_fallback.
      * destruct (name f) as [n|]; [|discriminate]. injection Ht as <-.
        split; [apply generate_notes_from_text_ok|].
        apply generate_notes_from_text_fallback.
    + destruct (nonempty title); [discriminate|].
      by destruct (name f).
    + intros message Hread. unfold extract_pdf_text. by rewrite Hread.
  - apply create_fallback_notes_populated.
Qed.

(** A link to another site, even with a [/watch] path and a [v] parameter;
    an upload that cannot be read, with the endpoint out of reach; a stream
    without a name. *)
Lemma C9_witness :
  extract_youtube_video_id other_site = Ok None
  /\ process_youtube_url (net_says (py "ok")) other_site (py "Talk")
     = ([], Raise (ValueError (py "Invalid YouTube URL")))
  /\ snd (process_pdf_file net_down broken_upload [])
     = Ok (create_fallback_notes (py "Error extracting PDF: EOF marker not found")
             (py "PDF Notes - scan.pdf") (py "PDF document"))
  /\ process_pdf_file (net_says (py "ok")) bare_stream [] = ([], Raise AttributeError).
Proof.
  assert (Hother : known_host other_site = false
                   \/ (hostname other_site <> Some (py "youtu.be")
                       /\ path other_site <> py "/watch"
                       /\ take 7 (path other_site) <> py "/embed/"
                       /\ take 3 (path other_site) <> py "/v/"))
    by (left; reflexivity).
  split; [|split; [|split]].
  - apply (C9_invalid_youtube_url other_site Hother).
  - apply (C9_invalid_youtube_url other_site Hother).
  - apply (proj1 (proj1 (proj2 (proj2 (proj2
             (C9_invalid_youtube_url other_site Hother))))
                    net_down broken_upload [])
             (py "PDF Notes - scan.pdf") eq_refl).
    reflexivity.
  - apply (proj1 (proj2 (proj1 (proj2 (proj2 (proj2
             (C9_invalid_youtube_url other_site Hother))))
                    (net_says (py "ok")) bare_stream []))).
    reflexivity.
Defined.

(** ** Roadmap progress *)

Import Roadmaps.

(** *** The division of integers *)

Section TrueDivision.
Local Open Scope Z_scope.

Lemma round_half_even_cases n d :
  0 <= n -> 0 < d ->
  round_half_even n d = n / d
  \/ (round_half_even n d = n / d + 1 /\ d <= 2 * (n mod d)).
Proof.
  intros Hn Hd. unfold round_half_even.
  destruct (Z.ltb_spec (2 * (n mod d)) d) as [Hlt|Hge]; [by left|].
  destruct (Z.ltb_spec d (2 * (n mod d))); [right; split; [reflexivity|lia]|].
  destruct (Z.even (n / d)); [by left|]. right. split; [reflexivity|lia].
Qed.

Lemma scaled_nonneg n d e :
  0 <= e -> scaled n d e = (n, d * 2 ^ e).
Proof. intros He. unfold scaled. by rewrite (proj2 (Z.leb_le 0 e) He). Qed.

Lemma scaled_neg n d e :
  e < 0 -> scaled n d e = (n * 2 ^ (- e), d).
Proof. intros He. unfold scaled. by rewrite (proj2 (Z.leb_gt 0 e) He). Qed.

Lemma pow2_succ e : 0 <= e -> 2 ^ (e + 1) = 2 * 2 ^ e.
Proof. intros He. rewrite Z.pow_add_r by lia. lia. Qed.

(** [floor_log2 n d] is the integer part of the binary logarithm of [n / d]. *)
Lemma floor_log2_spec n d :
  0 < n -> 0 < d ->
  let k := floor_log2 n d in
  (0 <= k -> d * 2 ^ k <= n < d * 2 ^ (k + 1))
  /\ (k < 0 -> d <= n * 2 ^ (- k) < 2 * d).
Proof.
  intros Hn Hd.
  destruct (Z.log2_spec n Hn) as [Hn1 Hn2].
  destruct (Z.log2_spec d Hd) as [Hd1 Hd2].
  pose proof (Z.log2_nonneg n) as Hln. pose proof (Z.log2_nonneg d) as Hld.
  unfold floor_log2.
  set (la := Z.log2 n) in *. set (lb := Z.log2 d) in *.
  rewrite <- !Z.add_1_r in *.
  rewrite pow2_succ in Hn2, Hd2 by lia.
  destruct (Z.le_gt_cases 0 (la - lb)) as [Hk|Hk].
  - rewrite scaled_nonneg by lia.
    assert (Hla : 2 ^ la = 2 ^ lb * 2 ^ (la - lb)).
    { rewrite <- Z.pow_add_r by lia. f_equal; lia. }
    assert (0 < 2 ^ (la - lb)) by (apply Z.pow_pos_nonneg; lia).
    assert (0 < 2 ^ lb) by (apply Z.pow_pos_nonneg; lia).
    destruct (Z.ltb_spec n (d * 2 ^ (la - lb))) as [Hlt|Hge]; cbn zeta.
    + split; intros Hs.
      * replace (la - lb - 1 + 1) with (la - lb) by lia. split; [|lia].
        assert (Hp : 2 ^ (la - lb) = 2 * 2 ^ (la - lb - 1)).
        { rewrite <- pow2_succ by lia. f_equal; lia. }
        assert (0 < 2 ^ (la - lb - 1)) by (apply Z.pow_pos_nonneg; lia).
        nia.
      * assert (la - lb = 0) as Hz by lia. rewrite Hz in *.
        replace (- (0 - 1)) with 1 by lia. change (2 ^ 1) with 2.
        change (2 ^ 0) with 1 in *. nia.
    + split; intros Hs; [|lia]. split; [lia|].
      rewrite pow2_succ by lia. nia.
  - rewrite scaled_neg by lia.
    assert (Hlb : 2 ^ lb = 2 ^ la * 2 ^ (- (la - lb))).
    { rewrite <- Z.pow_add_r by lia. f_equal; lia. }
    assert (0 < 2 ^ (- (la - lb))) by (apply Z.pow_pos_nonneg; lia).
    assert (0 < 2 ^ la) by (apply Z.pow_pos_nonneg; lia).
    destruct (Z.ltb_spec (n * 2 ^ (- (la - lb))) d) as [Hlt|Hge]; cbn zeta.
    + split; intros Hs; [lia|].
      replace (- (la - lb - 1)) with (- (la - lb) + 1) by lia.
      rewrite pow2_succ by lia. nia.
    + split; intros Hs; [lia|]. nia.
Qed.

Lemma pow2_split a b : 0 <= a -> 0 <= b -> 2 ^ (a + b) = 2 ^ a * 2 ^ b.
Proof. intros. by apply Z.pow_add_r. Qed.

Lemma pow2_positive e : 0 <= e -> 0 < 2 ^ e.
Proof. intros. by apply Z.pow_pos_nonneg. Qed.

(** Below [2 ^ 53] the exponent of the nearest double is not positive: the
    double is [round_half_even (n * 2 ^ s) d / 2 ^ s], where the scaled
    quotient has 53 bits, or fewer at the least exponent. *)
Lemma nearest_double_below n d :
  0 < n -> 0 < d -> n < 2 ^ 53 * d ->
  exists s, 0 <= s
    /\ nearest_double n d
       = {| mantissa := round_half_even (n * 2 ^ s) d; exponent := - s |}
    /\ n * 2 ^ s < 2 ^ 53 * d
    /\ (2 ^ 52 * d <= n * 2 ^ s \/ (s = 1074 /\ n * 2 ^ s < 2 ^ 52 * d)).
Proof.
  intros Hn Hd Hlt.
  destruct (floor_log2_spec n d Hn Hd) as [Hpos Hneg].
  unfold nearest_double. set (k := floor_log2 n d) in *.
  assert (Hk : k <= 52).
  { destruct (Z.le_gt_cases k 52) as [|Hbig]; [done|]. exfalso.
    destruct Hpos as [Hlow _]; [lia|].
    assert (2 ^ 53 <= 2 ^ k) by (apply Z.pow_le_mono_r; lia).
    nia. }
  destruct (Z.max_spec (k - 52) (-1074)) as [[Hc ->]|[Hc ->]].
  - (* the least exponent *)
    exists 1074. split; [lia|].
    rewrite scaled_neg by lia. change (- -1074) with 1074.
    split; [reflexivity|].
    destruct Hneg as [_ Hup]; [lia|].
    assert (Hsplit : 2 ^ (- k) = 2 ^ (- k - 1023) * 2 ^ 1023).
    { rewrite <- pow2_split by lia. f_equal; lia. }
    assert (0 < 2 ^ (- k - 1023)) by (apply pow2_positive; lia).
    assert (H1074 : 2 ^ 1074 = 2 ^ 1023 * 2 ^ 51) by reflexivity.
    assert (H52 : 2 ^ 52 = 2 * 2 ^ 51) by reflexivity.
    assert (H53 : 2 ^ 53 = 4 * 2 ^ 51) by reflexivity.
    assert (0 < 2 ^ 51) by reflexivity.
    assert (0 < 2 ^ 1023) by reflexivity.
    rewrite H1074, H52. rewrite H53.
    generalize dependent (2 ^ 51). generalize dependent (2 ^ 1023).
    generalize dependent (2 ^ (- k - 1023)). generalize dependent (2 ^ (- k)).
    intros. assert (n * z1 < 2 * d) by nia. nia.
  - exists (52 - k). split; [lia|].
    replace (k - 52) with (- (52 - k)) by lia.
    assert (Hscaled : scaled n d (- (52 - k)) = (n * 2 ^ (52 - k), d)).
    { destruct (Z.eq_dec k 52) as [E|].
      - rewrite E. change (- (52 - 52)) with 0. rewrite scaled_nonneg by lia.
        change (2 ^ (52 - 52)) with 1. change (2 ^ 0) with 1. f_equal; lia.
      - rewrite scaled_neg by lia. by rewrite Z.opp_involutive. }
    rewrite Hscaled. split; [reflexivity|].
    destruct (Z.le_gt_cases 0 k) as [Hk0|Hk0].
    + destruct Hpos as [Hlow Hup]; [done|].
      rewrite pow2_succ in Hup by done.
      assert (H52 : 2 ^ 52 = 2 ^ k * 2 ^ (52 - k)).
      { rewrite <- pow2_split by lia. f_equal; lia. }
      assert (H53 : 2 ^ 53 = 2 * 2 ^ 52) by reflexivity.
      assert (0 < 2 ^ k) by (by apply pow2_positive).
      assert (0 < 2 ^ (52 - k)) by (apply pow2_positive; lia).
      rewrite H53, H52. clear Hlt H53 H52.
      generalize dependent (2 ^ k). generalize dependent (2 ^ (52 - k)).
      intros. split; [|left]; nia.
    + destruct Hneg as [Hlow Hup]; [done|].
      assert (Hs : 2 ^ (52 - k) = 2 ^ 52 * 2 ^ (- k)).
      { rewrite <- pow2_split by lia. f_equal; lia. }
      assert (H53 : 2 ^ 53 = 2 * 2 ^ 52) by reflexivity.
      assert (0 < 2 ^ 52) by reflexivity.
      rewrite Hs, H53. clear Hlt H53 Hs.
      generalize dependent (2 ^ 52). generalize dependent (2 ^ (- k)).
      intros. split; [|left]; nia.
Qed.

(** Rounding [n * P / d] to an integer and truncating the result divided by
    [P] gives the integer part of [n / d], when [n * P / d] has 53 bits and
    [n] too, or when [P] is beyond [2 ^ 52] and [n * P / d] is not. *)
Lemma round_then_truncate n d P :
  0 < n < 2 ^ 53 -> 0 < d -> 0 < P ->
  2 ^ 52 * d <= n * P \/ (2 ^ 52 < P /\ n * P < 2 ^ 52 * d) ->
  round_half_even (n * P) d / P = n / d.
Proof.
  intros Hn Hd HP Hbits.
  assert (Hq : n * P / d / P = n / d).
  { rewrite Z.div_div by lia. apply Z.div_mul_cancel_r; lia. }
  destruct (round_half_even_cases (n * P) d) as [->|[-> Hhalf]]; [nia|done|done|].
  rewrite <- Hq.
  pose proof (Z.div_mod (n * P) d ltac:(lia)) as Hdm.
  pose proof (Z.mod_pos_bound (n * P) d Hd) as Hr.
  set (q := n * P / d) in *. set (r := (n * P) mod d) in *.
  pose proof (Z.div_mod q P ltac:(lia)) as Hqdm.
  pose proof (Z.mod_pos_bound q P HP) as Hu.
  set (t := q / P) in *. set (u := q mod P) in *.
  destruct (Z.eq_dec u (P - 1)) as [Hlast|Hnot].
  - exfalso.
    assert (HX : P * (d * (t + 1) - n) = d - r) by nia.
    assert (1 <= d * (t + 1) - n) by nia.
    assert (2 * P <= d) by nia.
    destruct Hbits as [Hnorm|[Hbig Hsub]].
    + assert (H53 : 2 ^ 53 = 2 * 2 ^ 52) by reflexivity.
      assert (0 < 2 ^ 52) by reflexivity.
      rewrite H53 in Hn. generalize dependent (2 ^ 52). intros. nia.
    + assert (0 <= t).
      { apply Z.div_pos; [|lia]. apply Z.div_pos; nia. }
      assert (q < 2 ^ 52) by (generalize dependent (2 ^ 52); intros; nia).
      nia.
  - symmetry. apply (Z.div_unique _ _ _ (u + 1)); lia.
Qed.

(** Rounding does not leave the interval between the integer part of the
    quotient and an integer bound of it. *)
Lemma round_then_truncate_bounds n d P c :
  0 <= n <= c * d -> 0 < d -> 0 < P ->
  n / d <= round_half_even (n * P) d / P <= c.
Proof.
  intros Hn Hd HP.
  assert (Hq : n * P / d / P = n / d).
  { rewrite Z.div_div by lia. apply Z.div_mul_cancel_r; lia. }
  pose proof (Z.div_mod (n * P) d ltac:(lia)) as Hdm.
  pose proof (Z.mod_pos_bound (n * P) d Hd) as Hr.
  assert (Hup : n * P / d <= c * P).
  { apply Z.div_le_upper_bound; [done|]. nia. }
  assert (Hm : n * P / d <= round_half_even (n * P) d <= c * P).
  { destruct (round_half_even_cases (n * P) d) as [->|[-> Hhalf]];
      [nia|done|lia|].
    split; [lia|]. 
    set (q := n * P / d) in *. set (r := (n * P) mod d) in *. nia. }
  split.
  - rewrite <- Hq. apply Z.div_le_mono; lia.
  - apply Z.div_le_upper_bound; [done|]. lia.
Qed.

(** Below [2 ^ 53] in absolute value the quotient of two integers does not
    overflow, and [int] of it divides the rounded, scaled quotient back. *)
Lemma int_div_below a b :
  a <> 0 -> (0 < b)%nat -> Z.abs a < 2 ^ 53 * Z.of_nat b ->
  exists s, 0 <= s
    /\ int_div a b
       = Ok (Z.sgn a * (round_half_even (Z.abs a * 2 ^ s) (Z.of_nat b) / 2 ^ s))
    /\ Z.abs a * 2 ^ s < 2 ^ 53 * Z.of_nat b
    /\ (2 ^ 52 * Z.of_nat b <= Z.abs a * 2 ^ s
        \/ (s = 1074 /\ Z.abs a * 2 ^ s < 2 ^ 52 * Z.of_nat b)).
Proof.
  intros Ha Hb Hlt.
  destruct (nearest_double_below (Z.abs a) (Z.of_nat b)) as (s & Hs & Hx & Hup & Hbits);
    [lia..|].
  exists s. split; [done|]. split; [|done].
  unfold int_div, true_divide.
  rewrite (proj2 (Z.eqb_neq _ 0)) by lia. rewrite (proj2 (Z.eqb_neq a 0)) by done.
  rewrite Z.abs_eq with (n := Z.of_nat b) by lia. rewrite Hx.
  cbn [mantissa exponent]. rewrite Z.opp_involutive, scaled_nonneg by done.
  set (m := round_half_even (Z.abs a * 2 ^ s) (Z.of_nat b)).
  assert (H2s : 0 < 2 ^ s) by (by apply pow2_positive).
  assert (Hm : 0 <= m <= 2 ^ 53).
  { pose proof (Z.div_mod (Z.abs a * 2 ^ s) (Z.of_nat b) ltac:(lia)) as Hdm.
    pose proof (Z.mod_pos_bound (Z.abs a * 2 ^ s) (Z.of_nat b) ltac:(lia)) as Hr.
    assert (0 <= Z.abs a * 2 ^ s / Z.of_nat b) by (apply Z.div_pos; nia).
    assert (Z.abs a * 2 ^ s / Z.of_nat b < 2 ^ 53)
      by (apply Z.div_lt_upper_bound; lia).
    subst m. destruct (round_half_even_cases (Z.abs a * 2 ^ s) (Z.of_nat b))
      as [->|[-> _]]; lia. }
  assert (Hno : (2 ^ 1024 * (1 * 2 ^ s) <=? m) = false).
  { apply Z.leb_gt. assert (2 ^ 53 < 2 ^ 1024) by reflexivity. nia. }
  rewrite Hno. unfold int_of_float. cbn [mantissa exponent].
  rewrite Z.opp_involutive, scaled_nonneg by done. f_equal.
  rewrite Z.mul_1_l, (Z.sgn_pos (Z.of_nat b)), Z.mul_1_r by lia.
  destruct (Z.lt_trichotomy a 0) as [Hneg|[?|Hpos]]; [|done|].
  - rewrite (Z.sgn_neg a Hneg). replace (-1 * m) with (- m) by lia.
    rewrite Z.quot_opp_l, Z.quot_div_nonneg by lia. lia.
  - rewrite (Z.sgn_pos a Hpos), !Z.mul_1_l. apply Z.quot_div_nonneg; lia.
Qed.

(** [int(a / b)] is the truncated quotient when [a] is below [2 ^ 53] in
    absolute value. *)
Lemma int_div_exact a b :
  (0 < b)%nat -> Z.abs a < 2 ^ 53 ->
  int_div a b = Ok (Z.quot a (Z.of_nat b)).
Proof.
  intros Hb Ha.
  destruct (Z.eq_dec a 0) as [->|Hne].
  { unfold int_div, true_divide. rewrite (proj2 (Z.eqb_neq _ 0)) by lia.
    reflexivity. }
  destruct (int_div_below a b) as (s & Hs & -> & Hup & Hbits); [done|done|nia|].
  f_equal.
  rewrite round_then_truncate; [|lia|lia|by apply pow2_positive|].
  - destruct (Z.lt_trichotomy a 0) as [Hneg|[?|Hpos]]; [|done|].
    + rewrite (Z.sgn_neg a Hneg), (Z.abs_neq a) by lia.
      rewrite <- Z.quot_div_nonneg by lia.
      rewrite Z.quot_opp_l by lia. lia.
    + rewrite (Z.sgn_pos a Hpos), (Z.abs_eq a), Z.mul_1_l by lia.
      symmetry. apply Z.quot_div_nonneg; lia.
  - destruct Hbits as [Hn|[-> Hsub]]; [by left|right].
    split; [reflexivity|done].
Qed.

(** [int(a / b)] stays between the integer part of the quotient and an
    integer that bounds the quotient. *)
Lemma int_div_bounds a b c :
  (0 < b)%nat -> 0 <= a <= c * Z.of_nat b -> c < 2 ^ 53 ->
  exists v, int_div a b = Ok v /\ a / Z.of_nat b <= v <= c.
Proof.
  intros Hb Ha Hc.
  destruct (Z.eq_dec a 0) as [->|Hne].
  { exists 0. split; [|split; [done|nia]].
    unfold int_div, true_divide. rewrite (proj2 (Z.eqb_neq _ 0)) by lia.
    reflexivity. }
  destruct (int_div_below a b) as (s & Hs & -> & _); [done|done|nia|].
  eexists. split; [reflexivity|].
  rewrite (Z.sgn_pos a), (Z.abs_eq a), Z.mul_1_l by lia.
  apply round_then_truncate_bounds; [lia|lia|by apply pow2_positive].
Qed.
End TrueDivision.

Lemma add_progress_total ms progress :
  add_progress ms progress = (progress + total_contribution ms)%Z.
Proof.
  revert progress. induction ms as [|m ms IH]; intros progress.
  - cbn. lia.
  - cbn [add_progress]. unfold total_contribution, contribution in *.
    cbn [fmap list_fmap foldr].
    destruct (str_eqb (m_status m) (py "completed"));
      [|destruct (str_eqb (m_status m) (py "in_progress"))];
      rewrite IH; lia.
Qed.

(** C8 (as stated, refuted): the quotient is taken in floating point; with
    one milestone in progress at [2 ^ 53 + 1] the overall progress stored is
    [2 ^ 53], not the truncated mean. *)
Lemma C8_counterexample :
  ~ (forall r : roadmap,
       milestones r <> [] ->
       overall_progress_percentage (fst (update_roadmap_progress unit (fun _ _ => tt) r))
       = Z.quot (total_contribution (milestones r))
                (Z.of_nat (length (milestones r)))).
Proof.
  intros Hclaim.
  specialize (Hclaim beyond_the_mantissa ltac:(discriminate)).
  vm_compute in Hclaim. discriminate Hclaim.
Qed.

(** C8 (amended): on a roadmap with milestones whose contributions (100 if
    completed, the milestone's own percentage if in progress, 0 otherwise)
    sum to less than [2 ^ 53] in absolute value, the overall progress is set
    to the mean of the contributions truncated to an integer; for two
    completed, one at 50 and one not started that is 250 / 4, hence 62 and
    not 63. *)
Theorem C8_overall_progress_truncated_mean (insights : Type)
    (_generate_progress_insights : roadmap -> Z -> insights) (r : roadmap) :
  milestones r <> [] ->
  (Z.abs (total_contribution (milestones r)) < 2 ^ 53)%Z ->
  overall_progress_percentage (fst (update_roadmap_progress insights _generate_progress_insights r))
  = Z.quot (total_contribution (milestones r)) (Z.of_nat (length (milestones r)))
  /\ total_contribution (milestones four_milestones) = 250%Z
  /\ overall_progress_percentage
       (fst (update_roadmap_progress insights _generate_progress_insights four_milestones))
     = 62%Z.
Proof.
  intros Hms Hsum. split; [|split; reflexivity].
  unfold update_roadmap_progress.
  destruct (milestones r) as [|m ms] eqn:E; [congruence|].
  cbn [length Nat.eqb Nat.ltb Nat.leb].
  rewrite add_progress_total, Z.add_0_l, int_div_exact by (done || lia).
  reflexivity.
Qed.

(** The scenario of four milestones. *)
Lemma C8_witness :
  overall_progress_percentage
    (fst (update_roadmap_progress unit (fun _ _ => tt) four_milestones))
  = Z.quot 250 4.
Proof.
  apply (C8_overall_progress_truncated_mean unit (fun _ _ => tt) four_milestones).
  - discriminate.
  - reflexivity.
Defined.

(** ** Quizzes *)

Import Quizzes.

Lemma fallback_loop_length topic difficulty templates todo acc :
  templates <> [] ->
  exists qs, fallback_loop topic difficulty templates todo acc = Ok qs
             /\ length qs = length acc + length todo.
Proof.
  intros Hne. revert acc. induction todo as [|i rest IH]; intros acc.
  - exists acc. cbn. split; [reflexivity|lia].
  - cbn [fallback_loop].
    destruct (lookup_lt_is_Some_2 templates (i mod length templates)) as [t Ht].
    { apply Nat.mod_upper_bound. destruct templates; [congruence|cbn; lia]. }
    rewrite Ht. destruct (IH (acc ++ [{|
      question_text := text t; question_type := type t; options := t_options t;
      correct_answers := [AInt 0];
      explanation := py "This question tests understanding of " ++ topic ++ py " concepts.";
      hint := py "Think about the fundamental principles of " ++ topic ++ py ".";
      points := 1; difficulty_level := difficulty |}])) as (qs & Hqs & Hlen).
    exists qs. split; [exact Hqs|]. rewrite Hlen, length_app. cbn. lia.
Qed.

Lemma _generate_fallback_questions_length topic question_count difficulty :
  exists qs, _generate_fallback_questions topic question_count difficulty = Ok qs
             /\ length qs = Z.to_nat (Z.min question_count 3).
Proof.
  unfold _generate_fallback_questions.
  destruct (fallback_loop_length topic difficulty (question_templates topic)
              (range (Z.min question_count
                        (Z.of_nat (length (question_templates topic))))) [])
    as (qs & Hqs & Hlen); [discriminate|].
  exists qs. split; [exact Hqs|].
  rewrite Hlen. unfold range. rewrite length_seq. reflexivity.
Qed.

Lemma fill_remaining_enough topic difficulty question_count questions_data :
  exists qs, fill_remaining topic difficulty question_count questions_data = Ok qs
             /\ (question_count <= Z.of_nat (length qs))%Z.
Proof.
  funelim (fill_remaining topic difficulty question_count questions_data).
  - exists questions_data. split; [reflexivity|]. pose proof (proj1 (Z.ltb_ge _ _) e). lia.
  - assumption.
  - destruct (_generate_fallback_questions_length topic 1 difficulty)
      as (qs & Hqs & _).
    exfalso. congruence.
Qed.

Lemma length_slice_to {A} (l : list A) (n : Z) :
  (0 <= n <= Z.of_nat (length l))%Z -> length (slice_to l n) = Z.to_nat n.
Proof.
  intros Hn. unfold slice_to.
  destruct (Z.leb_spec 0 n); [|lia]. rewrite length_take. lia.
Qed.

Section QuizProperties.
Context `{UnicodeData}.

Lemma _parse_questions_from_response_length s topic difficulty question_count
    question_types :
  (0 <= question_count)%Z ->
  exists qs,
    _parse_questions_from_response s topic difficulty question_count question_types
    = Ok qs
    /\ length qs = Z.to_nat question_count.
Proof.
  intros Hn. unfold _parse_questions_from_response.
  destruct (parse_loop _ _ _ _ _ _ _ _) as [questions_data current_question].
  match goal with
  | |- context [fill_remaining ?t ?d ?n ?qd] =>
      destruct (fill_remaining_enough t d n qd) as (qs & Hqs & Hlen)
  end.
  rewrite Hqs. eexists. split; [reflexivity|].
  apply length_slice_to. lia.
Qed.
End QuizProperties.

(** C10: for a requested count [n >= 1] the fallback generator returns
    exactly [min(n, 3)] questions, and so does [generate_quiz_questions] when
    the client fails; the parser pads and truncates to exactly [n] questions,
    and so does [generate_quiz_questions] when the client returns a text. *)
Theorem C10_quiz_question_counts `{UnicodeData} (net : endpoint)
    (topic difficulty : str) (n : Z) (question_types : list str) :
  (1 <= n)%Z ->
  let client :=
    snd (call_huggingface_api net (quiz_prompt topic difficulty n question_types)) in
  let run := snd (generate_quiz_questions net topic difficulty n question_types) in
  (exists qs, _generate_fallback_questions topic n difficulty = Ok qs
              /\ Z.of_nat (length qs) = Z.min n 3)
  /\ (client_failed client = true ->
      exists qs, run = Ok qs /\ Z.of_nat (length qs) = Z.min n 3)
  /\ (forall s, exists qs,
        _parse_questions_from_response s topic difficulty n question_types = Ok qs
        /\ Z.of_nat (length qs) = n)
  /\ (forall s, client = Ok (JStr s) -> nonempty s = true ->
      exists qs, run = Ok qs /\ Z.of_nat (length qs) = n).
Proof.
  intros Hn. cbn zeta.
  assert (Hfb : exists qs, _generate_fallback_questions topic n difficulty = Ok qs
                           /\ Z.of_nat (length qs) = Z.min n 3).
  { destruct (_generate_fallback_questions_length topic n difficulty)
      as (qs & Hqs & Hlen).
    exists qs. split; [exact Hqs|]. lia. }
  assert (Hparse : forall s, exists qs,
             _parse_questions_from_response s topic difficulty n question_types = Ok qs
             /\ Z.of_nat (length qs) = n).
  { intros s.
    destruct (_parse_questions_from_response_length s topic difficulty n question_types)
      as (qs & Hqs & Hlen); [lia|].
    exists qs. split; [exact Hqs|]. lia. }
  split; [exact Hfb|]. split; [|split; [exact Hparse|]].
  - unfold generate_quiz_questions.
    destruct (call_huggingface_api net _) as [tr [v|e]]; cbn [snd client_failed];
      [|intros _; exact Hfb].
    destruct (truthy v); [discriminate|]. intros _. exact Hfb.
  - intros s Hs Hne. unfold generate_quiz_questions.
    destruct (call_huggingface_api net _) as [tr r]. cbn [snd] in Hs. subst r.
    cbn [truthy]. rewrite Hne.
    destruct (Hparse s) as (qs & Hqs & Hlen). rewrite Hqs.
    exists qs. split; [reflexivity | exact Hlen].
Qed.

(** Five questions requested from an endpoint that cannot be reached. *)
Lemma C10_witness :
  exists qs,
    snd (generate_quiz_questions net_down (py "Photosynthesis") (py "beginner") 5
           [py "multiple_choice"]) = Ok qs
    /\ Z.of_nat (length qs) = 3%Z.
Proof.
  apply (proj1 (proj2 (C10_quiz_question_counts net_down (py "Photosynthesis")
                         (py "beginner") 5 [py "multiple_choice"] ltac:(lia)))).
  reflexivity.
Defined.

Lemma startswith_app (q rest : str) : startswith q (q ++ rest) = true.
Proof. induction q as [|c q IH]; [reflexivity|]. cbn. by rewrite N.eqb_refl. Qed.

Lemma contains_here (q s : str) : startswith q s = true -> contains q s = true.
Proof. intros Hs. destruct s; cbn in *; by rewrite Hs. Qed.

Lemma contains_skip (q : str) c (s : str) :
  contains q s = true -> contains q (c :: s) = true.
Proof. intros Hc. cbn [contains]. rewrite Hc. apply orb_true_r. Qed.

Lemma startswith_contains_suffix (p q s : str) :
  startswith (p ++ q) s = true -> contains q s = true.
Proof.
  revert s. induction p as [|a p IH]; intros s Hs; [by apply contains_here|].
  destruct s as [|b s]; [discriminate|]. cbn in Hs.
  apply andb_true_iff in Hs as [_ Hs]. apply contains_skip, IH, Hs.
Qed.

(** A text that holds [p ++ q] holds [q]. *)
Lemma contains_suffix (p q s : str) :
  contains (p ++ q) s = true -> contains q s = true.
Proof.
  induction s as [|c s IH]; intros Hc; cbn [contains] in Hc;
    apply orb_true_iff in Hc as [Hc|Hc].
  - by apply (startswith_contains_suffix p).
  - discriminate.
  - by apply (startswith_contains_suffix p).
  - apply contains_skip, IH, Hc.
Qed.

Section GradingProperties.
Context `{UnicodeData}.
Variable repr_answers : list answer -> str.

Lemma string_matching_spec user_answer correct_answers :
  string_matching user_answer correct_answers = true <->
  exists correct, correct ∈ correct_answers
    /\ strip (lower user_answer) = strip (lower (str_of_answer correct)).
Proof.
  unfold string_matching, str_eqb. rewrite existsb_exists.
  split; intros (correct & Hin & Heq); exists correct.
  - split; [by apply list_elem_of_In|]. by apply bool_decide_eq_true_1 in Heq.
  - split; [by apply list_elem_of_In|]. by apply bool_decide_eq_true_2.
Qed.

Lemma _evaluate_short_answer_verdict net user_answer correct_answers s :
  snd (call_huggingface_api net
         (grading_prompt repr_answers user_answer correct_answers)) = Ok (JStr s) ->
  snd (_evaluate_short_answer repr_answers net user_answer correct_answers)
  = if contains (py "correct") (lower s)
    then negb (contains (py "incorrect") (lower s))
    else string_matching user_answer correct_answers.
Proof.
  unfold _evaluate_short_answer.
  destruct (call_huggingface_api net _) as [tr r]. cbn [snd]. intros ->.
  cbn [truthy]. destruct s as [|c s].
  - rewrite lower_nil. reflexivity.
  - cbn [nonempty]. by destruct (contains (py "correct") _).
Qed.

Lemma _evaluate_short_answer_no_text net user_answer correct_answers v :
  snd (call_huggingface_api net
         (grading_prompt repr_answers user_answer correct_answers)) = Ok v ->
  (forall s, v <> JStr s) ->
  snd (_evaluate_short_answer repr_answers net user_answer correct_answers)
  = string_matching user_answer correct_answers.
Proof.
  unfold _evaluate_short_answer.
  destruct (call_huggingface_api net _) as [tr r]. cbn [snd]. intros -> Hnot.
  destruct (truthy v); [|reflexivity].
  destruct v; try reflexivity. by destruct (Hnot s).
Qed.

Lemma _evaluate_short_answer_raised net user_answer correct_answers e :
  snd (call_huggingface_api net
         (grading_prompt repr_answers user_answer correct_answers)) = Raise e ->
  snd (_evaluate_short_answer repr_answers net user_answer correct_answers)
  = string_matching user_answer correct_answers.
Proof.
  unfold _evaluate_short_answer.
  destruct (call_huggingface_api net _) as [tr r]. cbn [snd]. by intros ->.
Qed.
End GradingProperties.

(** C7 (as stated, refuted): the model answers [That is right], a text
    without [correct]; the answer [Paris] is then compared with the listed
    [paris] and graded correct. *)
Lemma C7_counterexample :
  ~ (forall (net : endpoint) (user_answer : str) (correct_answers : list answer)
            (s : str),
       snd (call_huggingface_api net
              (grading_prompt (fun _ => py "['paris']") user_answer correct_answers))
       = Ok (JStr s) ->
       snd (_evaluate_short_answer (fun _ => py "['paris']") net user_answer
              correct_answers) = true
       <-> contains (py "correct") (lower s) = true
           /\ contains (py "incorrect") (lower s) = false).
Proof.
  intros Hclaim.
  destruct (Hclaim (net_says (py "That is right")) (py "Paris") [AStr (py "paris")]
              (py "That is right") eq_refl) as [Hverdict _].
  destruct (Hverdict eq_refl) as [Hcorrect _].
  vm_compute in Hcorrect. discriminate Hcorrect.
Qed.

(** C7 (amended): when the model answers with a text that, in lower case,
    holds [correct], the answer is graded correct exactly when the text does
    not hold [incorrect]; a text that holds [incorrect] grades it wrong.
    When the text does not hold [correct], when the model returns something
    else than a text, and when the call raises, the grade is that of the
    comparison of the answer, in lower case and stripped, with each listed
    answer; so [Paris] is graded correct against [paris]. *)
Theorem C7_short_answer_grading `{UnicodeData} (repr_answers : list answer -> str)
    (net : endpoint) (user_answer : str) (correct_answers : list answer) :
  let client prompt := snd (call_huggingface_api net prompt) in
  let graded := snd (_evaluate_short_answer repr_answers net user_answer correct_answers) in
  let prompt := grading_prompt repr_answers user_answer correct_answers in
  (forall s, client prompt = Ok (JStr s) ->
     contains (py "correct") (lower s) = true ->
     graded = negb (contains (py "incorrect") (lower s)))
  /\ (forall s, client prompt = Ok (JStr s) ->
     contains (py "incorrect") (lower s) = true -> graded = false)
  /\ (forall s, client prompt = Ok (JStr s) ->
     contains (py "correct") (lower s) = false ->
     graded = string_matching user_answer correct_answers)
  /\ (forall v, client prompt = Ok v -> (forall s, v <> JStr s) ->
     graded = string_matching user_answer correct_answers)
  /\ (forall e, client prompt = Raise e ->
     graded = string_matching user_answer correct_answers)
  /\ (string_matching user_answer correct_answers = true <->
      exists correct, correct ∈ correct_answers
        /\ strip (lower user_answer) = strip (lower (str_of_answer correct)))
  /\ (forall e,
        client (grading_prompt repr_answers (py "Paris") [AStr (py "paris")]) = Raise e ->
        snd (@_evaluate_short_answer ascii_data repr_answers net (py "Paris")
               [AStr (py "paris")]) = true).
Proof.
  cbn zeta. split; [|split; [|split; [|split; [|split; [|split]]]]].
  - intros s Hs Hc. rewrite (_evaluate_short_answer_verdict _ _ _ _ _ Hs), Hc.
    reflexivity.
  - intros s Hs Hi. rewrite (_evaluate_short_answer_verdict _ _ _ _ _ Hs).
    rewrite (contains_suffix (py "in") (py "correct") _ Hi), Hi. reflexivity.
  - intros s Hs Hc. rewrite (_evaluate_short_answer_verdict _ _ _ _ _ Hs), Hc.
    reflexivity.
  - intros v Hv Hnot. by apply _evaluate_short_answer_no_text with v.
  - intros e He. by apply _evaluate_short_answer_raised with e.
  - apply string_matching_spec.
  - intros e He.
    rewrite (@_evaluate_short_answer_raised ascii_data _ _ _ _ e He).
    vm_compute. reflexivity.
Qed.

(** The model cannot be reached, and [Paris] is compared with [paris]; the
    model says [Correct!] of an answer that matches none listed; the model
    says [Not sure], and the answer [ 42 ] is compared with 7 and 42. *)
Lemma C7_witness :
  snd (_evaluate_short_answer (fun _ => py "['paris']") net_down (py "Paris")
         [AStr (py "paris")]) = true
  /\ snd (_evaluate_short_answer (fun _ => py "['paris']") (net_says (py "Correct!"))
            (py "The capital of France") [AStr (py "paris")]) = true
  /\ snd (_evaluate_short_answer (fun _ => py "[7, 42]") (net_says (py "Not sure"))
            (py " 42 ") [AInt 7; AInt 42]) = true.
Proof.
  split; [|split].
  - apply (proj2 (proj2 (proj2 (proj2 (proj2 (proj2
             (C7_short_answer_grading (fun _ => py "['paris']") net_down (py "Paris")
                [AStr (py "paris")])))))) ConnectionError).
    reflexivity.
  - rewrite (proj1 (C7_short_answer_grading (fun _ => py "['paris']")
                      (net_says (py "Correct!")) (py "The capital of France")
                      [AStr (py "paris")])
               (py "Correct!")); reflexivity.
  - rewrite (proj1 (proj2 (proj2
               (C7_short_answer_grading (fun _ => py "[7, 42]")
                  (net_says (py "Not sure")) (py " 42 ") [AInt 7; AInt 42])))
               (py "Not sure")); reflexivity.
Defined.

(** ** Scenarios of the specification, run on the model *)

(** The model says [incorrect] of an answer that is listed: the verdict is
    taken, not the comparison. *)
Example verdict_before_comparison :
  snd (_evaluate_short_answer (fun _ => py "['paris']") (net_says (py "Incorrect."))
         (py "Paris") [AStr (py "paris")]) = false
  /\ string_matching (py "Paris") [AStr (py "paris")] = true.
Proof. split; vm_compute; reflexivity. Qed.

(** A file that cannot be read is no failure: with the endpoint answering,
    the text of its error is summarised like any other. *)
Example unreadable_pdf_is_summarised :
  exists n, snd (process_pdf_file (net_says (py "ok")) broken_upload []) = Ok n
            /\ summary n = py "ok" /\ key_points n = []
            /\ n <> create_fallback_notes (extract_pdf_text broken_upload)
                       (py "PDF Notes - scan.pdf") (py "PDF document").
Proof.
  eexists. split; [vm_compute; reflexivity|].
  split; [reflexivity|]. split; [reflexivity|]. vm_compute. discriminate.
Qed.

(** The division of the model agrees with the IEEE 754 division on the
    sample quotients. *)
Example true_divide_agrees_with_ieee :
  forallb (fun '(a, b) => agrees_with_ieee a b) sample_quotients = true.
Proof. vm_compute. reflexivity. Qed.

(** Beyond 53 bits the overall progress is that of the nearest double, and
    beyond the doubles the division raises: the error is returned and the
    roadmap left as it was. *)
Example progress_beyond_the_mantissa :
  overall_progress_percentage
    (fst (update_roadmap_progress unit (fun _ _ => tt) beyond_the_mantissa))
  = (2 ^ 53)%Z
  /\ int_div (2 ^ 1024) 1 = Raise OverflowError
  /\ int_div (-7) 2 = Ok (-3)%Z.
Proof. repeat split; vm_compute; reflexivity. Qed.

Example cats_key_points :
  extract_bullet_points cats_text
  = [py "Key idea one about mammals"; py "Key idea two about biology"].
Proof. vm_compute. reflexivity. Qed.

Example cats_questions : extract_questions cats_text = [py "What is a mammal?"].
Proof. vm_compute. reflexivity. Qed.

Example advanced_before_intermediate :
  extract_difficulty (py "An intermediate course with Advanced topics")
  = py "Advanced".
Proof. vm_compute. reflexivity. Qed.

Example cell_biology_fallback :
  let n := create_fallback_notes (py "Cells divide.") (py "Cell Biology") (py "text") in
  startswith (py "Summary of Cell Biology:") (summary n) = true
  /\ Notes.difficulty_level n = py "Intermediate"
  /\ Notes.tags n = [py "study"; py "notes"; py "text"].
Proof. vm_compute. repeat split. Qed.

Example numbered_item_keeps_its_second_digit :
  extract_bullet_points (py "12. A long enough line here")
  = [py "2. A long enough line here"].
Proof. vm_compute. reflexivity. Qed.

(** On a watch link without a [v] parameter the lookup [parse_qs(...)['v']]
    raises [KeyError], which leaves [process_youtube_url] as it is. *)
Example watch_without_v_raises :
  extract_youtube_video_id watch_without_v = Raise (KeyError (py "v"))
  /\ process_youtube_url net_down watch_without_v (py "Talk")
     = ([], Raise (KeyError (py "v"))).
Proof. split; reflexivity. Qed.

(** * Further properties *)

(** ** The inference client, whatever the endpoint does *)

Section ClientInGeneral.
Variables (net : endpoint) (prompt : str) (max_retries delay : nat).

(** What a run of the loop adds to the trace. *)
Lemma attempts_extend todo tr :
  Forall (fun attempt => attempt < max_retries) todo ->
  exists more,
    fst (attempts net prompt max_retries delay todo tr) = tr ++ more
    /\ posts more <= length todo
    /\ length (sleeps more) <= posts more
    /\ sum_list (sleeps more)
       <= sum_list ((fun attempt => delay * (attempt + 1)) <$> todo).
Proof.
  intros Hall. revert tr.
  induction Hall as [|attempt rest Hlt Hall IH]; intros tr.
  - exists []. cbn. rewrite app_nil_r. repeat split; lia.
  - cbn [attempts].
    destruct (attempt_body (net prompt attempt)) as [|v| |e].
    + destruct (IH ((tr ++ [Post prompt]) ++ [Sleep (delay * (attempt + 1))]))
        as (more & Hmore & Hp & Hs & Hsum).
      exists ([Post prompt; Sleep (delay * (attempt + 1))] ++ more).
      rewrite Hmore, <- !app_assoc. split; [reflexivity|].
      rewrite posts_app, sleeps_app, length_app, sum_list_with_app. cbn in *.
      repeat split; lia.
    + exists [Post prompt]. cbn. repeat split; lia.
    + exists [Post prompt]. cbn. repeat split; lia.
    + destruct (Z.of_nat attempt =? Z.of_nat max_retries - 1)%Z.
      * exists [Post prompt]. cbn. repeat split; lia.
      * destruct (IH ((tr ++ [Post prompt]) ++ [Sleep delay]))
          as (more & Hmore & Hp & Hs & Hsum).
        exists ([Post prompt; Sleep delay] ++ more).
        rewrite Hmore, <- !app_assoc. split; [reflexivity|].
        rewrite posts_app, sleeps_app, length_app, sum_list_with_app. cbn in *.
        repeat split; nia.
Qed.

(** A run that raises has gone through its whole range, and raises what
    the last attempt of the budget threw. *)
Lemma attempts_raise n a tr tr' e :
  a + n = max_retries ->
  attempts net prompt max_retries delay (seq a n) tr = (tr', Raise e) ->
  1 <= n
  /\ attempt_body (net prompt (max_retries - 1)) = Throw e
  /\ posts tr' = posts tr + n.
Proof.
  revert a tr. induction n as [|n IH]; intros a tr Hlen; [discriminate|].
  cbn [seq attempts].
  destruct (attempt_body (net prompt a)) as [|v| |e'] eqn:Hbody; try discriminate.
  - intros Hrun. apply IH in Hrun as (_ & Hlast & Hposts); [|lia].
    rewrite Hposts, !posts_app. cbn. repeat split; (lia || assumption).
  - destruct (Z.eqb_spec (Z.of_nat a) (Z.of_nat max_retries - 1)) as [Heq|Hne].
    + intros [= <- <-]. assert (n = 0) as -> by lia.
      replace (max_retries - 1) with a by lia.
      rewrite posts_app. cbn. repeat split; (lia || assumption).
    + destruct n as [|n]; [lia|].
      intros Hrun. apply IH in Hrun as (_ & Hlast & Hposts); [|lia].
      rewrite Hposts, !posts_app. cbn. repeat split; (lia || assumption).
Qed.

(** A run at 503 before what is left of the range. *)
Lemma attempts_503_then n a rest tr :
  (forall k, a <= k < a + n -> status_of (net prompt k) = Some 503%Z) ->
  attempts net prompt max_retries delay (seq a n ++ rest) tr =
  attempts net prompt max_retries delay rest (tr ++ backoff_trace prompt delay a n).
Proof.
  revert a tr. induction n as [|n IH]; intros a tr Hall.
  - cbn. by rewrite app_nil_r.
  - cbn [seq app]. rewrite attempts_503 by (apply Hall; lia).
    rewrite IH by (intros k Hk; apply Hall; lia).
    unfold backoff_trace. cbn [seq flat_map]. by rewrite <- app_assoc.
Qed.

(** One turn of the loop when the body of the [try] raises. *)
Lemma attempts_throw_body attempt rest tr e :
  attempt_body (net prompt attempt) = Throw e ->
  attempts net prompt max_retries delay (attempt :: rest) tr =
  if bool_decide (attempt + 1 = max_retries)
  then (tr ++ [Post prompt], Raise e)
  else attempts net prompt max_retries delay rest
         (tr ++ [Post prompt; Sleep delay]).
Proof.
  intros Hb. cbn [attempts]. rewrite Hb.
  destruct (Z.eqb_spec (Z.of_nat attempt) (Z.of_nat max_retries - 1)) as [Heq|Hne].
  - rewrite bool_decide_eq_true_2 by lia. reflexivity.
  - rewrite bool_decide_eq_false_2 by lia. by rewrite <- app_assoc.
Qed.

Lemma attempts_all_throw_body e n a tr :
  a + S n = max_retries ->
  (forall k, a <= k < max_retries -> attempt_body (net prompt k) = Throw e) ->
  attempts net prompt max_retries delay (seq a (S n)) tr =
  (tr ++ flat_map (fun _ => [Post prompt; Sleep delay]) (seq a n) ++ [Post prompt],
   Raise e).
Proof.
  revert a tr. induction n as [|n IH]; intros a tr Hlen Hall.
  - cbn [seq]. rewrite (attempts_throw_body _ _ _ e) by (apply Hall; lia).
    rewrite bool_decide_eq_true_2 by lia. reflexivity.
  - rewrite <- cons_seq. rewrite (attempts_throw_body _ _ _ e) by (apply Hall; lia).
    rewrite bool_decide_eq_false_2 by lia.
    rewrite IH by (try lia; intros k Hk; apply Hall; lia).
    cbn [flat_map]. by rewrite <- !app_assoc.
Qed.
End ClientInGeneral.

Lemma posts_le_max_retries (net : endpoint) (prompt : str)
    (max_retries delay : nat) :
  posts (fst (call_huggingface_api_with net prompt max_retries delay))
  <= max_retries.
Proof.
  unfold call_huggingface_api_with.
  destruct (attempts_extend net prompt max_retries delay (seq 0 max_retries) [])
    as (more & Hmore & Hp & _).
  { apply Forall_seq. intros k Hk. lia. }
  rewrite Hmore. cbn [app]. by rewrite length_seq in Hp.
Qed.

(** X1: whatever the endpoint does, a call makes at most [max_retries]
    POSTs, never sleeps more often than it posts, and never waits longer in
    total than a run that meets 503 at every attempt. *)
Theorem client_effort_bounded (net : endpoint) (prompt : str)
    (max_retries delay : nat) :
  let tr := fst (call_huggingface_api_with net prompt max_retries delay) in
  posts tr <= max_retries
  /\ length (sleeps tr) <= posts tr
  /\ sum_list (sleeps tr) <= longest_wait max_retries delay.
Proof.
  cbn zeta. unfold call_huggingface_api_with.
  destruct (attempts_extend net prompt max_retries delay (seq 0 max_retries) [])
    as (more & Hmore & Hp & Hs & Hsum).
  { apply Forall_seq. intros k Hk. lia. }
  rewrite Hmore. cbn [app]. rewrite length_seq in Hp.
  repeat split; assumption.
Qed.

(** X2: a call raises only what the last attempt of its budget threw, and
    only after all [max_retries] POSTs. *)
Theorem client_raises_only_at_last_attempt (net : endpoint) (prompt : str)
    (max_retries delay : nat) (e : exn) :
  snd (call_huggingface_api_with net prompt max_retries delay) = Raise e ->
  1 <= max_retries
  /\ attempt_body (net prompt (max_retries - 1)) = Throw e
  /\ posts (fst (call_huggingface_api_with net prompt max_retries delay))
     = max_retries.
Proof.
  unfold call_huggingface_api_with.
  destruct (attempts net prompt max_retries delay (seq 0 max_retries) [])
    as [tr' r] eqn:Hrun.
  cbn [fst snd]. intros ->.
  apply attempts_raise in Hrun; [|lia]. exact Hrun.
Qed.

(** The budget of three attempts is spent against an unreachable endpoint. *)
Lemma client_raises_only_at_last_attempt_witness :
  attempt_body (net_down (py "hi") 2) = Throw ConnectionError
  /\ posts (fst (call_huggingface_api_with net_down (py "hi") 3 1)) = 3.
Proof.
  apply (client_raises_only_at_last_attempt net_down (py "hi") 3 1 ConnectionError).
  reflexivity.
Defined.

(** X3: when the model is loading for the first [j] attempts and attempt
    [j], still within the budget, answers 200 with a body of one of the two
    shapes, the call returns its generated text (the empty string when the
    object has none) after [j + 1] POSTs and the sleeps of 1, ..., [j] times
    [delay]. *)
Theorem client_succeeds_after_loading (net : endpoint) (prompt : str)
    (max_retries delay j : nat) (body text : json) :
  j < max_retries ->
  (forall k, k < j -> status_of (net prompt k) = Some 503%Z) ->
  net prompt j = Responds {| status_code := 200; json_body := Some body |} ->
  generated_text body = Some text ->
  call_huggingface_api_with net prompt max_retries delay
  = (backoff_trace prompt delay 0 j ++ [Post prompt], Ok text).
Proof.
  intros Hj H503 H200 Htext. unfold call_huggingface_api_with.
  replace max_retries with (j + S (max_retries - S j)) at 2 by lia.
  rewrite seq_app, (attempts_503_then net prompt max_retries delay j 0)
    by (intros k Hk; apply H503; lia).
  cbn [seq Nat.add attempts app]. rewrite H200. cbn [attempt_body status_code json_body].
  change (200 =? 503)%Z with false. change (200 =? 200)%Z with true. cbn match.
  destruct body as [| | | |[|[| | | | |d] more]|d]; cbn in Htext; try discriminate;
    injection Htext as <-; reflexivity.
Qed.

(** One 503, then the text [ok]. *)
Lemma client_succeeds_after_loading_witness :
  call_huggingface_api (net_warming (py "ok")) (py "hi")
  = ([Post (py "hi"); Sleep 1; Post (py "hi")], Ok (JStr (py "ok"))).
Proof.
  apply (client_succeeds_after_loading (net_warming (py "ok")) (py "hi") 3 1 1
           (JArr [JObj [(py "generated_text", JStr (py "ok"))]]) (JStr (py "ok")));
    [lia | intros k Hk; destruct k; [reflexivity | lia] | reflexivity | reflexivity].
Defined.

(** X4: a 200 whose body is an empty list is handled as an exception: when
    every attempt gets one, the call sleeps [delay] between the attempts and
    raises [AttributeError] at the last one. *)
Theorem client_empty_list_raises (net : endpoint) (prompt : str)
    (max_retries delay : nat) :
  1 <= max_retries ->
  (forall k, k < max_retries ->
     net prompt k = Responds {| status_code := 200; json_body := Some (JArr []) |}) ->
  call_huggingface_api_with net prompt max_retries delay
  = (flat_map (fun _ => [Post prompt; Sleep delay]) (seq 0 (max_retries - 1))
       ++ [Post prompt],
     Raise AttributeError).
Proof.
  intros Hmr Hall. unfold call_huggingface_api_with.
  replace max_retries with (S (max_retries - 1)) at 2 by lia.
  rewrite (attempts_all_throw_body net prompt max_retries delay AttributeError);
    [reflexivity | lia |].
  intros k Hk. rewrite Hall by lia. reflexivity.
Qed.

(** The three default attempts against such an endpoint. *)
Lemma client_empty_list_raises_witness :
  call_huggingface_api net_empty_list (py "hi")
  = ([Post (py "hi"); Sleep 1; Post (py "hi"); Sleep 1; Post (py "hi")],
     Raise AttributeError).
Proof.
  apply (client_empty_list_raises net_empty_list (py "hi") 3 1);
    [lia | intros k _; reflexivity].
Defined.

(** X5: when the first attempt answers 200 with a body of one of the two
    shapes whose generated text is missing, empty or another false value,
    the notes pipeline returns the fallback notes after that single POST,
    without any retry. *)
Theorem notes_fallback_on_empty_text `{UnicodeData} (net : endpoint)
    (text title source_type : str) (body generated : json) :
  net (notes_prompt text title source_type) 0
  = Responds {| status_code := 200; json_body := Some body |} ->
  generated_text body = Some generated ->
  truthy generated = false ->
  generate_notes_from_text net text title source_type
  = ([Post (notes_prompt text title source_type)],
     Ok (create_fallback_notes text title source_type)).
Proof.
  intros H200 Hgen Hfalse.
  unfold generate_notes_from_text, call_huggingface_api, call_huggingface_api_with.
  cbn [seq attempts app]. rewrite H200. cbn [attempt_body status_code json_body].
  change (200 =? 503)%Z with false. change (200 =? 200)%Z with true. cbn match.
  destruct body as [| | | |[|[| | | | |d] more]|d]; cbv [generated_text] in Hgen;
    try discriminate; injection Hgen as <-; cbn [get_generated_text];
    by rewrite Hfalse.
Qed.

(** An answer without the generated text. *)
Lemma notes_fallback_on_empty_text_witness :
  generate_notes_from_text net_silent (py "Cells divide.") (py "Cell Biology")
    (py "text")
  = ([Post (notes_prompt (py "Cells divide.") (py "Cell Biology") (py "text"))],
     Ok (create_fallback_notes (py "Cells divide.") (py "Cell Biology") (py "text"))).
Proof.
  apply (notes_fallback_on_empty_text net_silent (py "Cells divide.")
           (py "Cell Biology") (py "text")
           (JObj [(py "error", JStr (py "none"))]) (JStr []));
    reflexivity.
Defined.

(** ** The notes parsers *)

Lemma Forall_filter_true {A} (f : A -> bool) (l : list A) :
  Forall (fun x => f x = true) (List.filter f l).
Proof.
  apply Forall_forall. intros x Hx.
  apply list_elem_of_In, filter_In in Hx. tauto.
Qed.

Lemma existsb_false_Forall {A} (f : A -> bool) (l : list A) :
  existsb f l = false <-> Forall (fun x => f x = false) l.
Proof.
  induction l as [|x l IH]; cbn; [split; [constructor|reflexivity]|].
  rewrite orb_false_iff, IH. split.
  - intros [Hx Hl]. by constructor.
  - intros Hall. by inversion Hall.
Qed.

Lemma existsb_elem {A} (f : A -> bool) (l : list A) (x : A) :
  x ∈ l -> f x = true -> existsb f l = true.
Proof.
  intros Hx Hf. apply existsb_exists. exists x.
  split; [by apply list_elem_of_In | exact Hf].
Qed.

Section NotesParsers.
Context `{UnicodeData}.

(** X6: the difficulty is one of the three tiers; it is [Advanced] as soon
    as a word of the first list occurs, whatever else the text holds, and
    [Beginner] exactly when none of the seven words occurs. *)
Theorem extract_difficulty_tiers (text : str) :
  extract_difficulty text ∈ [py "Advanced"; py "Intermediate"; py "Beginner"]
  /\ (forall word,
        word ∈ [py "advanced"; py "complex"; py "difficult"; py "expert"] ->
        contains word (lower text) = true ->
        extract_difficulty text = py "Advanced")
  /\ (extract_difficulty text = py "Beginner" <->
      Forall (fun word => contains word (lower text) = false)
        ([py "advanced"; py "complex"; py "difficult"; py "expert"]
         ++ [py "intermediate"; py "moderate"; py "medium"])).
Proof.
  unfold extract_difficulty. rewrite Forall_app, <- !existsb_false_Forall.
  destruct (existsb _ [py "advanced"; _; _; _]) eqn:Ea;
    [|destruct (existsb _ [py "intermediate"; _; _]) eqn:Ei].
  - split; [apply list_elem_of_here|]. split; [reflexivity|].
    split; [discriminate | intros [[=] _]].
  - split; [apply list_elem_of_further, list_elem_of_here|]. split.
    + intros word Hw Hc. rewrite (existsb_elem _ _ _ Hw Hc) in Ea. discriminate Ea.
    + split; [discriminate | intros [_ [=]]].
  - split; [do 2 apply list_elem_of_further; apply list_elem_of_here|]. split.
    + intros word Hw Hc. rewrite (existsb_elem _ _ _ Hw Hc) in Ea. discriminate Ea.
    + split; [intros _; split; reflexivity | reflexivity].
Qed.

Lemma add_terms_extends text_lower terms tags :
  exists extra,
    add_terms text_lower terms tags = tags ++ extra
    /\ sublist extra terms
    /\ Forall (fun term => contains term text_lower = true) extra
    /\ (length tags < 6 -> length (tags ++ extra) <= 6).
Proof.
  revert tags. induction terms as [|term rest IH]; intros tags.
  - exists []. rewrite app_nil_r. repeat split; [constructor|constructor|lia].
  - cbn [add_terms]. destruct (contains term text_lower) eqn:Hc.
    + destruct (Nat.leb_spec 6 (length (tags ++ [term]))) as [Hfull|Hroom].
      * exists [term]. split; [reflexivity|]. split.
        { constructor. apply sublist_nil_l. }
        split; [by constructor|]. rewrite length_app in *. cbn in *. lia.
      * destruct (IH (tags ++ [term])) as (extra & Heq & Hsub & Hall & Hlen).
        exists (term :: extra). rewrite Heq, <- app_assoc. split; [reflexivity|].
        split; [by constructor|]. split; [by constructor|].
        intros _. rewrite <- app_assoc in Hlen. apply Hlen. lia.
    + destruct (IH tags) as (extra & Heq & Hsub & Hall & Hlen).
      exists extra. split; [exact Heq|]. split; [by apply sublist_cons|].
      split; assumption.
Qed.

(** X7: the tags start with the source type, [study] and [notes]; the
    others are academic terms that occur in the text in lower case, in the
    order of the vocabulary, and there are never more than six tags. *)
Theorem generate_tags_shape (text source_type : str) :
  exists extra,
    generate_tags text source_type = [source_type; py "study"; py "notes"] ++ extra
    /\ sublist extra common_academic_terms
    /\ Forall (fun term => contains term (lower text) = true) extra
    /\ length extra <= 3.
Proof.
  unfold generate_tags.
  destruct (add_terms_extends (lower text) common_academic_terms
              [source_type; py "study"; py "notes"])
    as (extra & Heq & Hsub & Hall & Hlen).
  exists extra. repeat split; try assumption.
  rewrite length_app in Hlen. cbn in Hlen. lia.
Qed.

Lemma bullet_lines_long lines :
  Forall (fun point => 10 < length point) (bullet_lines lines).
Proof.
  induction lines as [|line rest IH]; cbn [bullet_lines]; [constructor|].
  destruct (is_bullet (strip line)); [|exact IH].
  destruct (nonempty _ && (10 <? _)) eqn:E; [|exact IH].
  constructor; [|exact IH].
  apply andb_true_iff in E as [_ E]. by apply Nat.ltb_lt in E.
Qed.

Lemma stripped_sentences_long n (sentences : list str) :
  Forall (fun point => n < length point)
    (strip <$> List.filter (fun sentence => n <? length (strip sentence)) sentences).
Proof.
  apply Forall_fmap.
  eapply Forall_impl; [apply Forall_filter_true|].
  intros sentence Hs. apply Nat.ltb_lt. exact Hs.
Qed.

(** X8: every key point returned has more than 10 characters, whether it
    comes from a bullet line or from a sentence. *)
Theorem extract_bullet_points_long (text : str) :
  Forall (fun point => 10 < length point) (extract_bullet_points text).
Proof.
  unfold extract_bullet_points. apply Forall_take.
  destruct (nonempty (bullet_lines _)); [apply bullet_lines_long|].
  eapply Forall_impl; [apply (stripped_sentences_long 20)|].
  intros point Hp. cbv beta in Hp. lia.
Qed.

(** X9: every question returned, the default ones included, ends with a
    question mark and has more than 10 characters. *)
Theorem extract_questions_are_questions (text : str) :
  Forall (fun question => endswith [QMARK] question = true /\ 10 < length question)
    (extract_questions text).
Proof.
  unfold extract_questions. apply Forall_take.
  destruct (nonempty (List.filter _ _)).
  - eapply Forall_impl; [apply Forall_filter_true|].
    intros line Hl. cbv beta in Hl. apply andb_true_iff in Hl as [He Hlen].
    split; [exact He | by apply Nat.ltb_lt in Hlen].
  - unfold default_questions. repeat constructor; cbn; lia.
Qed.

(** X10: a section of the enhancement has at most 4 items, each of more
    than 10 characters. *)
Theorem extract_enhancement_section_items (text section_type : str) :
  length (extract_enhancement_section text section_type) <= 4
  /\ Forall (fun item => 10 < length item)
       (extract_enhancement_section text section_type).
Proof.
  unfold extract_enhancement_section. split; [apply length_take_le|].
  apply Forall_take. destruct (nonempty (List.filter _ _)).
  - eapply Forall_impl; [apply Forall_filter_true|].
    intros item Hi. cbv beta in Hi. apply andb_true_iff in Hi as [_ Hlen].
    by apply Nat.ltb_lt in Hlen.
  - eapply Forall_impl; [apply (stripped_sentences_long 15)|].
    intros item Hi. cbv beta in Hi. lia.
Qed.
End NotesParsers.

Lemma content_heading_app (title tail : str) :
  py "Detailed Notes for " ++ title ++ py ":" ++ [NL; NL] ++ tail
  = content_heading title ++ tail.
Proof. unfold content_heading. by rewrite <- !app_assoc. Qed.

Section NotesPipeline.
Context `{UnicodeData}.

(** X11: [enhance_existing_notes] never raises; each of its four sections
    has at most 4 items, and unless the client returns a non-empty string
    the result is the fixed fallback enhancement. *)
Theorem enhance_existing_notes_sections (net : endpoint) (note_content : str) :
  let client := snd (call_huggingface_api net (enhance_prompt note_content)) in
  exists e,
    snd (enhance_existing_notes net note_content) = Ok e
    /\ length (insights e) <= 4 /\ length (applications e) <= 4
    /\ length (memory_techniques e) <= 4 /\ length (related_topics e) <= 4
    /\ ((forall c s, client <> Ok (JStr (c :: s))) -> e = fallback_enhancement).
Proof.
  cbn zeta. unfold enhance_existing_notes.
  destruct (call_huggingface_api net _) as [tr [[| | |[|c s]| |]|e]]; cbn [snd nonempty];
    try (exists fallback_enhancement; split; [reflexivity|];
         do 4 (split; [cbn; lia|]); intros _; reflexivity).
  eexists. split; [reflexivity|]. cbn [insights applications memory_techniques related_topics].
  repeat split; try apply length_take_le.
  intros Hno. by destruct (Hno c s).
Qed.

(** X12: the content of the fallback notes is the heading followed by the
    first 2000 characters of the text, with [...] appended exactly when the
    text is longer; it never exceeds the title by more than 2025
    characters. *)
Theorem create_fallback_notes_content (text title source_type : str) :
  let n := create_fallback_notes text title source_type in
  content n = content_heading title ++ take 2000 text
              ++ (if 2000 <? length text then py "..." else [])
  /\ (length text <= 2000 -> content n = content_heading title ++ text)
  /\ length (content n) <= length title + 2025.
Proof.
  cbn zeta. unfold create_fallback_notes, content_heading. cbn [content].
  assert (Heq : forall tail : str,
             py "Detailed Notes for " ++ title ++ py ":" ++ [NL; NL] ++ tail
             = (py "Detailed Notes for " ++ title ++ py ":" ++ [NL; NL]) ++ tail).
  { intros tail. by rewrite <- !app_assoc. }
  rewrite Heq. split; [reflexivity|]. split.
  - intros Hshort. destruct (Nat.ltb_spec 2000 (length text)); [lia|].
    by rewrite app_nil_r, take_ge.
  - rewrite !length_app, length_take.
    change (length (py "Detailed Notes for ")) with 19.
    change (length (py ":")) with 1. cbn [length].
    destruct (2000 <? length text);
      [change (length (py "...")) with 3|]; cbn [length]; lia.
Qed.

(** X15: whatever the endpoint does, the notes pipeline makes at most
    three POSTs and returns notes whose reading time is
    [max(1, len(text) // 250)], whose content starts with the heading for
    the title, whose tags hold [study], [notes] and the source type and are
    at most six, and which have from 1 to 10 questions. *)
Theorem generate_notes_from_text_invariants (net : endpoint)
    (text title source_type : str) :
  let run := generate_notes_from_text net text title source_type in
  posts (fst run) <= 3
  /\ exists n,
       snd run = Ok n
       /\ estimated_read_time n = Nat.max 1 (length text / 250)
       /\ startswith (content_heading title) (content n) = true
       /\ py "study" ∈ tags n /\ py "notes" ∈ tags n /\ source_type ∈ tags n
       /\ length (tags n) <= 6
       /\ 1 <= length (questions n) <= 10.
Proof.
  cbn zeta. unfold generate_notes_from_text, call_huggingface_api.
  pose proof (posts_le_max_retries net (notes_prompt text title source_type) 3 1)
    as Hposts.
  destruct (call_huggingface_api_with net _ 3 1) as [tr r]. cbn [fst] in Hposts.
  assert (Hfb : exists n,
             Ok (create_fallback_notes text title source_type) = Ok n
             /\ estimated_read_time n = Nat.max 1 (length text / 250)
             /\ startswith (content_heading title) (content n) = true
             /\ py "study" ∈ tags n /\ py "notes" ∈ tags n /\ source_type ∈ tags n
             /\ length (tags n) <= 6
             /\ 1 <= length (questions n) <= 10).
  { eexists. split; [reflexivity|]. split; [reflexivity|]. split.
    - cbn [content create_fallback_notes]. rewrite content_heading_app.
      apply startswith_app.
    - cbn [tags questions create_fallback_notes length].
      repeat split; try lia;
        repeat (first [apply list_elem_of_here | apply list_elem_of_further]). }
  assert (Hparse : forall v, exists n,
             Ok (parse_ai_response v text title source_type) = Ok n
             /\ estimated_read_time n = Nat.max 1 (length text / 250)
             /\ startswith (content_heading title) (content n) = true
             /\ py "study" ∈ tags n /\ py "notes" ∈ tags n /\ source_type ∈ tags n
             /\ length (tags n) <= 6
             /\ 1 <= length (questions n) <= 10).
  { intros [| | |s| |]; try exact Hfb.
    eexists. split; [reflexivity|].
    cbn [parse_ai_response estimated_read_time content tags questions].
    split; [reflexivity|]. split.
    - replace (py "Detailed Notes for " ++ title ++ py ":" ++ [NL; NL] ++ s)
        with (content_heading title ++ s)
        by (unfold content_heading; by rewrite <- !app_assoc).
      apply startswith_app.
    - unfold generate_tags.
      destruct (add_terms_extends (lower text) common_academic_terms
                  [source_type; py "study"; py "notes"])
        as (extra & -> & _ & _ & Hlen).
      specialize (Hlen ltac:(cbn; lia)).
      rewrite length_app in *. cbn [length] in *.
      repeat split; try lia; try apply extract_questions_bounds;
        apply elem_of_app; left;
        repeat (first [apply list_elem_of_here | apply list_elem_of_further]). }
  destruct r as [v|e]; [destruct (truthy v)|]; cbn [fst snd];
    (split; [exact Hposts|]); [apply Hparse | exact Hfb | exact Hfb].
Qed.
End NotesPipeline.

(** ** YouTube links *)

Lemma split_no_sep (sep : N) (s : str) : sep ∉ s -> split sep s = [s].
Proof.
  induction s as [|c s IH]; intros Hno; [reflexivity|].
  cbn [split]. destruct (N.eqb_spec c sep) as [->|Hne].
  - exfalso. apply Hno. apply list_elem_of_here.
  - rewrite IH; [reflexivity|].
    intros Hin. apply Hno. by apply list_elem_of_further.
Qed.

(** X13: the video id is recovered from each of the four forms of link: a
    short link, a watch link (the first value of [v]), and, for an id
    without a slash, an embed link and a [/v/] link. *)
Theorem extract_youtube_video_id_recovers (video_id : str) (host : str)
    (others : list str) (q : gmap str (list str)) :
  host ∈ [py "www.youtube.com"; py "youtube.com"] ->
  extract_youtube_video_id
    {| hostname := Some (py "youtu.be"); path := SLASH :: video_id; query := q |}
  = Ok (Some video_id)
  /\ extract_youtube_video_id
       {| hostname := Some host; path := py "/watch";
          query := <[py "v" := video_id :: others]> q |}
     = Ok (Some video_id)
  /\ (SLASH ∉ video_id ->
      extract_youtube_video_id
        {| hostname := Some host; path := py "/embed/" ++ video_id; query := q |}
      = Ok (Some video_id)
      /\ extract_youtube_video_id
           {| hostname := Some host; path := py "/v/" ++ video_id; query := q |}
         = Ok (Some video_id)).
Proof.
  intros Hhost. split; [reflexivity|].
  assert (Hnot : bool_decide (Some host = Some (py "youtu.be")) = false).
  { apply bool_decide_eq_false_2. intros [= ->].
    repeat (apply elem_of_cons in Hhost as [Hhost|Hhost]; [discriminate Hhost|]).
    by apply elem_of_nil in Hhost. }
  assert (Hyes : bool_decide (Some host = Some (py "www.youtube.com"))
                 || bool_decide (Some host = Some (py "youtube.com")) = true).
  { apply elem_of_cons in Hhost as [->|Hhost]; [reflexivity|].
    apply elem_of_cons in Hhost as [->|Hhost]; [reflexivity|].
    by apply elem_of_nil in Hhost. }
  unfold extract_youtube_video_id. cbn [hostname path query].
  rewrite Hnot, Hyes. split.
  - change (str_eqb (py "/watch") (py "/watch")) with true. cbn match.
    by rewrite lookup_insert_eq.
  - intros Hslash. split.
    + change (str_eqb (py "/embed/" ++ video_id) (py "/watch")) with
        (bool_decide (py "/embed/" ++ video_id = py "/watch")).
      rewrite bool_decide_eq_false_2 by discriminate.
      change (take 7 (py "/embed/" ++ video_id)) with (py "/embed/").
      change (str_eqb (py "/embed/") (py "/embed/")) with true. cbn match.
      change (py "/embed/" ++ video_id)
        with (SLASH :: 101 :: 109 :: 98 :: 101 :: 100 :: SLASH :: video_id)%N.
      cbn [split N.eqb Pos.eqb SLASH]. rewrite (split_no_sep _ _ Hslash). reflexivity.
    + change (str_eqb (py "/v/" ++ video_id) (py "/watch")) with
        (bool_decide (py "/v/" ++ video_id = py "/watch")).
      rewrite bool_decide_eq_false_2 by discriminate.
      unfold str_eqb.
      rewrite (bool_decide_eq_false_2 (take 7 (py "/v/" ++ video_id) = py "/embed/"))
        by discriminate.
      change (take 3 (py "/v/" ++ video_id)) with (py "/v/").
      rewrite bool_decide_eq_true_2 by reflexivity.
      change (py "/v/" ++ video_id) with (SLASH :: 118 :: SLASH :: video_id)%N.
      cbn [split N.eqb Pos.eqb SLASH]. rewrite (split_no_sep _ _ Hslash). reflexivity.
Qed.

(** An embed link on [youtube.com]. *)
Lemma extract_youtube_video_id_recovers_witness :
  extract_youtube_video_id
    {| hostname := Some (py "youtube.com"); path := py "/embed/dQw4w9WgXcQ";
       query := ∅ |}
  = Ok (Some (py "dQw4w9WgXcQ")).
Proof.
  apply (extract_youtube_video_id_recovers (py "dQw4w9WgXcQ") (py "youtube.com") [] ∅).
  - apply list_elem_of_further, list_elem_of_here.
  - intros Hin. apply list_elem_of_In in Hin. vm_compute in Hin.
    repeat (destruct Hin as [Hin|Hin]; [discriminate Hin|]). exact Hin.
Defined.

Section YouTube.
Context `{UnicodeData}.

(** X14: [process_youtube_url] returns notes exactly when a non-empty video
    id is extracted; otherwise it raises before any request is made
    ([ValueError] when the id is missing or empty), as for a short link
    without an id. *)
Theorem process_youtube_url_needs_an_id (net : endpoint) (url : parsed_url)
    (title : str) :
  let run := process_youtube_url net url title in
  (is_ok (snd run) = true <->
   exists c video_id, extract_youtube_video_id url = Ok (Some (c :: video_id)))
  /\ (is_ok (snd run) = false -> fst run = [])
  /\ (extract_youtube_video_id url = Ok None
      \/ extract_youtube_video_id url = Ok (Some []) ->
      run = ([], Raise (ValueError (py "Invalid YouTube URL"))))
  /\ process_youtube_url net bare_short_link title
     = ([], Raise (ValueError (py "Invalid YouTube URL"))).
Proof.
  cbn zeta. unfold process_youtube_url.
  destruct (extract_youtube_video_id url) as [[[|c video_id]|]|e]; cbn [fst snd is_ok].
  - repeat split; try discriminate; try reflexivity.
    intros (c & v & [=]).
  - rewrite generate_notes_from_text_ok. repeat split; try discriminate.
    + intros _. by exists c, video_id.
    + intros [[=]|[=]].
  - repeat split; try discriminate; try reflexivity.
    intros (c & v & [=]).
  - repeat split; try discriminate; try reflexivity.
    + intros (c & v & [=]).
    + intros [[=]|[=]].
Qed.
End YouTube.

(** ** Quiz questions *)

Section QuizQuestions.
Context `{UnicodeData}.

Lemma _determine_question_type_kind (question_text : str)
    (question_types : list str) :
  _determine_question_type question_text question_types ∈ question_kinds.
Proof.
  unfold _determine_question_type, question_kinds.
  repeat match goal with
         | |- context [if ?b then _ else _] => destruct b
         end;
    repeat (first [apply list_elem_of_here | apply list_elem_of_further]).
Qed.

Lemma question_of_line_sound (line topic difficulty : str)
    (question_types : list str) :
  sound_question difficulty (question_of_line line topic difficulty question_types).
Proof.
  unfold question_of_line, sound_question.
  cbn [points difficulty_level correct_answers question_type].
  repeat split; [|apply _determine_question_type_kind].
  destruct (str_eqb _ (py "multiple_choice")); [reflexivity|].
  destruct (str_eqb _ (py "true_false")); reflexivity.
Qed.

(** X16: the type given to a question is one of the three kinds;
    [true_false] and [short_answer] are given only when requested, and
    without a requested type the question is a multiple choice. *)
Theorem _determine_question_type_requested (question_text : str)
    (question_types : list str) :
  let kind := _determine_question_type question_text question_types in
  kind ∈ question_kinds
  /\ (kind = py "true_false" -> mem (py "true_false") question_types = true)
  /\ (kind = py "short_answer" -> mem (py "short_answer") question_types = true)
  /\ (question_types = [] -> kind = py "multiple_choice").
Proof.
  cbn zeta. unfold _determine_question_type, question_kinds.
  destruct (mem (py "true_false") question_types) eqn:Etf;
    destruct (mem (py "short_answer") question_types) eqn:Esa;
    cbn [andb];
    repeat match goal with
           | |- context [if ?b then _ else _] => destruct b
           end;
    (split; [repeat (first [apply list_elem_of_here | apply list_elem_of_further])|]);
    repeat split; try discriminate; try reflexivity; intros ->; discriminate.
Qed.

(** X17: a question read from a line keeps the line as its text, is worth
    one point, and has one correct answer: option 0 of four for a multiple
    choice, option 0 or 1 of [True] and [False] for a true/false question,
    and the index 0 without any option for a short answer. *)
Theorem question_of_line_shape (line topic difficulty : str)
    (question_types : list str) :
  let q := question_of_line line topic difficulty question_types in
  question_text q = line
  /\ sound_question difficulty q
  /\ (question_type q = py "multiple_choice" ->
      length (options q) = 4 /\ correct_answers q = [AInt 0])
  /\ (question_type q = py "true_false" ->
      options q = [py "True"; py "False"]
      /\ (correct_answers q = [AInt 0] \/ correct_answers q = [AInt 1]))
  /\ (question_type q = py "short_answer" ->
      options q = [] /\ correct_answers q = [AInt 0]).
Proof.
  cbn zeta. unfold question_of_line, sound_question.
  cbn [question_text points difficulty_level correct_answers question_type options].
  pose proof (_determine_question_type_kind line question_types) as Hkind.
  unfold question_kinds in Hkind.
  repeat (apply elem_of_cons in Hkind as [->|Hkind]);
    [| | |by apply elem_of_nil in Hkind].
  - split; [reflexivity|]. split.
    + repeat split; try reflexivity.
      apply list_elem_of_here.
    + repeat split; try discriminate; reflexivity.
  - split; [reflexivity|]. split.
    + repeat split; try reflexivity.
      apply list_elem_of_further, list_elem_of_here.
    + repeat split; try discriminate; try reflexivity.
      destruct (contains (py "true") (lower line)); [left|right]; reflexivity.
  - split; [reflexivity|]. split.
    + repeat split; try reflexivity.
      do 2 apply list_elem_of_further. apply list_elem_of_here.
    + repeat split; try discriminate; reflexivity.
Qed.

Lemma parse_loop_sound topic difficulty question_count question_types lines
    questions_data current_question question_num :
  Forall (sound_question difficulty) questions_data ->
  (forall q, current_question = Some q -> sound_question difficulty q) ->
  let out := parse_loop topic difficulty question_count question_types lines
               questions_data current_question question_num in
  Forall (sound_question difficulty) out.1
  /\ (forall q, out.2 = Some q -> sound_question difficulty q).
Proof.
  revert questions_data current_question question_num.
  induction lines as [|line rest IH]; intros qd cur qnum Hqd Hcur; [by split|].
  cbn [parse_loop]. cbn zeta.
  destruct (negb (nonempty (strip line))); [by apply IH|].
  destruct (_ && _); [|by apply IH].
  assert (Hqd' : Forall (sound_question difficulty)
                   match cur with
                   | Some q => if (qnum <? question_count)%Z then qd ++ [q] else qd
                   | None => qd
                   end).
  { destruct cur as [q|]; [|exact Hqd].
    destruct (qnum <? question_count)%Z; [|exact Hqd].
    apply Forall_app. split; [exact Hqd|]. constructor; [by apply Hcur|constructor]. }
  destruct (question_count <? qnum + 1)%Z; [by split|].
  apply IH; [exact Hqd'|].
  intros q [= <-]. apply question_of_line_sound.
Qed.

Lemma fallback_loop_sound topic difficulty templates todo acc qs :
  Forall (fun t => type t ∈ question_kinds) templates ->
  Forall (sound_question difficulty) acc ->
  fallback_loop topic difficulty templates todo acc = Ok qs ->
  Forall (sound_question difficulty) qs.
Proof.
  intros Ht. revert acc. induction todo as [|i rest IH]; intros acc Hacc.
  - cbn. by intros [= <-].
  - cbn [fallback_loop].
    destruct (templates !! (i mod length templates)) as [t|] eqn:Hl; [|discriminate].
    apply IH. apply Forall_app. split; [exact Hacc|].
    constructor; [|constructor]. repeat split.
    cbn [question_type]. rewrite Forall_forall in Ht. apply Ht.
    by apply list_elem_of_lookup_2 in Hl.
Qed.

Lemma _generate_fallback_questions_sound topic question_count difficulty qs :
  _generate_fallback_questions topic question_count difficulty = Ok qs ->
  Forall (sound_question difficulty) qs.
Proof.
  unfold _generate_fallback_questions. apply fallback_loop_sound; [|constructor].
  unfold question_templates, question_kinds.
  repeat constructor; cbn [type];
    repeat (first [apply list_elem_of_here | apply list_elem_of_further]).
Qed.

Lemma fill_remaining_sound topic difficulty question_count questions_data qs :
  Forall (sound_question difficulty) questions_data ->
  fill_remaining topic difficulty question_count questions_data = Ok qs ->
  Forall (sound_question difficulty) qs.
Proof.
  revert qs.
  funelim (fill_remaining topic difficulty question_count questions_data);
    intros qs Hqd Hrun.
  - injection Hrun as <-. exact Hqd.
  - match goal with
    | IH : forall qs, Forall _ (_ ++ _) -> _ |- _ => apply (IH qs); [|exact Hrun]
    end.
    apply Forall_app. split; [exact Hqd|].
    by apply (_generate_fallback_questions_sound topic 1).
  - discriminate Hrun.
Qed.
End QuizQuestions.

Lemma sound_take difficulty n (qs : list question) :
  Forall (sound_question difficulty) qs ->
  Forall (sound_question difficulty) (slice_to qs n).
Proof. unfold slice_to. destruct (0 <=? n)%Z; apply Forall_take. Qed.

Lemma fill_remaining_pads topic difficulty question_count questions_data :
  fill_remaining topic difficulty question_count questions_data
  = Ok (questions_data ++
        replicate (Z.to_nat (question_count - Z.of_nat (length questions_data)))
          (first_fallback_question topic difficulty)).
Proof.
  funelim (fill_remaining topic difficulty question_count questions_data).
  - pose proof (proj1 (Z.ltb_ge _ _) e) as Hge.
    replace (Z.to_nat _) with 0 by lia. cbn. by rewrite app_nil_r.
  - assert (more = [first_fallback_question topic difficulty]) as ->.
    { match goal with E : _generate_fallback_questions _ _ _ = Ok _ |- _ =>
        pose proof E as E' end.
      cbv [_generate_fallback_questions] in E'. cbn in E'. by injection E' as <-. }
    pose proof (proj1 (Z.ltb_lt _ _) Hlt) as Hlt'.
    match goal with IH : fill_remaining _ _ _ _ = Ok _ |- _ => rewrite IH end.
    rewrite length_app. cbn [length].
    replace (Z.to_nat (question_count - Z.of_nat (length questions_data)))
      with (S (Z.to_nat (question_count - Z.of_nat (length questions_data + 1))))
      by lia.
    cbn [replicate]. by rewrite <- app_assoc.
  - destruct (_generate_fallback_questions_length topic 1 difficulty)
      as (qs & Hqs & _).
    exfalso. congruence.
Qed.

Section QuizGeneration.
Context `{UnicodeData}.

Lemma parse_loop_nothing_wanted topic difficulty question_count question_types
    lines question_num :
  (question_count <= 0)%Z -> (0 <= question_num)%Z ->
  parse_loop topic difficulty question_count question_types lines [] None question_num
  = ([], None).
Proof.
  intros Hn. revert question_num.
  induction lines as [|line rest IH]; intros qnum Hq; [reflexivity|].
  cbn [parse_loop]. cbn zeta.
  destruct (negb (nonempty (strip line))); [by apply IH|].
  destruct (_ && _); [|by apply IH].
  destruct (Z.ltb_spec question_count (qnum + 1)); [reflexivity|lia].
Qed.

(** The parsed questions never outnumber the request, and each has for text
    a stripped line of more than 20 characters of the response. *)
Lemma parse_loop_parsed topic difficulty question_count question_types
    (all_lines lines : list str) questions_data current_question question_num :
  let from_response (q : question) :=
    exists line, line ∈ all_lines /\ question_text q = strip line
                 /\ 20 < length (strip line) in
  (forall line, line ∈ lines -> line ∈ all_lines) ->
  (Z.of_nat (length questions_data) <= question_num)%Z ->
  (Z.of_nat (length questions_data) <= question_count)%Z ->
  Forall from_response questions_data ->
  (forall q, current_question = Some q -> from_response q) ->
  let out := parse_loop topic difficulty question_count question_types lines
               questions_data current_question question_num in
  (Z.of_nat (length out.1) <= question_count)%Z
  /\ Forall from_response out.1
  /\ (forall q, out.2 = Some q -> from_response q).
Proof.
  intros from_response. revert questions_data current_question question_num.
  induction lines as [|line rest IH]; intros qd cur qnum Hsub Hnum Hcount Hqd Hcur;
    [by repeat split|].
  assert (Hrest : forall l, l ∈ rest -> l ∈ all_lines)
    by (intros l Hl; apply Hsub; by apply list_elem_of_further).
  cbn [parse_loop]. cbn zeta.
  destruct (negb (nonempty (strip line))); [by apply IH|].
  destruct (_ && (20 <? length (strip line))) eqn:Eq; [|by apply IH].
  apply andb_true_iff in Eq as [_ Hlong]. apply Nat.ltb_lt in Hlong.
  set (qd' := match cur with
              | Some q => if (qnum <? question_count)%Z then qd ++ [q] else qd
              | None => qd
              end).
  assert (Hqd' : (Z.of_nat (length qd') <= qnum + 1)%Z
                 /\ (Z.of_nat (length qd') <= question_count)%Z
                 /\ Forall from_response qd').
  { unfold qd'. destruct cur as [q|]; [|repeat split; (lia || assumption)].
    destruct (Z.ltb_spec qnum question_count); [|repeat split; (lia || assumption)].
    rewrite length_app. cbn [length]. repeat split; try lia.
    apply Forall_app. split; [exact Hqd|]. constructor; [by apply Hcur|constructor]. }
  destruct Hqd' as (Hnum' & Hcount' & Hall').
  destruct (question_count <? qnum + 1)%Z; [by repeat split|].
  apply IH; try assumption.
  intros q [= <-]. exists line. repeat split; [|exact Hlong].
  apply Hsub, list_elem_of_here.
Qed.

(** X18: whatever the endpoint does and whatever the count, every question
    of [generate_quiz_questions] is worth one point, carries the requested
    difficulty, has exactly one correct answer and is of one of the three
    kinds. *)
Theorem generate_quiz_questions_sound (net : endpoint) (topic difficulty : str)
    (question_count : Z) (question_types : list str) :
  exists qs,
    snd (generate_quiz_questions net topic difficulty question_count question_types)
    = Ok qs
    /\ Forall (sound_question difficulty) qs.
Proof.
  unfold generate_quiz_questions.
  destruct (_generate_fallback_questions_length topic question_count difficulty)
    as (fb & Hfb & _).
  assert (Hfallback : exists qs,
             _generate_fallback_questions topic question_count difficulty = Ok qs
             /\ Forall (sound_question difficulty) qs).
  { exists fb. split; [exact Hfb|].
    by apply (_generate_fallback_questions_sound topic question_count). }
  destruct (call_huggingface_api net _) as [tr [v|e]]; cbn [snd]; [|exact Hfallback].
  destruct (truthy v); [|exact Hfallback].
  destruct v as [| | |s| |]; try exact Hfallback.
  unfold _parse_questions_from_response.
  pose proof (parse_loop_sound topic difficulty question_count question_types
                (split NL s) [] None 0 (List.Forall_nil _)) as Hloop.
  destruct (parse_loop _ _ _ _ _ _ _ _) as [qd cur].
  destruct Hloop as [Hqd Hcur]; [discriminate|]. cbn [fst snd] in Hqd, Hcur.
  rewrite fill_remaining_pads. cbn [snd]. eexists. split; [reflexivity|].
  apply sound_take, Forall_app. split.
  - destruct cur as [q|]; [|exact Hqd].
    destruct (_ <? _)%Z; [|exact Hqd].
    apply Forall_app. split; [exact Hqd|]. constructor; [by apply Hcur|constructor].
  - apply Forall_replicate. repeat split. apply list_elem_of_here.
Qed.

(** X19: for a count of zero or less, [generate_quiz_questions] returns the
    empty list, whatever the endpoint does. *)
Theorem generate_quiz_questions_none_wanted (net : endpoint)
    (topic difficulty : str) (question_count : Z) (question_types : list str) :
  (question_count <= 0)%Z ->
  snd (generate_quiz_questions net topic difficulty question_count question_types)
  = Ok [].
Proof.
  intros Hn. unfold generate_quiz_questions.
  assert (Hfallback : _generate_fallback_questions topic question_count difficulty
                      = Ok []).
  { unfold _generate_fallback_questions, range.
    replace (Z.to_nat _) with 0 by lia. reflexivity. }
  destruct (call_huggingface_api net _) as [tr [v|e]]; cbn [snd]; [|exact Hfallback].
  destruct (truthy v); [|exact Hfallback].
  destruct v as [| | |s| |]; try exact Hfallback.
  unfold _parse_questions_from_response.
  rewrite parse_loop_nothing_wanted by lia.
  rewrite fill_remaining_pads. cbn [length app].
  replace (Z.to_nat _) with 0 by lia. cbn [replicate snd app].
  unfold slice_to. destruct (0 <=? question_count)%Z; by rewrite take_nil.
Qed.

(** X20: for a count [n >= 0] the parser returns the questions read from
    the response, each with a stripped line of more than 20 characters as
    its text, followed by as many copies of one and the same question, the
    first fallback template, as it takes to reach [n]. *)
Theorem _parse_questions_from_response_padding (ai_response topic difficulty : str)
    (n : Z) (question_types : list str) :
  (0 <= n)%Z ->
  exists parsed,
    _parse_questions_from_response ai_response topic difficulty n question_types
    = Ok (parsed ++ replicate (Z.to_nat n - length parsed)
                      (first_fallback_question topic difficulty))
    /\ length parsed <= Z.to_nat n
    /\ Forall (fun q => exists line,
                 line ∈ split NL ai_response
                 /\ question_text q = strip line /\ 20 < length (strip line))
         parsed.
Proof.
  intros Hn. unfold _parse_questions_from_response.
  pose proof (parse_loop_parsed topic difficulty n question_types
                (split NL ai_response) (split NL ai_response) [] None 0
                (fun _ Hl => Hl)) as Hloop.
  cbn zeta in Hloop.
  destruct (parse_loop _ _ _ _ _ _ _ _) as [qd cur].
  destruct Hloop as (Hlen & Hqd & Hcur);
    [cbn; lia | cbn; lia | constructor | discriminate |].
  cbn [fst snd] in Hlen, Hqd, Hcur.
  set (parsed := match cur with
                 | Some q => if (Z.of_nat (length qd) <? n)%Z then qd ++ [q] else qd
                 | None => qd
                 end).
  assert (Hparsed : length parsed <= Z.to_nat n
                    /\ Forall (fun q => exists line,
                                 line ∈ split NL ai_response
                                 /\ question_text q = strip line
                                 /\ 20 < length (strip line)) parsed).
  { unfold parsed. destruct cur as [q|]; [|split; [lia|exact Hqd]].
    destruct (Z.ltb_spec (Z.of_nat (length qd)) n); [|split; [lia|exact Hqd]].
    rewrite length_app. cbn [length]. split; [lia|].
    apply Forall_app. split; [exact Hqd|]. constructor; [by apply Hcur|constructor]. }
  destruct Hparsed as [Hplen Hpall].
  exists parsed. rewrite fill_remaining_pads. split; [|split; assumption].
  f_equal. unfold slice_to. destruct (Z.leb_spec 0 n); [|lia].
  replace (Z.to_nat (n - Z.of_nat (length parsed)))
    with (Z.to_nat n - length parsed) by lia.
  rewrite take_ge; [reflexivity|].
  rewrite length_app, length_replicate. lia.
Qed.
End QuizGeneration.

(** A request for two questions answered by one question and a remark. *)
Lemma _parse_questions_from_response_padding_witness :
  exists parsed,
    _parse_questions_from_response (py "What is the powerhouse of the cell?
Thanks.") (py "Cells") (py "easy") 2 [py "multiple_choice"]
    = Ok (parsed ++ replicate (2 - length parsed)
                      (first_fallback_question (py "Cells") (py "easy")))
    /\ length parsed <= 2.
Proof.
  destruct (_parse_questions_from_response_padding (py "What is the powerhouse of the cell?
Thanks.") (py "Cells") (py "easy") 2 [py "multiple_choice"]) as (parsed & Heq & Hlen & _);
    [lia|].
  exists parsed. split; [exact Heq | exact Hlen].
Defined.

(** A count of zero against an endpoint that answers. *)
Lemma generate_quiz_questions_none_wanted_witness :
  snd (generate_quiz_questions (net_says (py "What is the powerhouse of the cell?"))
         (py "Cells") (py "easy") 0 [py "multiple_choice"]) = Ok [].
Proof.
  apply (generate_quiz_questions_none_wanted
           (net_says (py "What is the powerhouse of the cell?"))
           (py "Cells") (py "easy") 0 [py "multiple_choice"]).
  lia.
Defined.

(** ** Roadmap progress, further *)

Lemma total_contribution_bounds (ms : list milestone) :
  Forall (fun m => (0 <= progress_percentage m <= 100)%Z) ms ->
  (0 <= total_contribution ms <= 100 * Z.of_nat (length ms))%Z.
Proof.
  induction 1 as [|m ms Hm _ IH]; [cbn; lia|].
  unfold total_contribution in *. cbn [fmap list_fmap foldr length].
  unfold contribution at 1 3.
  destruct (str_eqb (m_status m) (py "completed"));
    [|destruct (str_eqb (m_status m) (py "in_progress"))]; lia.
Qed.

Lemma total_contribution_completed (ms : list milestone) :
  Forall is_completed ms ->
  total_contribution ms = (100 * Z.of_nat (length ms))%Z
  /\ List.filter (fun m => str_eqb (m_status m) (py "completed")) ms = ms.
Proof.
  induction 1 as [|m ms Hm _ [IHt IHf]]; [by split|].
  unfold total_contribution in *. cbn [fmap list_fmap foldr length List.filter].
  unfold contribution at 1. unfold is_completed in Hm. rewrite Hm.
  change (str_eqb (py "completed") (py "completed")) with true. cbn match.
  rewrite IHt, IHf. split; [lia | reflexivity].
Qed.

Section ProgressFurther.
Variable insights : Type.
Variable insights_of : roadmap -> Z -> insights.

(** X21: when every milestone has a percentage between 0 and 100, the
    overall progress that [update_roadmap_progress] stores is between 0 and
    100 too. *)
Theorem update_roadmap_progress_bounded (r : roadmap) :
  milestones r <> [] ->
  Forall (fun m => (0 <= progress_percentage m <= 100)%Z) (milestones r) ->
  (0 <= overall_progress_percentage
          (fst (update_roadmap_progress insights insights_of r)) <= 100)%Z.
Proof.
  intros Hne Hall.
  pose proof (total_contribution_bounds _ Hall) as Hbounds.
  unfold update_roadmap_progress.
  destruct (milestones r) as [|m ms] eqn:E; [congruence|].
  cbn [length Nat.eqb Nat.ltb Nat.leb].
  rewrite add_progress_total, Z.add_0_l.
  destruct (int_div_bounds (total_contribution (m :: ms)) (S (length ms)) 100)
    as (v & -> & Hlow & Hup); [lia|exact Hbounds|reflexivity|].
  cbn [overall_progress_percentage fst]. split; [|exact Hup].
  etrans; [|exact Hlow]. apply Z.div_pos; lia.
Qed.

(** X22: a roadmap without milestones is returned untouched; when all the
    milestones, at least one, are completed, the overall progress is set to
    100, the status to [completed] and the completed milestones to the ids
    of all of them. *)
Theorem update_roadmap_progress_completion (r : roadmap) :
  (milestones r = [] ->
   update_roadmap_progress insights insights_of r = (r, TheRoadmap insights r))
  /\ (milestones r <> [] -> Forall is_completed (milestones r) ->
      let r' := fst (update_roadmap_progress insights insights_of r) in
      overall_progress_percentage r' = 100%Z
      /\ status r' = py "completed"
      /\ completed_milestones r' = id <$> milestones r).
Proof.
  unfold update_roadmap_progress. split.
  - intros ->. reflexivity.
  - intros Hne Hall. destruct (total_contribution_completed _ Hall) as [Ht Hf].
    destruct (milestones r) as [|m ms] eqn:E; [congruence|].
    cbn zeta. cbn [length Nat.eqb Nat.ltb Nat.leb].
    rewrite add_progress_total, Z.add_0_l, Hf.
    destruct (int_div_bounds (total_contribution (m :: ms)) (S (length ms)) 100)
      as (v & -> & Hlow & Hup); [lia|rewrite Ht; cbn [length]; lia|reflexivity|].
    assert (v = 100%Z) as ->.
    { rewrite Ht in Hlow. cbn [length] in Hlow.
      rewrite Z.div_mul in Hlow by lia. lia. }
    cbn [overall_progress_percentage status completed_milestones fst].
    repeat split.
Qed.
End ProgressFurther.

(** A roadmap whose two milestones are completed. *)
Lemma update_roadmap_progress_completion_witness :
  status (fst (update_roadmap_progress unit (fun _ _ => tt)
                 {| title := py "Rust"; milestones :=
                      [a_milestone 7 (py "completed") 100;
                       a_milestone 9 (py "completed") 30];
                    overall_progress_percentage := 40; completed_milestones := [7%Z];
                    status := py "active" |}))
  = py "completed".
Proof.
  apply (proj2 (update_roadmap_progress_completion unit (fun _ _ => tt)
                  {| title := py "Rust"; milestones :=
                       [a_milestone 7 (py "completed") 100;
                        a_milestone 9 (py "completed") 30];
                     overall_progress_percentage := 40; completed_milestones := [7%Z];
                     status := py "active" |})).
  - discriminate.
  - repeat constructor.
Defined.

(** The four milestones of the scenario. *)
Lemma update_roadmap_progress_bounded_witness :
  (0 <= overall_progress_percentage
          (fst (update_roadmap_progress unit (fun _ _ => tt) four_milestones))
   <= 100)%Z.
Proof.
  apply (update_roadmap_progress_bounded unit (fun _ _ => tt) four_milestones).
  - discriminate.
  - repeat constructor; cbn; lia.
Defined.

Section ProgressInsights.
Context `{UnicodeData}.

(** X23: whatever the endpoint does, the insights on a progress have the
    assessment that goes with the percentage ([excellent] from 80,
    [good] from 50, [needs_improvement] below) and a non-empty list of key
    insights, list of recommendations and motivation message, after at most
    three POSTs. *)
Theorem _generate_progress_insights_content (net : endpoint) (r : roadmap)
    (progress_percentage : Z) :
  let run := _generate_progress_insights net r progress_percentage in
  posts (fst run) <= 3
  /\ performance_assessment (snd run) = assessment_of progress_percentage
  /\ nonempty (key_insights (snd run)) = true
  /\ nonempty (recommendations (snd run)) = true
  /\ nonempty (motivation_message (snd run)) = true.
Proof.
  cbn zeta. unfold _generate_progress_insights, call_huggingface_api.
  pose proof (posts_le_max_retries net (insights_prompt r progress_percentage) 3 1)
    as Hposts.
  destruct (call_huggingface_api_with net _ 3 1) as [tr res]. cbn [fst] in Hposts.
  assert (Hfb : performance_assessment (_get_fallback_insights progress_percentage)
                = assessment_of progress_percentage
                /\ nonempty (key_insights (_get_fallback_insights progress_percentage))
                   = true
                /\ nonempty (recommendations (_get_fallback_insights progress_percentage))
                   = true
                /\ nonempty (motivation_message (_get_fallback_insights progress_percentage))
                   = true).
  { unfold _get_fallback_insights, assessment_of.
    destruct (80 <=? progress_percentage)%Z;
      [|destruct (50 <=? progress_percentage)%Z]; repeat split. }
  destruct res as [v|e]; [destruct (truthy v)|]; cbn [fst snd];
    (split; [exact Hposts|]); try exact Hfb.
  destruct v as [| | |s| |]; try exact Hfb.
  unfold _parse_progress_insights.
  destruct (insights_loop _ _ _ _ _) as [[[ki recs] mm] nfa].
  cbn [performance_assessment key_insights recommendations motivation_message].
  split; [reflexivity|].
  destruct ki, recs, mm; repeat split.
Qed.
End ProgressInsights.

(** ** Roadmap parsers *)

Section RoadmapParsers.
Context `{UnicodeData} `{UnicodeText}.

Lemma weekly_goals_loop_weeks lines current_week weekly_goals :
  week <$> weekly_goals = seq 1 current_week ->
  current_week < 4 ->
  let goals := weekly_goals_loop lines current_week weekly_goals in
  week <$> goals = seq 1 (length goals) /\ length goals <= 4.
Proof.
  revert current_week weekly_goals.
  induction lines as [|line rest IH]; intros cw goals Hweeks Hcw; cbn zeta.
  - cbn [weekly_goals_loop].
    assert (length goals = cw) as ->
      by (rewrite <- (length_fmap week), Hweeks; apply length_seq).
    split; [exact Hweeks | lia].
  - cbn [weekly_goals_loop]. destruct (_ && _); [|by apply IH].
    set (goals' := goals ++ [_]).
    assert (Hweeks' : week <$> goals' = seq 1 (cw + 1)).
    { unfold goals'. rewrite fmap_app, Hweeks, seq_app. cbn. do 3 f_equal. lia. }
    destruct (Nat.leb_spec 4 (cw + 1)).
    + assert (length goals' = cw + 1) as ->
        by (rewrite <- (length_fmap week), Hweeks'; apply length_seq).
      split; [exact Hweeks' | lia].
    + by apply IH.
Qed.

(** X24: at most four weekly goals are read, and they are numbered 1, 2,
    ... in the order of the response. *)
Theorem _extract_weekly_goals_from_response_weeks (ai_response : str) :
  let goals := _extract_weekly_goals_from_response ai_response in
  length goals <= 4 /\ week <$> goals = seq 1 (length goals).
Proof.
  cbn zeta. unfold _extract_weekly_goals_from_response.
  destruct (weekly_goals_loop_weeks (split NL ai_response) 0 []) as [Hw Hl];
    [reflexivity | lia |].
  split; assumption.
Qed.

Lemma recommendations_loop_items (all_lines lines recommendations : list str) :
  let kept (item : str) :=
    10 < length item
    /\ exists line, line ∈ all_lines /\ item = strip line
         /\ existsb (fun keyword => contains keyword (lower line))
              recommendation_keywords = true in
  (forall line, line ∈ lines -> line ∈ all_lines) ->
  length recommendations < 5 ->
  Forall kept recommendations ->
  length (recommendations_loop lines recommendations) <= 5
  /\ Forall kept (recommendations_loop lines recommendations).
Proof.
  intros kept. revert recommendations.
  induction lines as [|line rest IH]; intros recs Hsub Hlen Hall.
  - cbn. split; [lia | exact Hall].
  - assert (Hrest : forall l, l ∈ rest -> l ∈ all_lines)
      by (intros l Hl; apply Hsub; by apply list_elem_of_further).
    cbn [recommendations_loop]. cbn zeta.
    destruct (existsb _ recommendation_keywords) eqn:Ek; [|by apply IH].
    destruct (Nat.ltb_spec 10 (length (strip line))) as [Hlong|Hshort].
    + assert (Hall' : Forall kept (recs ++ [strip line])).
      { apply Forall_app. split; [exact Hall|]. constructor; [|constructor].
        split; [exact Hlong|]. exists line. repeat split; [|exact Ek].
        apply Hsub, list_elem_of_here. }
      destruct (Nat.leb_spec 5 (length (recs ++ [strip line]))) as [Hfull|Hroom].
      * split; [|exact Hall']. rewrite length_app in *. cbn [length] in *. lia.
      * by apply IH.
    + destruct (Nat.leb_spec 5 (length recs)); [lia|]. by apply IH.
Qed.

(** X25: at most five recommendations are read, each a stripped line of
    more than 10 characters that holds, in lower case, one of the five
    keywords. *)
Theorem _extract_recommendations_from_response_items (ai_response : str) :
  length (_extract_recommendations_from_response ai_response) <= 5
  /\ Forall (fun item =>
       10 < length item
       /\ exists line, line ∈ split NL ai_response /\ item = strip line
            /\ existsb (fun keyword => contains keyword (lower line))
                 recommendation_keywords = true)
     (_extract_recommendations_from_response ai_response).
Proof.
  unfold _extract_recommendations_from_response.
  apply (recommendations_loop_items (split NL ai_response) (split NL ai_response) []);
    [auto | cbn; lia | constructor].
Qed.
End RoadmapParsers.

Section ResourceParsers.
Context `{UnicodeData}.

Lemma _determine_resource_type_kind (line : str) :
  _determine_resource_type line ∈ resource_kinds.
Proof.
  unfold _determine_resource_type, resource_kinds.
  repeat match goal with
         | |- context [if ?b then _ else _] => destruct b
         end;
    repeat (first [apply list_elem_of_here | apply list_elem_of_further]).
Qed.

Lemma add_details_sound skills_names difficulty_level line r :
  sound_resource skills_names difficulty_level r ->
  sound_resource skills_names difficulty_level (add_details line r).
Proof.
  intros (Hd & Hs & Hc & Ht). unfold add_details, sound_resource.
  cbn [res_difficulty res_skills res_cost res_type]. repeat split; try assumption.
  destruct (contains (py "free") _); [apply list_elem_of_here|].
  destruct (contains (py "paid") _);
    [apply list_elem_of_further, list_elem_of_here | exact Hc].
Qed.

Lemma resources_loop_sound skills_names difficulty_level lines resources
    current_resource resource_count :
  let count_of (rs : list resource) (cur : option resource) :=
    length rs + match cur with Some _ => 1 | None => 0 end in
  count_of resources current_resource = resource_count ->
  resource_count <= 8 ->
  Forall (sound_resource skills_names difficulty_level) resources ->
  (forall r, current_resource = Some r ->
             sound_resource skills_names difficulty_level r) ->
  let out := resources_loop skills_names difficulty_level lines resources
               current_resource resource_count in
  count_of out.1 out.2 <= 8
  /\ Forall (sound_resource skills_names difficulty_level) out.1
  /\ (forall r, out.2 = Some r -> sound_resource skills_names difficulty_level r).
Proof.
  intros count_of. revert resources current_resource resource_count.
  induction lines as [|line rest IH]; intros rs cur n Hn Hle Hrs Hcur; cbn zeta.
  - cbn [resources_loop fst snd]. unfold count_of in *.
    split; [lia|]. split; assumption.
  - cbn [resources_loop]. cbn zeta.
    destruct (negb (nonempty (strip line))); [by apply IH|].
    destruct ((15 <? length (strip line)) && _ && (n <? 8)) eqn:Eopen.
    + apply andb_true_iff in Eopen as [_ Hroom]. apply Nat.ltb_lt in Hroom.
      apply IH.
      * unfold count_of in *. destruct cur; [rewrite length_app; cbn [length]|]; lia.
      * lia.
      * destruct cur as [r|]; [|exact Hrs].
        apply Forall_app. split; [exact Hrs|]. constructor; [by apply Hcur|constructor].
      * intros r [= <-]. unfold resource_of_line, sound_resource.
        cbn [res_difficulty res_skills res_cost res_type]. repeat split.
        -- apply list_elem_of_here.
        -- apply _determine_resource_type_kind.
    + destruct cur as [r|]; [|by apply IH].
      destruct (20 <? length (strip line)); [|by apply IH].
      apply IH; try assumption.
      intros r' [= <-]. apply add_details_sound. by apply Hcur.
Qed.

Lemma resources_loop_short skills_names difficulty_level lines resource_count :
  Forall (fun line => length (strip line) <= 15) lines ->
  resources_loop skills_names difficulty_level lines [] None resource_count
  = ([], None).
Proof.
  revert resource_count. induction lines as [|line rest IH]; intros n Hall;
    [reflexivity|].
  apply Forall_cons in Hall as [Hshort Hall].
  cbn [resources_loop]. cbn zeta.
  destruct (negb (nonempty (strip line))); [by apply IH|].
  destruct (Nat.ltb_spec 15 (length (strip line))); [lia|].
  cbn [andb]. by apply IH.
Qed.

(** X26: at most eight resources are read from a response; each carries
    the requested difficulty and the names of the skills, costs [free] or
    [paid] and is of one of the six kinds.  A response without any line of
    more than 15 characters gives no resource at all. *)
Theorem _parse_resource_recommendations_resources (ai_response : str)
    (skills_names : list str) (difficulty_level : str) :
  let found :=
    resources (_parse_resource_recommendations ai_response skills_names
                 difficulty_level) in
  length found <= 8
  /\ Forall (sound_resource skills_names difficulty_level) found
  /\ (Forall (fun line => length (strip line) <= 15) (split NL ai_response) ->
      found = []).
Proof.
  cbn zeta. unfold _parse_resource_recommendations.
  pose proof (resources_loop_sound skills_names difficulty_level
                (split NL ai_response) [] None 0 eq_refl) as Hloop.
  cbn zeta in Hloop.
  pose proof (resources_loop_short skills_names difficulty_level
                (split NL ai_response) 0) as Hnone.
  destruct (resources_loop _ _ _ _ _ _) as [rs cur].
  destruct Hloop as (Hcount & Hrs & Hcur); [lia | constructor | discriminate |].
  cbn [fst snd resources] in *.
  split; [|split].
  - destruct cur; [rewrite length_app; cbn [length]|]; lia.
  - destruct cur as [r|]; [|exact Hrs].
    apply Forall_app. split; [exact Hrs|]. constructor; [by apply Hcur|constructor].
  - intros Hall. by injection (Hnone Hall) as -> ->.
Qed.
End ResourceParsers.

(** A response of one short line. *)
Lemma _parse_resource_recommendations_resources_witness :
  resources (_parse_resource_recommendations (py "No idea.") [py "Rust"]
               (py "beginner")) = [].
Proof.
  apply (proj2 (proj2 (_parse_resource_recommendations_resources (py "No idea.")
                         [py "Rust"] (py "beginner")))).
  repeat constructor; vm_compute; lia.
Defined.

Section GapAnalysisProperties.
Context `{UnicodeData} `{UnicodeText}.
Variable int_max_str_digits : option nat.

Lemma digits_value_nonneg (digits : str) : (0 <= digits_value digits)%Z.
Proof.
  unfold digits_value.
  assert (Hacc : forall acc, (0 <= acc)%Z ->
            (0 <= foldl (fun acc c => acc * 10 + digit_value c) acc digits)%Z).
  { induction digits as [|c digits IH]; intros acc Hacc; [exact Hacc|].
    cbn [foldl]. apply IH. pose proof (digit_value_nonneg c). lia. }
  by apply Hacc.
Qed.

Lemma score_loop_bounded lines score n :
  (0 <= score <= 100)%Z ->
  score_loop int_max_str_digits lines score = Ok n -> (0 <= n <= 100)%Z.
Proof.
  intros Hscore. induction lines as [|line rest IH]; cbn [score_loop].
  - by intros [= <-].
  - destruct (_ || _); [|exact IH].
    destruct (nonempty (first_number line)); [|exact IH].
    unfold py_int.
    destruct int_max_str_digits as [limit|];
      [destruct (_ && _); [discriminate|]|];
      intros [= <-]; pose proof (digits_value_nonneg (first_number line)); lia.
Qed.

Lemma _extract_skill_from_line_named line skills_analysis name :
  _extract_skill_from_line line skills_analysis = Some name ->
  name ∈ skill_name <$> skills_analysis.
Proof.
  induction skills_analysis as [|skill rest IH]; cbn [_extract_skill_from_line];
    [discriminate|].
  destruct (contains _ _).
  - intros [= <-]. apply list_elem_of_here.
  - intros Hn. apply list_elem_of_further, IH, Hn.
Qed.

Lemma gaps_loop_named skills_analysis lines gap_section critical_gaps :
  let named (g : gap) :=
    gap_skill g ∈ skill_name <$> skills_analysis /\ gap_skill g <> []
    /\ gap_severity g = py "high" in
  Forall named critical_gaps ->
  Forall named (gaps_loop skills_analysis lines gap_section critical_gaps).
Proof.
  intros named. revert gap_section critical_gaps.
  induction lines as [|line rest IH]; intros flag gaps Hgaps; [exact Hgaps|].
  cbn [gaps_loop]. cbn zeta.
  destruct (_ || _); [by apply IH|].
  destruct (flag && _); [|by apply IH].
  destruct (existsb _ _); [by apply IH|].
  destruct (_extract_skill_from_line line skills_analysis) as [[|c name]|] eqn:E;
    try by apply IH.
  apply IH, Forall_app. split; [exact Hgaps|]. constructor; [|constructor].
  repeat split; [|discriminate].
  by apply (_extract_skill_from_line_named line).
Qed.

(** X27: whatever the response, the readiness score of the gap analysis is
    between 0 and 100 (a larger number of the response is capped at 100);
    and unless the analysis is the fixed fallback, every critical gap names
    a skill of the assessment, with severity [high], and the strengths have
    more than 10 characters. *)
Theorem _parse_gap_analysis_score (ai_response : json)
    (skills_analysis : list skill_entry) :
  let analysis := _parse_gap_analysis int_max_str_digits ai_response skills_analysis in
  (0 <= overall_readiness_score analysis <= 100)%Z
  /\ (analysis = _create_fallback_gap_analysis skills_analysis
      \/ Forall (fun g => gap_skill g ∈ skill_name <$> skills_analysis
                          /\ gap_skill g <> [] /\ gap_severity g = py "high")
           (critical_gaps analysis)
         /\ Forall (fun strength => 10 < length strength) (strengths analysis)).
Proof.
  cbn zeta. unfold _parse_gap_analysis.
  destruct ai_response as [| | |s| |]; try (split; [cbn; lia | by left]).
  destruct (score_loop _ _ _) as [n|e] eqn:Escore; [|split; [cbn; lia | by left]].
  cbn [overall_readiness_score critical_gaps strengths]. split.
  - apply (score_loop_bounded _ 60 n) in Escore; [exact Escore | lia].
  - right. split; [by apply gaps_loop_named|].
    unfold clean_lines_with.
    eapply Forall_impl; [apply Forall_filter_true|].
    intros strength Hs. cbv beta in Hs. by apply Nat.ltb_lt in Hs.
Qed.

End GapAnalysisProperties.

Section MilestoneProperties.
Context `{UnicodeData} `{UnicodeText}.

Lemma milestone_title_short (line : str) : length (milestone_title line) <= 50.
Proof.
  unfold milestone_title. cbn zeta.
  destruct (Nat.ltb_spec 50 (length (strip (replace [COLON] [] line)))); [|lia].
  rewrite length_app, length_take. change (length (py "...")) with 3. lia.
Qed.

Lemma milestones_loop_orders lines milestones current_milestone milestone_order :
  let all_of (ms : list milestone_data) (cur : option milestone_data) :=
    ms ++ match cur with Some m => [m] | None => [] end in
  let fine (m : milestone_data) :=
    length (md_title m) <= 50 /\ md_estimated_hours m = 20%Z in
  md_order <$> all_of milestones current_milestone = seq 1 (milestone_order - 1) ->
  1 <= milestone_order ->
  Forall fine (all_of milestones current_milestone) ->
  let out := milestones_loop lines milestones current_milestone milestone_order in
  md_order <$> all_of out.1 out.2 = seq 1 (length (all_of out.1 out.2))
  /\ Forall fine (all_of out.1 out.2).
Proof.
  intros all_of fine. revert milestones current_milestone milestone_order.
  induction lines as [|line rest IH]; intros ms cur n Horders Hn Hfine; cbn zeta.
  - cbn [milestones_loop fst snd]. split; [|exact Hfine].
    rewrite Horders. f_equal.
    rewrite <- (length_fmap md_order), Horders. by rewrite length_seq.
  - cbn [milestones_loop]. cbn zeta.
    destruct (negb (nonempty (strip line))); [by apply IH|].
    destruct (existsb _ milestone_keywords).
    + apply IH; [|lia|].
      * unfold all_of in *. rewrite fmap_app. cbn [fmap list_fmap md_order].
        replace (match cur with Some m => ms ++ [m] | None => ms end)
          with (ms ++ match cur with Some m => [m] | None => [] end)
          by (destruct cur; [reflexivity | by rewrite app_nil_r]).
        rewrite Horders. replace (n + 1 - 1) with (n - 1 + 1) by lia.
        rewrite seq_app. cbn. do 3 f_equal. lia.
      * unfold all_of in *.
        replace (match cur with Some m => ms ++ [m] | None => ms end)
          with (ms ++ match cur with Some m => [m] | None => [] end)
          by (destruct cur; [reflexivity | by rewrite app_nil_r]).
        apply Forall_app. split; [exact Hfine|]. constructor; [|constructor].
        split; [apply milestone_title_short | reflexivity].
    + destruct cur as [m|]; [|by apply IH].
      destruct (existsb _ skill_keywords); [|by apply IH].
      apply IH; [|lia|].
      * unfold all_of in *. rewrite fmap_app in *. exact Horders.
      * unfold all_of in *. apply Forall_app in Hfine as [Hms Hm].
        apply Forall_app. split; [exact Hms|].
        apply Forall_cons in Hm as [Hm _]. constructor; [exact Hm|constructor].
Qed.

(** X28: the milestones read from a response have titles of at most 50
    characters, 20 estimated hours each, and the orders 1, 2, ... in the
    order of the response. *)
Theorem parsed_milestones_orders (ai_response : str) :
  let ms := parsed_milestones ai_response in
  md_order <$> ms = seq 1 (length ms)
  /\ Forall (fun m => length (md_title m) <= 50 /\ md_estimated_hours m = 20%Z) ms.
Proof.
  cbn zeta. unfold parsed_milestones.
  pose proof (milestones_loop_orders (split NL ai_response) [] None 1 eq_refl)
    as Hloop.
  cbn zeta in Hloop.
  destruct (milestones_loop _ _ _ _) as [ms cur].
  destruct Hloop as [Horders Hfine]; [lia | constructor |].
  cbn [fst snd] in *.
  destruct cur as [m|]; [|rewrite app_nil_r in *]; by split.
Qed.
End MilestoneProperties.

(** ** The roadmap parsers, run on sample responses *)

Example plan_weekly_goals :
  (fun g => (week g, goal g)) <$> _extract_weekly_goals_from_response plan_text
  = [(1, py "Learn basics of programming"); (2, py "Week 3 - practice daily")].
Proof. vm_compute. reflexivity. Qed.

Example plan_recommendations :
  _extract_recommendations_from_response plan_text
  = [py "I recommend reading docs every day";
     py "Consider joining a community of learners"].
Proof. vm_compute. reflexivity. Qed.

Example plan_milestones :
  (fun m => (md_order m, md_title m, md_skill_name m)) <$> parsed_milestones plan_text
  = [(1, py "Week 1 Learn basics of programming", []);
     (2, py "week two has no digit", []);
     (3, py "Week 3 - practice daily", py "Consider")].
Proof. vm_compute. reflexivity. Qed.

Example gaps_score_capped :
  let analysis := _parse_gap_analysis (Some 4300) (JStr gaps_text) [python_skill] in
  overall_readiness_score analysis = 100%Z
  /\ gap_skill <$> critical_gaps analysis = [py "Python"]
  /\ strengths analysis = [py "Strengths: good at SQL and more"].
Proof. vm_compute. repeat split. Qed.
